(** * youtube-analyzer: the search / normalise / filter / transcript core of
    [main.py], embedded in Rocq.

    The file has two parts.  Part I is the model: Python's exceptions and
    the few built-ins the program relies on ([str.split], [str.lower],
    [in], [int], [datetime], [timedelta], [datetime.strptime], [dict]
    access), followed by the functions of [main.py] under their own names.
    Part II states and proves the properties of these functions. *)

From Stdlib Require Import ZArith QArith List String Ascii Bool Lia.
From stdpp Require Import base option list gmap strings.

Set Warnings "-register-all".
Open Scope string_scope.
Open Scope Z_scope.
#[local] Arguments String.append !s1 s2 : simpl nomatch.

(* ===================================================================== *)
(** * Part I.  The model                                                  *)
(* ===================================================================== *)

(** ** Exceptions and results *)

(** The exception classes the program can meet.  Every one of them derives
    from [Exception], which is what the handlers [except Exception] of
    [main.py] catch; an interrupt of the process ([KeyboardInterrupt],
    [SystemExit]) is no failure of the program and is not modelled.
    [LibraryError cls msg] stands for an exception class of a third-party
    package (an HTTP error of the API client, a [TranscriptsDisabled] of
    the transcript package, ...).  The message of an exception that the
    interpreter or a library raises is indicative: its wording changes
    with the version, and no property rests on it. *)
Inductive exn : Type :=
| ValueError (msg : string)
| KeyError (key : string)
| TypeError (msg : string)
| AttributeError (msg : string)
| OverflowError (msg : string)
| OSError (msg : string)
| LibraryError (cls msg : string).

(** [str(e)].  A [KeyError] prints the [repr] of its key. *)
Definition exn_str (e : exn) : string :=
  match e with
  | ValueError m | TypeError m | AttributeError m
  | OverflowError m | OSError m | LibraryError _ m => m
  | KeyError k => "'" ++ k ++ "'"
  end.

(** [isinstance(e, ValueError)], the test of [except ValueError]. *)
Definition is_ValueError (e : exn) : bool :=
  match e with ValueError _ => true | _ => false end.

(** The outcome of evaluating a Python expression. *)
Inductive py (A : Type) : Type :=
| Ret (a : A)
| Raise (e : exn).
Arguments Ret {A} a.
Arguments Raise {A} e.

#[global] Instance py_ret : MRet py := fun _ a => Ret a.
#[global] Instance py_bind : MBind py := fun _ _ f m =>
  match m with
  | Ret a => f a
  | Raise e => Raise e
  end.

(** [try: m  except C: h] for the class test [catches]. *)
Definition try_except {A} (m : py A) (catches : exn -> bool) (h : exn -> py A) : py A :=
  match m with
  | Ret a => Ret a
  | Raise e => if catches e then h e else Raise e
  end.

Definition returns {A} (m : py A) : bool :=
  match m with Ret _ => true | Raise _ => false end.

(** ** Strings

    A Python [str] is modelled by a [string] whose characters are read as
    code points 0..255 (Latin-1); the built-ins below follow CPython on
    that range. *)

Definition code (c : ascii) : Z := Z.of_N (N_of_ascii c).

(** [c.isspace()]: TAB..CR, FS..US, SPACE, NEL and NBSP. *)
Definition isspace (c : ascii) : bool :=
  let n := code c in
  ((9 <=? n) && (n <=? 13)) || ((28 <=? n) && (n <=? 32))
  || (n =? 133) || (n =? 160).

Definition isdigit (c : ascii) : bool :=
  let n := code c in (48 <=? n) && (n <=? 57).

Definition digit_val (c : ascii) : Z := code c - 48.

(** [c.lower()]: A..Z and the capital letters of Latin-1 (all of
    0xC0..0xDE but the multiplication sign). *)
Definition lower_char (c : ascii) : ascii :=
  let n := code c in
  if ((65 <=? n) && (n <=? 90))
     || ((192 <=? n) && (n <=? 222) && negb (n =? 215))
  then ascii_of_N (Z.to_N (n + 32))
  else c.

Fixpoint lower (s : string) : string :=
  match s with
  | EmptyString => EmptyString
  | String c s' => String (lower_char c) (lower s')
  end.

(** [needle in hay] for two strings. *)
Fixpoint contains (needle hay : string) : bool :=
  String.prefix needle hay
  || match hay with
     | EmptyString => false
     | String _ hay' => contains needle hay'
     end.

(** [s.split()]: the maximal runs of non-blank characters.  [tok] is the
    run being read. *)
Fixpoint split_from (tok : string) (s : string) : list string :=
  match s with
  | EmptyString => if String.eqb tok "" then [] else [tok]
  | String c s' =>
      if isspace c
      then (if String.eqb tok "" then split_from "" s'
            else tok :: split_from "" s')
      else split_from (tok ++ String c "") s'
  end.

Definition split (s : string) : list string := split_from "" s.

Fixpoint lstrip (s : list ascii) : list ascii :=
  match s with
  | c :: s' => if isspace c then lstrip s' else s
  | [] => []
  end.

Definition strip (s : list ascii) : list ascii :=
  rev (lstrip (rev (lstrip s))).

(** The digits of an [int] literal in base 10: digits separated by single
    underscores.  [prev] tells whether the previous character was a digit,
    [acc] is the value and [n] the number of digits read so far. *)
Fixpoint int_digits (prev : bool) (acc : Z) (n : nat) (s : list ascii)
  : option (Z * nat) :=
  match s with
  | [] => if prev then Some (acc, n) else None
  | c :: s' =>
      if isdigit c then int_digits true (10 * acc + digit_val c) (S n) s'
      else if Ascii.eqb c "_" && prev then int_digits false acc n s'
      else None
  end.

Definition invalid_literal (s : string) : exn :=
  ValueError ("invalid literal for int() with base 10: '" ++ s ++ "'").

(** [int(s)] for a string [s]: blanks around, an optional sign, digits.
    [max_digits] is [sys.get_int_max_str_digits()] (4300 unless configured;
    0 switches the limit off): a literal of more than 640 digits that
    exceeds it is refused with a [ValueError] too. *)
Definition py_int (max_digits : nat) (s : string) : py Z :=
  let body := strip (list_ascii_of_string s) in
  let '(neg, ds) :=
    match body with
    | c :: r => if Ascii.eqb c "-" then (true, r)
                else if Ascii.eqb c "+" then (false, r)
                else (false, body)
    | [] => (false, [])
    end in
  match int_digits false 0 0 ds with
  | None => Raise (invalid_literal s)
  | Some (v, n) =>
      if Nat.ltb 640 n && negb (Nat.eqb max_digits 0) && Nat.ltb max_digits n
      then Raise (ValueError "Exceeds the limit for integer string conversion")
      else Ret (if neg then - v else v)
  end.

(** ** [datetime] and [timedelta]

    A naive [datetime] is its seven fields, as in Python.  The calendar
    functions are those of CPython's [Lib/_pydatetime.py], under their
    names there. *)

Record datetime : Type := mkdatetime {
  year : Z; month : Z; day : Z;
  hour : Z; minute : Z; second : Z; microsecond : Z
}.

Definition MINYEAR : Z := 1.
Definition MAXYEAR : Z := 9999.
(** [date.max.toordinal()] *)
Definition MAXORDINAL : Z := 3652059.

Definition is_leap (y : Z) : bool :=
  (y mod 4 =? 0) && (negb (y mod 100 =? 0) || (y mod 400 =? 0)).

Definition DAYS_IN_MONTH (m : Z) : Z :=
  match m with
  | 1 => 31 | 2 => 28 | 3 => 31 | 4 => 30 | 5 => 31 | 6 => 30
  | 7 => 31 | 8 => 31 | 9 => 30 | 10 => 31 | 11 => 30 | 12 => 31
  | _ => -1
  end.

Definition DAYS_BEFORE_MONTH (m : Z) : Z :=
  match m with
  | 1 => 0 | 2 => 31 | 3 => 59 | 4 => 90 | 5 => 120 | 6 => 151
  | 7 => 181 | 8 => 212 | 9 => 243 | 10 => 273 | 11 => 304 | 12 => 334
  | _ => -1
  end.

Definition days_before_year (y : Z) : Z :=
  let y := y - 1 in y * 365 + y / 4 - y / 100 + y / 400.

Definition days_in_month (y m : Z) : Z :=
  if (m =? 2) && is_leap y then 29 else DAYS_IN_MONTH m.

Definition days_before_month (y m : Z) : Z :=
  DAYS_BEFORE_MONTH m + (if (2 <? m) && is_leap y then 1 else 0).

Definition ymd2ord (y m d : Z) : Z :=
  days_before_year y + days_before_month y m + d.

Definition DI400Y : Z := 146097.
Definition DI100Y : Z := 36524.
Definition DI4Y : Z := 1461.

(** The last lines of [_ord2ymd]: the month and the day of the [n]-th day
    (from 0) of a year, by an estimate of the month that is at most one
    too large. *)
Definition month_and_day (leapyear : bool) (n : Z) : Z * Z :=
  let m := Z.shiftr (n + 50) 5 in
  let preceding := DAYS_BEFORE_MONTH m + (if (2 <? m) && leapyear then 1 else 0) in
  if n <? preceding
  then
    let m' := m - 1 in
    let preceding' :=
      preceding - (DAYS_IN_MONTH m' + (if (m' =? 2) && leapyear then 1 else 0)) in
    (m', n - preceding' + 1)
  else (m, n - preceding + 1).

(** [_ord2ymd]: the date of a proleptic Gregorian ordinal (1 is
    0001-01-01). *)
Definition ord2ymd (n : Z) : Z * Z * Z :=
  let n := n - 1 in
  let n400 := n / DI400Y in
  let n := n mod DI400Y in
  let y := n400 * 400 + 1 in
  let n100 := n / DI100Y in
  let n := n mod DI100Y in
  let n4 := n / DI4Y in
  let n := n mod DI4Y in
  let n1 := n / 365 in
  let n := n mod 365 in
  let y := y + n100 * 100 + n4 * 4 + n1 in
  if (n1 =? 4) || (n100 =? 4) then (y - 1, 12, 31)
  else
    let leapyear := (n1 =? 3) && (negb (n4 =? 24) || (n100 =? 3)) in
    let '(m, d) := month_and_day leapyear n in
    (y, m, d).

(** The checks of the [datetime] constructor. *)
Definition valid_datetime (t : datetime) : bool :=
  (MINYEAR <=? year t) && (year t <=? MAXYEAR)
  && (1 <=? month t) && (month t <=? 12)
  && (1 <=? day t) && (day t <=? days_in_month (year t) (month t))
  && (0 <=? hour t) && (hour t <=? 23)
  && (0 <=? minute t) && (minute t <=? 59)
  && (0 <=? second t) && (second t <=? 59)
  && (0 <=? microsecond t) && (microsecond t <=? 999999).

(** [datetime(y, m, d, H, M, S)], microsecond 0. *)
Definition make_datetime (y m d hh mm ss : Z) : py datetime :=
  let t := mkdatetime y m d hh mm ss 0 in
  if valid_datetime t then Ret t
  else Raise (ValueError "datetime field out of range").

Definition toordinal (t : datetime) : Z := ymd2ord (year t) (month t) (day t).

(** Comparison of two naive datetimes: the fields, most significant
    first. *)
Definition datetime_fields (t : datetime) : list Z :=
  [year t; month t; day t; hour t; minute t; second t; microsecond t].

Fixpoint lex_compare (a b : list Z) : comparison :=
  match a, b with
  | x :: a', y :: b' =>
      match x ?= y with
      | Eq => lex_compare a' b'
      | c => c
      end
  | [], [] => Eq
  | [], _ :: _ => Lt
  | _ :: _, [] => Gt
  end.

(** [a <= b] *)
Definition datetime_le (a b : datetime) : bool :=
  match lex_compare (datetime_fields a) (datetime_fields b) with
  | Gt => false
  | _ => true
  end.

(** A [timedelta] is its exact length in microseconds; its [days],
    [seconds] and [microseconds] attributes are the normalised parts. *)
Definition US_PER_SECOND : Z := 1000000.
Definition US_PER_HOUR : Z := 3600 * US_PER_SECOND.
Definition US_PER_DAY : Z := 24 * US_PER_HOUR.
Definition US_PER_WEEK : Z := 7 * US_PER_DAY.

Definition td_days (td : Z) : Z := td / US_PER_DAY.
Definition td_seconds (td : Z) : Z := (td mod US_PER_DAY) / US_PER_SECOND.
Definition td_microseconds (td : Z) : Z := td mod US_PER_SECOND.

(** The [timedelta] constructor on integer arguments, given as their sum
    in microseconds: more than 999999999 days either way is refused. *)
Definition timedelta (us : Z) : py Z :=
  if 999999999 <? Z.abs (td_days us)
  then Raise (OverflowError "timedelta # of days is too large")
  else Ret us.

(** [timedelta(self.toordinal(), hours=.., minutes=.., seconds=..,
    microseconds=..)], the value [datetime.__add__] starts from. *)
Definition as_timedelta (t : datetime) : Z :=
  toordinal t * US_PER_DAY + hour t * US_PER_HOUR
  + minute t * (60 * US_PER_SECOND) + second t * US_PER_SECOND + microsecond t.

(** Microseconds elapsed since 0001-01-01T00:00:00. *)
Definition timestamp (t : datetime) : Z := as_timedelta t - US_PER_DAY.

(** [t - td] for a datetime [t] and a timedelta [td], that is
    [t + (-td)]. *)
Definition datetime_sub (t : datetime) (td : Z) : py datetime :=
  neg ← timedelta (- td);
  self ← timedelta (as_timedelta t);
  delta ← timedelta (self + neg);
  let h := td_seconds delta / 3600 in
  let rem := td_seconds delta mod 3600 in
  if (0 <? td_days delta) && (td_days delta <=? MAXORDINAL)
  then
    let '(y, m, d) := ord2ymd (td_days delta) in
    Ret (mkdatetime y m d h (rem / 60) (rem mod 60) (td_microseconds delta))
  else Raise (OverflowError "result out of range").

(** ** [datetime.strptime]

    [_strptime] turns the format into a regular expression, takes the match
    the backtracking matcher of [re] finds first, and refuses the input when
    that match stops before its end.  The directives' expressions use no
    repetition; [matches] lists the ways an expression matches a prefix, in
    the order the matcher tries them. *)

Inductive regex : Type :=
| Chr (p : ascii -> bool)
| Cat (r1 r2 : regex)
| Alt (r1 r2 : regex).

Fixpoint matches (r : regex) (s : list ascii) : list (list ascii * list ascii) :=
  match r with
  | Chr p =>
      match s with
      | c :: s' => if p c then [([c], s')] else []
      | [] => []
      end
  | Cat r1 r2 =>
      '(a, s1) ← matches r1 s;
      '(b, s2) ← matches r2 s1;
      [((a ++ b)%list, s2)]
  | Alt r1 r2 => (matches r1 s ++ matches r2 s)%list
  end.

(** [[lo-hi]] and [\d] *)
Definition range (lo hi : ascii) : regex :=
  Chr (fun c => (code lo <=? code c) && (code c <=? code hi)).
Definition digit : regex := Chr isdigit.
Definition chr (a : ascii) : regex := Chr (Ascii.eqb a).

(** The expressions of the directives, from [TimeRE] of [Lib/_strptime.py]. *)
(** [%Y]: [\d\d\d\d] *)
Definition re_Y : regex := Cat digit (Cat digit (Cat digit digit)).
(** [%m]: [1[0-2]|0[1-9]|[1-9]] *)
Definition re_m : regex :=
  Alt (Cat (chr "1") (range "0" "2")) (Alt (Cat (chr "0") (range "1" "9")) (range "1" "9")).
(** [%d]: [3[0-1]|[1-2]\d|0[1-9]|[1-9]| [1-9]] *)
Definition re_d : regex :=
  Alt (Cat (chr "3") (range "0" "1"))
 (Alt (Cat (range "1" "2") digit)
 (Alt (Cat (chr "0") (range "1" "9"))
 (Alt (range "1" "9")
      (Cat (chr " ") (range "1" "9"))))).
(** [%H]: [2[0-3]|[0-1]\d|\d] *)
Definition re_H : regex :=
  Alt (Cat (chr "2") (range "0" "3")) (Alt (Cat (range "0" "1") digit) digit).
(** [%M]: [[0-5]\d|\d] *)
Definition re_M : regex := Alt (Cat (range "0" "5") digit) digit.
(** [%S]: [6[0-1]|[0-5]\d|\d] *)
Definition re_S : regex :=
  Alt (Cat (chr "6") (range "0" "1")) (Alt (Cat (range "0" "5") digit) digit).

(** A format is a sequence of directives (named groups) and literal
    characters; the expression is compiled with [re.IGNORECASE]. *)
Inductive item : Type :=
| Group (r : regex)
| Literal (c : ascii).

Fixpoint match_items (its : list item) (s : list ascii)
  : list (list (list ascii) * list ascii) :=
  match its with
  | [] => [([], s)]
  | Group r :: its' =>
      '(g, s1) ← matches r s;
      '(gs, s2) ← match_items its' s1;
      [(g :: gs, s2)]
  | Literal c :: its' =>
      match s with
      | c' :: s1 =>
          if Ascii.eqb (lower_char c') (lower_char c) then match_items its' s1 else []
      | [] => []
      end
  end.

(** ['%Y-%m-%dT%H:%M:%SZ'], the format of [filter_videos_by_date_range]. *)
Definition published_format : list item :=
  [Group re_Y; Literal "-"; Group re_m; Literal "-"; Group re_d; Literal "T";
   Group re_H; Literal ":"; Group re_M; Literal ":"; Group re_S; Literal "Z"].

(** [datetime.strptime(s, '%Y-%m-%dT%H:%M:%SZ')] *)
Definition strptime (max_digits : nat) (s : string) : py datetime :=
  match match_items published_format (list_ascii_of_string s) with
  | [] => Raise (ValueError ("time data '" ++ s ++ "' does not match format"))
  | (gs, rest) :: _ =>
      match rest, gs with
      | [], [gY; gm; gd; gH; gM; gS] =>
          let int g := py_int max_digits (string_of_list_ascii g) in
          y ← int gY; m ← int gm; d ← int gd;
          hh ← int gH; mm ← int gM; ss ← int gS;
          make_datetime y m d hh mm ss
      | _, _ => Raise (ValueError "unconverted data remains")
      end
  end.

(** The text of a publish time as the API writes it, [YYYY-MM-DDThh:mm:ssZ]:
    what [t.strftime('%Y-%m-%dT%H:%M:%SZ')] prints, the year on four
    digits.  The text has no place for the microseconds. *)
Definition digit_char (d : Z) : ascii := ascii_of_N (Z.to_N (48 + d)).
Definition pad2 (n : Z) : list ascii := [digit_char (n / 10); digit_char (n mod 10)].
Definition pad4 (n : Z) : list ascii := (pad2 (n / 100) ++ pad2 (n mod 100))%list.

Definition iso8601 (t : datetime) : string :=
  string_of_list_ascii
    (pad4 (year t) ++ "-"%char :: pad2 (month t) ++ "-"%char :: pad2 (day t)
     ++ "T"%char :: pad2 (hour t) ++ ":"%char :: pad2 (minute t)
     ++ ":"%char :: pad2 (second t) ++ ["Z"%char])%list.

(** ** Raw results

    A raw result of either backend is a JSON-like Python object: a [dict]
    with string keys is a [gmap]. *)

Inductive value : Type :=
| VNone
| VBool (b : bool)
| VInt (z : Z)
| VStr (s : string)
| VList (l : list value)
| VDict (d : gmap string value).

Definition type_name (v : value) : string :=
  match v with
  | VNone => "NoneType"
  | VBool _ => "bool"
  | VInt _ => "int"
  | VStr _ => "str"
  | VList _ => "list"
  | VDict _ => "dict"
  end.

(** [bool(v)] *)
Definition truthy (v : value) : bool :=
  match v with
  | VNone => false
  | VBool b => b
  | VInt z => negb (z =? 0)
  | VStr s => negb (String.eqb s "")
  | VList l => match l with [] => false | _ => true end
  | VDict d => match map_to_list d with [] => false | _ => true end
  end.

(** [v[k]] for a string key [k] *)
Definition getitem (v : value) (k : string) : py value :=
  match v with
  | VDict d =>
      match d !! k with
      | Some x => Ret x
      | None => Raise (KeyError k)
      end
  | VStr _ => Raise (TypeError "string indices must be integers")
  | VList _ => Raise (TypeError "list indices must be integers or slices, not str")
  | _ => Raise (TypeError ("'" ++ type_name v ++ "' object is not subscriptable"))
  end.

(** [v.get(k, dflt)] *)
Definition get (v : value) (k : string) (dflt : value) : py value :=
  match v with
  | VDict d => Ret (default dflt (d !! k))
  | _ => Raise (AttributeError ("'" ++ type_name v ++ "' object has no attribute 'get'"))
  end.

(** ['Streamed' in v], here for any string [needle] *)
Definition py_in (needle : string) (v : value) : py bool :=
  match v with
  | VStr s => Ret (contains needle s)
  | VList l =>
      Ret (existsb (fun x => match x with VStr s => String.eqb s needle | _ => false end) l)
  | VDict d => Ret (bool_decide (is_Some (d !! needle)))
  | _ => Raise (TypeError ("argument of type '" ++ type_name v ++ "' is not iterable"))
  end.

(** [v.split()] *)
Definition py_split (v : value) : py (list string) :=
  match v with
  | VStr s => Ret (split s)
  | _ => Raise (AttributeError ("'" ++ type_name v ++ "' object has no attribute 'split'"))
  end.

(** ** The environment of a run

    What the program reads from outside: the clock (frozen: every
    [datetime.now()] of a run reads [now]), the interpreter's digit limit,
    the API client built at import time ([None] without a key), and the
    answers of the three upstream services.  An answer is the list of raw
    results the call and the subscript after it ([['items']], [['result']])
    produce, or the exception raised on the way. *)

Record youtube_client : Type := {
  search_list : string -> Z -> py (list value);
  videos_list : string -> py (list value)
}.

(** An entry of a transcript; the float [start] is the rational it
    denotes. *)
Record transcript_entry : Type := { start : Q; text : string }.

Record env : Type := {
  now : datetime;
  int_max_str_digits : nat;
  youtube : option youtube_client;
  VideosSearch : string -> Z -> py (list value);
  get_transcript : string -> py (list transcript_entry);
  open_fails : string -> option exn
}.

(** ** The functions of [main.py] that compute *)

(** [parse_relative_time(time_str)] *)
Definition parse_relative_time (E : env) (time_str : value) : py datetime :=
  if negb (truthy time_str) then Ret (now E)
  else
    streamed ← py_in "Streamed" time_str;
    if streamed : bool then Ret (now E)
    else
      let current_time := now E in
      time_parts ← py_split time_str;
      if (length time_parts <? 2)%nat then Ret current_time
      else
        try_except
          (value ← py_int (int_max_str_digits E) (nth 0 time_parts "");
           let unit := lower (nth 1 time_parts "") in
           if contains "hour" unit then
             td ← timedelta (value * US_PER_HOUR); datetime_sub current_time td
           else if contains "day" unit then
             td ← timedelta (value * US_PER_DAY); datetime_sub current_time td
           else if contains "week" unit then
             td ← timedelta (value * US_PER_WEEK); datetime_sub current_time td
           else if contains "month" unit then
             td ← timedelta (value * 30 * US_PER_DAY); datetime_sub current_time td
           else if contains "year" unit then
             td ← timedelta (value * 365 * US_PER_DAY); datetime_sub current_time td
           else Ret current_time)
          is_ValueError
          (fun _ => Ret current_time).

(** The publish time the loop of [filter_videos_by_date_range] computes for
    one video (lines 93-96). *)
Definition publish_date (E : env) (use_api : bool) (video : value) : py datetime :=
  if use_api then
    snippet ← getitem video "snippet";
    published ← getitem snippet "publishedAt";
    match published with
    | VStr s => strptime (int_max_str_digits E) s
    | _ => Raise (TypeError ("strptime() argument 1 must be str, not "
                              ++ type_name published))
    end
  else
    published ← get video "publishedTime" (VStr "");
    parse_relative_time E published.

(** The loop of [filter_videos_by_date_range]; [filtered_videos] is the
    list built so far. *)
Fixpoint filter_loop (E : env) (start_date end_date : datetime) (use_api : bool)
    (videos filtered_videos : list value) : py (list value) :=
  match videos with
  | [] => Ret filtered_videos
  | video :: videos' =>
      d ← publish_date E use_api video;
      filter_loop E start_date end_date use_api videos'
        (if datetime_le start_date d && datetime_le d end_date
         then (filtered_videos ++ [video])%list
         else filtered_videos)
  end.

(** [filter_videos_by_date_range(videos, start_date, end_date, use_api)] *)
Definition filter_videos_by_date_range (E : env) (videos : list value)
    (start_date end_date : datetime) (use_api : bool) : py (list value) :=
  filter_loop E start_date end_date use_api videos [].

(** The five columns of a result, in the order of the CSV header
    ['Title', 'Channel', 'View Count', 'Publish Date', 'Video ID']. *)
Record row : Type := {
  r_title : value; r_channel : value; r_views : value;
  r_published : value; r_video_id : value
}.

Definition NA : value := VStr "N/A".

(** The field mapping shared by [export_to_csv] (lines 108-123) and
    [display_results] (lines 231-242); the accesses are made in the order
    of the source. *)
Definition video_fields (use_api : bool) (video : value) : py row :=
  if use_api then
    s1 ← getitem video "snippet"; title ← getitem s1 "title";
    s2 ← getitem video "snippet"; channel ← getitem s2 "channelTitle";
    st ← getitem video "statistics"; views ← get st "viewCount" NA;
    s3 ← getitem video "snippet"; published ← getitem s3 "publishedAt";
    video_id ← getitem video "id";
    Ret (Build_row title channel views published video_id)
  else
    title ← get video "title" NA;
    ch ← get video "channel" (VDict ∅); channel ← get ch "name" NA;
    vc ← get video "viewCount" (VDict ∅); views ← get vc "text" NA;
    published ← get video "publishedTime" NA;
    video_id ← get video "id" NA;
    Ret (Build_row title channel views published video_id).

(** ** The window and what it does

    The state of a run: the files on disk, the attributes of the
    [YouTubeAnalyzer] window that the functions read and write, and the
    trace of what was sent upstream, printed and shown, oldest first. *)

Inductive event : Type :=
| ApiSearch (query : string) (max_results : Z)
| ApiVideos (ids : string)
| Scrape (query : string) (limit : Z)
| TranscriptRequest (video_id : string)
| FilterCall (use_api : bool)
| Print (line : string)
| Information (title body : string)
| Warning (title body : string).

Inductive file : Type :=
| Text (content : string)
| Csv (rows : list (list value)).

Record app : Type := {
  files : gmap string file;
  trace : list event;
  transcript_directory : string;
  transcript_windows : list string;
  results_layout : list row;
  video_results : option (list value);
  self_use_api : bool
}.

Definition M (A : Type) : Type := app -> py A * app.

#[global] Instance M_ret : MRet M := fun _ a s => (Ret a, s).
#[global] Instance M_bind : MBind M := fun _ _ f m s =>
  match m s with
  | (Ret a, s') => f a s'
  | (Raise e, s') => (Raise e, s')
  end.

Definition lift {A} (m : py A) : M A := fun s => (m, s).
Definition raise {A} (e : exn) : M A := fun s => (Raise e, s).
Definition get_state : M app := fun s => (Ret s, s).
Definition put_state (s : app) : M unit := fun _ => (Ret tt, s).

(** [try: m  except Exception as e: h e]; what [m] did before it raised
    stays done. *)
Definition try_except_Exception {A} (m : M A) (h : exn -> M A) : M A := fun s =>
  match m s with
  | (Raise e, s') => h e s'
  | r => r
  end.

Definition emit (ev : event) : M unit := fun s =>
  (Ret tt,
   {| files := files s; trace := (trace s ++ [ev])%list;
      transcript_directory := transcript_directory s;
      transcript_windows := transcript_windows s;
      results_layout := results_layout s;
      video_results := video_results s; self_use_api := self_use_api s |}).

Definition set_files (f : gmap string file) : M unit := fun s =>
  (Ret tt,
   {| files := f; trace := trace s;
      transcript_directory := transcript_directory s;
      transcript_windows := transcript_windows s;
      results_layout := results_layout s;
      video_results := video_results s; self_use_api := self_use_api s |}).

Definition set_transcript_windows (w : list string) : M unit := fun s =>
  (Ret tt,
   {| files := files s; trace := trace s;
      transcript_directory := transcript_directory s;
      transcript_windows := w;
      results_layout := results_layout s;
      video_results := video_results s; self_use_api := self_use_api s |}).

Definition set_results_layout (l : list row) : M unit := fun s =>
  (Ret tt,
   {| files := files s; trace := trace s;
      transcript_directory := transcript_directory s;
      transcript_windows := transcript_windows s;
      results_layout := l;
      video_results := video_results s; self_use_api := self_use_api s |}).

Definition set_video_results (v : list value) : M unit := fun s =>
  (Ret tt,
   {| files := files s; trace := trace s;
      transcript_directory := transcript_directory s;
      transcript_windows := transcript_windows s;
      results_layout := results_layout s;
      video_results := Some v; self_use_api := self_use_api s |}).

Definition set_use_api (b : bool) : M unit := fun s =>
  (Ret tt,
   {| files := files s; trace := trace s;
      transcript_directory := transcript_directory s;
      transcript_windows := transcript_windows s;
      results_layout := results_layout s;
      video_results := video_results s; self_use_api := b |}).

(** [for x in l: body x] *)
Fixpoint for_each {A} (l : list A) (body : A -> M unit) : M unit :=
  match l with
  | [] => mret tt
  | x :: l' => _ ← body x; for_each l' body
  end.

(** [[f x for x in l]] *)
Fixpoint comprehension {A B} (f : A -> py B) (l : list A) : py (list B) :=
  match l with
  | [] => Ret []
  | x :: l' => y ← f x; ys ← comprehension f l'; Ret (y :: ys)
  end.

(** [with open(path, 'w') as f: write f]: the file is created or emptied,
    then written. *)
Definition open_w (E : env) (path : string) (content : file) : M unit :=
  match open_fails E path with
  | Some e => raise e
  | None => s ← get_state; set_files (<[path := content]> (files s))
  end.

(** [search_videos_with_api(query, max_results)] *)
Definition search_videos_with_api (E : env) (query : string) (max_results : Z)
  : M (list value) :=
  match youtube E with
  | None => raise (AttributeError "'NoneType' object has no attribute 'search'")
  | Some client =>
      _ ← emit (ApiSearch query max_results);
      lift (search_list client query max_results)
  end.

(** [search_videos_without_api(query, max_results)] *)
Definition search_videos_without_api (E : env) (query : string) (max_results : Z)
  : M (list value) :=
  try_except_Exception
    (_ ← emit (Scrape query max_results);
     results ← lift (VideosSearch E query max_results);
     match results with
     | [] => raise (ValueError "No results found")
     | _ => mret results
     end)
    (fun e =>
       _ ← emit (Print ("Error in search_videos_without_api: " ++ exn_str e));
       mret []).

(** [','.join(video_ids)] *)
Fixpoint join_comma (l : list value) : py string :=
  match l with
  | [] => Ret ""
  | v :: l' =>
      match v with
      | VStr s =>
          match l' with
          | [] => Ret s
          | _ => r ← join_comma l'; Ret (s ++ "," ++ r)
          end
      | _ => Raise (TypeError ("sequence item: expected str instance, "
                                ++ type_name v ++ " found"))
      end
  end.

(** [get_video_details(video_ids)] *)
Definition get_video_details (E : env) (video_ids : list value) : M (list value) :=
  match youtube E with
  | None => raise (AttributeError "'NoneType' object has no attribute 'videos'")
  | Some client =>
      ids ← lift (join_comma video_ids);
      _ ← emit (ApiVideos ids);
      lift (videos_list client ids)
  end.

(** [self.display_results(videos)] *)
Definition display_results (videos : list value) : M unit :=
  _ ← set_results_layout [];
  for_each videos (fun video =>
    s ← get_state;
    r ← lift (video_fields (self_use_api s) video);
    s ← get_state;
    set_results_layout (results_layout s ++ [r])%list).

Definition csv_header : list value :=
  [VStr "Title"; VStr "Channel"; VStr "View Count"; VStr "Publish Date"; VStr "Video ID"].

Definition csv_row (r : row) : list value :=
  [r_title r; r_channel r; r_views r; r_published r; r_video_id r].

Definition writerow (filename : string) (cells : list value) : M unit :=
  s ← get_state;
  match files s !! filename with
  | Some (Csv rows) => set_files (<[filename := Csv (rows ++ [cells])%list]> (files s))
  | _ => raise (OSError "the file is not open for writing")
  end.

(** [export_to_csv(videos, filename, use_api)] *)
Definition export_to_csv (E : env) (videos : list value) (filename : string)
    (use_api : bool) : M unit :=
  _ ← open_w E filename (Csv []);
  _ ← writerow filename csv_header;
  for_each videos (fun video =>
    r ← lift (video_fields use_api video);
    writerow filename (csv_row r)).

(** What the widgets hold when the search button is pressed. *)
Record form : Type := {
  search_input : string;
  max_results_input : Z;
  start_date : Z * Z * Z;
  end_date : Z * Z * Z;
  use_api_checkbox : bool
}.

(** [datetime.combine(d, datetime.min.time())] and
    [datetime.combine(d, datetime.max.time())] *)
Definition day_start (d : Z * Z * Z) : datetime :=
  let '(y, m, dd) := d in mkdatetime y m dd 0 0 0 0.
Definition day_end (d : Z * Z * Z) : datetime :=
  let '(y, m, dd) := d in mkdatetime y m dd 23 59 59 999999.

Definition no_results_text : string :=
  "No results found. Please try a different query or date range.".

(** [self.search_and_display_videos()] *)
Definition search_and_display_videos (E : env) (f : form) : M unit :=
  let query := search_input f in
  let max_results := max_results_input f in
  let start_date := day_start (start_date f) in
  let end_date := day_end (end_date f) in
  _ ← set_use_api (use_api_checkbox f);
  try_except_Exception
    (filtered_videos ←
       (if use_api_checkbox f && bool_decide (is_Some (youtube E)) then
          search_results ← search_videos_with_api E query max_results;
          video_ids ← lift (comprehension
                              (fun item => i ← getitem item "id"; getitem i "videoId")
                              search_results);
          video_details ← get_video_details E video_ids;
          _ ← emit (FilterCall (use_api_checkbox f));
          lift (filter_videos_by_date_range E video_details start_date end_date
                  (use_api_checkbox f))
        else
          search_results ← search_videos_without_api E query max_results;
          match search_results with
          | [] => raise (ValueError "No results found")
          | _ =>
              _ ← emit (FilterCall (use_api_checkbox f));
              lift (filter_videos_by_date_range E search_results start_date end_date
                      (use_api_checkbox f))
          end);
     match filtered_videos with
     | [] => emit (Information "No Results" no_results_text)
     | _ =>
         _ ← set_video_results filtered_videos;
         display_results filtered_videos
     end)
    (fun e =>
       _ ← emit (Print ("An error occurred: " ++ exn_str e));
       emit (Warning "Error" ("An error occurred: " ++ exn_str e))).

(** [round(x)] to the nearest integer, ties to even: the rounding of the
    [.2f] format. *)
Definition round_half_even (x : Q) : Z :=
  let n := Qnum x in
  let d := Z.pos (Qden x) in
  let q := n / d in
  match 2 * (n mod d) ?= d with
  | Lt => q
  | Gt => q + 1
  | Eq => if Z.even q then q else q + 1
  end.

(** The decimal digits of a natural number, most significant first;
    [fuel] bounds their number. *)
Fixpoint decimal_digits (fuel : nat) (n : Z) (acc : list ascii) : list ascii :=
  match fuel with
  | O => acc
  | S fuel' =>
      let acc' := digit_char (n mod 10) :: acc in
      if n <? 10 then acc' else decimal_digits fuel' (n / 10) acc'
  end.

Definition decimal (n : Z) : string :=
  string_of_list_ascii (decimal_digits (S (Z.to_nat (Z.log2 n))) n []).

(** [f"{x:.2f}"] *)
Definition format_2f (x : Q) : string :=
  let a := Z.abs (round_half_even (x * 100)) in
  (if Qnum x <? 0 then "-" else "")
  ++ decimal (a / 100) ++ "." ++ string_of_list_ascii (pad2 (a mod 100)).

(** ["\n".join(lines)] *)
Fixpoint join_lines (lines : list string) : string :=
  match lines with
  | [] => ""
  | [l] => l
  | l :: lines' => l ++ String "010" (join_lines lines')
  end.

Fixpoint ends_with_slash (s : string) : bool :=
  match s with
  | EmptyString => false
  | String c EmptyString => Ascii.eqb c "/"
  | String _ s' => ends_with_slash s'
  end.

(** [os.path.join(a, b)] of [posixpath] *)
Definition os_path_join (a b : string) : string :=
  if String.prefix "/" b then b
  else if String.eqb a "" || ends_with_slash a then a ++ b
  else a ++ "/" ++ b.

Definition transcript_line (entry : transcript_entry) : string :=
  format_2f (start entry) ++ " - " ++ text entry.

(** [self.show_transcript(video_id)] *)
Definition show_transcript (E : env) (video_id : string) : M unit :=
  try_except_Exception
    (_ ← emit (TranscriptRequest video_id);
     transcript ← lift (get_transcript E video_id);
     let transcript_text := join_lines (map transcript_line transcript) in
     s ← get_state;
     let file_path :=
       os_path_join (transcript_directory s) (video_id ++ "_transcript.txt") in
     _ ← open_w E file_path (Text transcript_text);
     s ← get_state;
     _ ← set_transcript_windows (transcript_windows s ++ [video_id])%list;
     emit (Information "Transcript Saved" ("Transcript saved to: " ++ file_path)))
    (fun e =>
       emit (Warning "Transcription Error"
               ("Could not retrieve or save transcript: " ++ exn_str e))).

(** [self.export_results()]; [file_name] is what the save dialog returns,
    the empty string when it is cancelled. *)
Definition export_results (E : env) (file_name : string) : M unit :=
  s ← get_state;
  match video_results s with
  | None | Some [] =>
      emit (Warning "No Results" "No results to export. Please perform a search first.")
  | Some videos =>
      if String.eqb file_name "" then mret tt
      else
        _ ← export_to_csv E videos file_name (self_use_api s);
        emit (Information "Export Successful"
                ("Exported " ++ decimal (Z.of_nat (length videos)) ++ " videos to "
                 ++ file_name))
  end.

Definition set_transcript_directory (d : string) : M unit := fun s =>
  (Ret tt,
   {| files := files s; trace := trace s;
      transcript_directory := d;
      transcript_windows := transcript_windows s;
      results_layout := results_layout s;
      video_results := video_results s; self_use_api := self_use_api s |}).

(** [self.change_transcript_directory()]; [new_directory] is what the
    directory dialog returns, the empty string when it is cancelled. *)
Definition change_transcript_directory (new_directory : string) : M unit :=
  if String.eqb new_directory "" then mret tt
  else
    _ ← set_transcript_directory new_directory;
    s ← get_state;
    emit (Information "Directory Changed"
            ("Transcript directory changed to: " ++ transcript_directory s)).

(** The window as [__init__] leaves it, on a disk [disk], with the
    transcript directory [dir]. *)
Definition init_app (disk : gmap string file) (dir : string) : app :=
  {| files := disk; trace := []; transcript_directory := dir;
     transcript_windows := []; results_layout := [];
     video_results := None; self_use_api := false |}.

(** ** Vocabulary of the properties *)

(** The units of a relative phrase, in the order [parse_relative_time]
    looks for them. *)
Inductive time_unit : Type := Hour | Day | Week | Month | Year.

Definition all_units : list time_unit := [Hour; Day; Week; Month; Year].

Definition unit_word (u : time_unit) : string :=
  match u with
  | Hour => "hour" | Day => "day" | Week => "week"
  | Month => "month" | Year => "year"
  end.

(** The length of a unit in microseconds: a month is 30 days and a year
    365 days. *)
Definition unit_micros (u : time_unit) : Z :=
  match u with
  | Hour => US_PER_HOUR
  | Day => US_PER_DAY
  | Week => US_PER_WEEK
  | Month => 30 * US_PER_DAY
  | Year => 365 * US_PER_DAY
  end.

(** The first unit, in the fixed order, whose word occurs in [w]. *)
Definition first_unit (w : string) : option time_unit :=
  find (fun u => contains (unit_word u) w) all_units.

(** The phrase ["<n> <unit>[s] ago"]. *)
Definition phrase (n : Z) (u : time_unit) (plural : bool) : string :=
  decimal n ++ " " ++ unit_word u ++ (if plural then "s" else "") ++ " ago".

(** A time that [datetime] can hold: 0001-01-01T00:00:00 up to the last
    microsecond of 9999-12-31, as microseconds since the first. *)
Definition representable (us : Z) : Prop := 0 <= us < MAXORDINAL * US_PER_DAY.

Fixpoint all_chars (p : ascii -> bool) (s : string) : bool :=
  match s with
  | EmptyString => true
  | String c s' => p c && all_chars p s'
  end.

(** The check of [month_and_day] on one day of the year. *)
Definition month_and_day_ok (leap : bool) (n : Z) : bool :=
  let '(m, d) := month_and_day leap n in
  (1 <=? m) && (m <=? 12) && (1 <=? d)
  && (d <=? DAYS_IN_MONTH m + (if (m =? 2) && leap then 1 else 0))
  && (DAYS_BEFORE_MONTH m + (if (2 <? m) && leap then 1 else 0) + d =? n + 1).

(** The match of a format that [strptime] takes: the first one, which
    must reach the end of the input. *)
Definition first_match (its : list item) (s : list ascii) (gs : list (list ascii)) : Prop :=
  exists others, match_items its s = (gs, []) :: others.

(** A dictionary entry that, when present, is itself a dictionary. *)
Definition dict_or_missing (d : gmap string value) (k : string) : Prop :=
  forall v, d !! k = Some v -> exists c, v = VDict c.

(** [d[k1][k2]] when both are there. *)
Definition nested (d : gmap string value) (k1 k2 : string) : option value :=
  match d !! k1 with
  | Some (VDict c) => c !! k2
  | _ => None
  end.

(** The state [s] with the trace [tr]. *)
Definition with_trace (s : app) (tr : list event) : app :=
  {| files := files s; trace := tr;
     transcript_directory := transcript_directory s;
     transcript_windows := transcript_windows s;
     results_layout := results_layout s;
     video_results := video_results s; self_use_api := self_use_api s |}.

(** The events that reach the authenticated backend. *)
Definition is_api_event (ev : event) : bool :=
  match ev with
  | ApiSearch _ _ | ApiVideos _ => true
  | _ => false
  end.

Definition is_filter_call (ev : event) : bool :=
  match ev with
  | FilterCall _ => true
  | _ => false
  end.

(** Whether a video's publish time lies in the window, both ends
    included; a video whose publish time does not resolve is not in it. *)
Definition in_window (E : env) (start_date end_date : datetime) (use_api : bool)
    (video : value) : bool :=
  match publish_date E use_api video with
  | Ret t => datetime_le start_date t && datetime_le t end_date
  | Raise _ => false
  end.

(** The state [s] with the displayed rows [l], and with the files [f]. *)
Definition with_results_layout (s : app) (l : list row) : app :=
  {| files := files s; trace := trace s;
     transcript_directory := transcript_directory s;
     transcript_windows := transcript_windows s;
     results_layout := l;
     video_results := video_results s; self_use_api := self_use_api s |}.

Definition with_files (s : app) (f : gmap string file) : app :=
  {| files := f; trace := trace s;
     transcript_directory := transcript_directory s;
     transcript_windows := transcript_windows s;
     results_layout := results_layout s;
     video_results := video_results s; self_use_api := self_use_api s |}.

(** The events that leave the program for one of the three upstream
    services. *)
Definition is_upstream_event (ev : event) : bool :=
  match ev with
  | ApiSearch _ _ | ApiVideos _ | Scrape _ _ | TranscriptRequest _ => true
  | _ => false
  end.

(** [item['id']['videoId']], the element of the comprehension of line
    206. *)
Definition item_video_id (item : value) : py value :=
  i ← getitem item "id"; getitem i "videoId".

(** ** Sample data *)

Definition dict (l : list (string * value)) : value := VDict (list_to_map l).

(** 2024-03-01T12:30:15.000250 *)
Definition sample_now : datetime := mkdatetime 2024 3 1 12 30 15 250.

Definition no_transcript : exn :=
  LibraryError "TranscriptsDisabled" "Subtitles are disabled for this video".

(** No API key, a scraping backend that finds nothing, a transcript
    provider that has nothing, a disk that can be written. *)
Definition sample_env : env :=
  {| now := sample_now; int_max_str_digits := 4300%nat; youtube := None;
     VideosSearch := fun _ _ => Ret [];
     get_transcript := fun _ => Raise no_transcript;
     open_fails := fun _ => None |}.

Definition sample_form (use_api : bool) : form :=
  {| search_input := "cats"; max_results_input := 50;
     start_date := (2024, 1, 1); end_date := (2024, 12, 31);
     use_api_checkbox := use_api |}.

Definition sample_app : app := init_app ∅ "/tmp/t".

(** Two scraped results, published two days and three weeks before the
    clock reads them, and the window of the last seven days. *)
Definition scraped_recent : value :=
  dict [("id", VStr "v1"); ("title", VStr "Cats"); ("publishedTime", VStr "2 days ago")].
Definition scraped_old : value :=
  dict [("id", VStr "v2"); ("publishedTime", VStr "3 weeks ago")].
Definition week_start : datetime := day_start (2024, 2, 23).
Definition week_end : datetime := day_end (2024, 3, 1).

(** A result of the authenticated backend that was not enriched with
    statistics, and one with statistics but no view count. *)
Definition sample_snippet : value :=
  dict [("title", VStr "Cats"); ("channelTitle", VStr "Pets");
        ("publishedAt", VStr "2024-06-01T00:00:00Z")].
Definition api_video_without_statistics : value :=
  dict [("id", VStr "abc123"); ("snippet", sample_snippet)].
Definition api_video_without_view_count : value :=
  dict [("id", VStr "abc123"); ("snippet", sample_snippet); ("statistics", dict [])].

(** A scraped result that has a title and nothing else. *)
Definition scraped_title_only : gmap string value := {[ "title" := VStr "Cats" ]}.

(** 2024-06-01T00:00:00 and one microsecond later. *)
Definition june_first : datetime := mkdatetime 2024 6 1 0 0 0 0.
Definition june_first_and_a_microsecond : datetime := mkdatetime 2024 6 1 0 0 0 1.

(** A transcript provider that knows one video. *)
Definition sample_transcript : list transcript_entry :=
  [{| start := 0 # 1; text := "hello" |}; {| start := 5 # 4; text := "cats" |}].
Definition transcript_env : env :=
  {| now := sample_now; int_max_str_digits := 4300%nat; youtube := None;
     VideosSearch := fun _ _ => Ret [scraped_recent];
     get_transcript := fun _ => Ret sample_transcript;
     open_fails := fun _ => None |}.

(** An API client that answers every query with two videos, published
    on 2024-01-01 and on 2024-06-01. *)
Definition api_item (id : string) : value := dict [("id", dict [("videoId", VStr id)])].
Definition api_details (id published : string) : value :=
  dict [("id", VStr id);
        ("snippet", dict [("title", VStr ("Video " ++ id)); ("channelTitle", VStr "Pets");
                          ("publishedAt", VStr published)]);
        ("statistics", dict [("viewCount", VStr "42")])].
Definition sample_client : youtube_client :=
  {| search_list := fun _ _ => Ret [api_item "a"; api_item "b"];
     videos_list := fun _ =>
       Ret [api_details "a" "2024-01-01T00:00:00Z";
            api_details "b" "2024-06-01T00:00:00Z"] |}.
Definition api_env : env :=
  {| now := sample_now; int_max_str_digits := 4300%nat; youtube := Some sample_client;
     VideosSearch := fun _ _ => Ret [];
     get_transcript := fun _ => Raise no_transcript;
     open_fails := fun _ => None |}.
Definition may_to_december : form :=
  {| search_input := "cats"; max_results_input := 50;
     start_date := (2024, 5, 1); end_date := (2024, 12, 31);
     use_api_checkbox := true |}.

(** A disk that cannot be written, with a provider that knows the
    video. *)
Definition read_only_env : env :=
  {| now := sample_now; int_max_str_digits := 4300%nat; youtube := None;
     VideosSearch := fun _ _ => Ret [scraped_recent];
     get_transcript := fun _ => Ret sample_transcript;
     open_fails := fun _ => Some (OSError "[Errno 13] Permission denied") |}.

(** The window after a search that stored a scraped result while the box
    "Use YouTube API" was checked. *)
Definition searched_without_key : app :=
  snd (set_use_api true (snd (set_video_results [scraped_recent] sample_app))).

(* ===================================================================== *)
(** * Part II.  Properties                                                *)
(* ===================================================================== *)

(** ** The calendar *)

Lemma days_before_year_decomp n400 n100 n4 n1 :
  0 <= n400 -> 0 <= n100 <= 3 -> 0 <= n4 <= 24 -> 0 <= n1 <= 3 ->
  days_before_year (n400 * 400 + 1 + n100 * 100 + n4 * 4 + n1)
  = n400 * DI400Y + n100 * DI100Y + n4 * DI4Y + n1 * 365.
Proof.
  intros. unfold days_before_year, DI400Y, DI100Y, DI4Y.
  Z.div_mod_to_equations. lia.
Qed.

Lemma is_leap_decomp n400 n100 n4 n1 :
  0 <= n400 -> 0 <= n100 <= 3 -> 0 <= n4 <= 24 -> 0 <= n1 <= 3 ->
  is_leap (n400 * 400 + 1 + n100 * 100 + n4 * 4 + n1)
  = (n1 =? 3) && (negb (n4 =? 24) || (n100 =? 3)).
Proof.
  intros. unfold is_leap.
  repeat match goal with
         | |- context [?a =? ?b] => destruct (Z.eqb_spec a b)
         end; cbn; try reflexivity; exfalso;
    Z.div_mod_to_equations; lia.
Qed.

Lemma month_and_day_all leap :
  forallb (fun k => month_and_day_ok leap (Z.of_nat k)) (seq 0 365) = true.
Proof. destruct leap; vm_compute; reflexivity. Qed.

Lemma month_and_day_spec leap n :
  0 <= n < 365 -> month_and_day_ok leap n = true.
Proof.
  intros Hn.
  pose proof (month_and_day_all leap) as H.
  rewrite forallb_forall in H.
  specialize (H (Z.to_nat n)).
  rewrite Z2Nat.id in H by lia.
  apply H, in_seq. lia.
Qed.

(** The ordinal of the date [ord2ymd] gives is the ordinal it was given. *)
Lemma ymd2ord_ord2ymd n :
  1 <= n <= MAXORDINAL ->
  let '(y, m, d) := ord2ymd n in ymd2ord y m d = n.
Proof.
  intros Hn. unfold MAXORDINAL in Hn. unfold ord2ymd.
  set (n0 := n - 1).
  set (n400 := n0 / DI400Y). set (r1 := n0 mod DI400Y).
  set (n100 := r1 / DI100Y). set (r2 := r1 mod DI100Y).
  set (n4 := r2 / DI4Y). set (r3 := r2 mod DI4Y).
  set (n1 := r3 / 365). set (r4 := r3 mod 365).
  assert (E1 : n0 = n400 * DI400Y + r1 /\ 0 <= r1 < DI400Y /\ 0 <= n400).
  { unfold n400, r1, DI400Y. subst n0. Z.div_mod_to_equations. lia. }
  assert (E2 : r1 = n100 * DI100Y + r2 /\ 0 <= r2 < DI100Y /\ 0 <= n100 <= 4).
  { unfold n100, r2, DI100Y, DI400Y in *. Z.div_mod_to_equations. lia. }
  assert (E3 : r2 = n4 * DI4Y + r3 /\ 0 <= r3 < DI4Y /\ 0 <= n4 <= 24).
  { unfold n4, r3, DI4Y, DI100Y in *. Z.div_mod_to_equations. lia. }
  assert (E4 : r3 = n1 * 365 + r4 /\ 0 <= r4 < 365 /\ 0 <= n1 <= 4).
  { unfold n1, r4, DI4Y in *. Z.div_mod_to_equations. lia. }
  clearbody n400 r1 n100 r2 n4 r3 n1 r4.
  destruct E1 as (E1 & B1 & P1), E2 as (E2 & B2 & P2),
           E3 as (E3 & B3 & P3), E4 as (E4 & B4 & P4).
  destruct (Z.eqb_spec n1 4) as [H14 | H14]; cbn [orb].
  - (* the last day of a leap year *)
    assert (r4 = 0 /\ n4 <= 23 /\ n100 <= 3) as (-> & ? & ?)
      by (unfold DI4Y, DI100Y, DI400Y in *; lia).
    subst n1.
    replace (n400 * 400 + 1 + n100 * 100 + n4 * 4 + 4 - 1)
      with (n400 * 400 + 1 + n100 * 100 + n4 * 4 + 3) by lia.
    unfold ymd2ord, days_before_month.
    rewrite days_before_year_decomp, is_leap_decomp by lia.
    replace (n4 =? 24) with false by (symmetry; apply Z.eqb_neq; lia).
    cbn. unfold DI400Y, DI100Y, DI4Y in *. lia.
  - destruct (Z.eqb_spec n100 4) as [H1004 | H1004].
    + (* the last day of a cycle of 400 years *)
      assert (r2 = 0 /\ n4 = 0 /\ r3 = 0 /\ n1 = 0 /\ r4 = 0)
        as (-> & -> & -> & -> & ->)
        by (unfold DI4Y, DI100Y, DI400Y in *; lia).
      subst n100.
      replace (n400 * 400 + 1 + 4 * 100 + 0 * 4 + 0 - 1)
        with (n400 * 400 + 1 + 3 * 100 + 24 * 4 + 3) by lia.
      unfold ymd2ord, days_before_month.
      rewrite days_before_year_decomp, is_leap_decomp by lia.
      cbn. unfold DI400Y, DI100Y, DI4Y in *. lia.
    + set (leap := (n1 =? 3) && (negb (n4 =? 24) || (n100 =? 3))).
      pose proof (month_and_day_spec leap r4 B4) as Hmd.
      unfold month_and_day_ok in Hmd.
      destruct (month_and_day leap r4) as [m d].
      unfold ymd2ord, days_before_month.
      rewrite days_before_year_decomp, is_leap_decomp by lia.
      fold leap.
      rewrite !andb_true_iff in Hmd.
      destruct Hmd as ((((? & ?) & ?) & ?) & Hsum).
      apply Z.eqb_eq in Hsum.
      unfold DI400Y, DI100Y, DI4Y in *. lia.
Qed.
Lemma month_cases m : 1 <= m <= 12 ->
  m = 1 \/ m = 2 \/ m = 3 \/ m = 4 \/ m = 5 \/ m = 6 \/
  m = 7 \/ m = 8 \/ m = 9 \/ m = 10 \/ m = 11 \/ m = 12.
Proof. lia. Qed.

Lemma valid_datetime_inv t :
  valid_datetime t = true ->
  (1 <= year t <= 9999) /\ (1 <= month t <= 12)
  /\ (1 <= day t <= days_in_month (year t) (month t))
  /\ (0 <= hour t <= 23) /\ (0 <= minute t <= 59)
  /\ (0 <= second t <= 59) /\ (0 <= microsecond t <= 999999).
Proof.
  unfold valid_datetime, MINYEAR, MAXYEAR.
  rewrite !andb_true_iff, !Z.leb_le. tauto.
Qed.

Lemma days_before_year_succ y :
  days_before_year (y + 1) = days_before_year y + 365 + (if is_leap y then 1 else 0).
Proof.
  unfold days_before_year, is_leap.
  replace (y + 1 - 1) with y by lia.
  repeat match goal with
         | |- context [?a =? ?b] => destruct (Z.eqb_spec a b)
         end; cbn [andb orb negb];
    Z.div_mod_to_equations; lia.
Qed.

Lemma days_before_year_mono a b : a <= b -> days_before_year a <= days_before_year b.
Proof.
  intros. unfold days_before_year. Z.div_mod_to_equations. lia.
Qed.

Lemma day_of_year_bounds y m d :
  1 <= m <= 12 -> 1 <= d <= days_in_month y m ->
  1 <= days_before_month y m + d <= 365 + (if is_leap y then 1 else 0).
Proof.
  intros Hm Hd. unfold days_before_month, days_in_month in *.
  destruct (is_leap y);
    destruct (month_cases m Hm) as [->|[->|[->|[->|[->|[->|[->|[->|[->|[->|[->| ->]]]]]]]]]]];
    cbn in *; lia.
Qed.

Lemma toordinal_bounds t :
  valid_datetime t = true -> 1 <= toordinal t <= MAXORDINAL.
Proof.
  intros Hv. apply valid_datetime_inv in Hv as (Hy & Hm & Hd & _).
  unfold toordinal, ymd2ord, MAXORDINAL.
  pose proof (day_of_year_bounds _ _ _ Hm Hd) as Hb.
  pose proof (days_before_year_succ (year t)) as Hs.
  pose proof (days_before_year_mono 1 (year t) ltac:(lia)) as H1.
  pose proof (days_before_year_mono (year t + 1) 10000 ltac:(lia)) as H2.
  change (days_before_year 1) with 0 in H1.
  change (days_before_year 10000) with 3652059 in H2.
  lia.
Qed.

(** ** Shifting the clock *)

Lemma py_bind_ret {A B} (a : A) (f : A -> py B) : (Ret a ≫= f) = f a.
Proof. reflexivity. Qed.

Lemma timestamp_eq t : timestamp t = as_timedelta t - US_PER_DAY.
Proof. reflexivity. Qed.

Lemma US_PER_DAY_eq : US_PER_DAY = 86400000000.
Proof. reflexivity. Qed.

Lemma MAXORDINAL_eq : MAXORDINAL = 3652059.
Proof. reflexivity. Qed.

Lemma timedelta_ok us :
  - (999999999 * US_PER_DAY) <= us < 1000000000 * US_PER_DAY -> timedelta us = Ret us.
Proof.
  rewrite US_PER_DAY_eq. intros H. unfold timedelta, td_days.
  destruct (Z.ltb_spec 999999999 (Z.abs (us / US_PER_DAY))) as [Hlt|]; [|reflexivity].
  exfalso. rewrite US_PER_DAY_eq in Hlt.
  Z.div_mod_to_equations. lia.
Qed.

Lemma timestamp_bounds t :
  valid_datetime t = true -> 0 <= timestamp t < MAXORDINAL * US_PER_DAY.
Proof.
  intros Hv. pose proof (toordinal_bounds t Hv) as Ho.
  apply valid_datetime_inv in Hv as (_ & _ & _ & Hh & Hmi & Hs & Hus).
  rewrite timestamp_eq. unfold as_timedelta.
  change US_PER_HOUR with 3600000000. change US_PER_SECOND with 1000000.
  rewrite US_PER_DAY_eq. rewrite MAXORDINAL_eq in *. lia.
Qed.

(** Splitting a number of microseconds into days, hours, minutes, seconds
    and microseconds loses nothing. *)
Lemma micros_split delta :
  td_days delta * US_PER_DAY
  + td_seconds delta / 3600 * US_PER_HOUR
  + td_seconds delta mod 3600 / 60 * (60 * US_PER_SECOND)
  + td_seconds delta mod 3600 mod 60 * US_PER_SECOND
  + td_microseconds delta = delta.
Proof.
  unfold td_days, td_seconds, td_microseconds, US_PER_DAY, US_PER_HOUR, US_PER_SECOND.
  Z.div_mod_to_equations; lia.
Qed.

Lemma td_days_range delta :
  US_PER_DAY <= delta < (MAXORDINAL + 1) * US_PER_DAY ->
  1 <= td_days delta <= MAXORDINAL.
Proof.
  unfold td_days. rewrite US_PER_DAY_eq, MAXORDINAL_eq.
  intros H. Z.div_mod_to_equations; lia.
Qed.

(** When the shifted time is one a [datetime] can hold, the subtraction
    returns it, to the microsecond. *)
Lemma datetime_sub_exact t td :
  valid_datetime t = true ->
  representable (timestamp t - td) ->
  exists r, datetime_sub t td = Ret r /\ timestamp r = timestamp t - td.
Proof.
  unfold representable. intros Hv Hr.
  pose proof (timestamp_bounds t Hv) as Hb.
  rewrite timestamp_eq in *.
  pose proof US_PER_DAY_eq as Hc. pose proof MAXORDINAL_eq as Hm.
  unfold datetime_sub.
  rewrite (timedelta_ok (- td)), py_bind_ret by lia.
  rewrite (timedelta_ok (as_timedelta t)), py_bind_ret by lia.
  rewrite (timedelta_ok (as_timedelta t + - td)), py_bind_ret by lia.
  set (delta := as_timedelta t + - td).
  assert (Hd : 1 <= td_days delta <= MAXORDINAL)
    by (apply td_days_range; unfold delta; lia).
  replace (0 <? td_days delta) with true by (symmetry; apply Z.ltb_lt; lia).
  replace (td_days delta <=? MAXORDINAL) with true by (symmetry; apply Z.leb_le; lia).
  pose proof (ymd2ord_ord2ymd _ Hd) as Hord.
  destruct (ord2ymd (td_days delta)) as [[y m] d].
  eexists. split; [reflexivity|].
  rewrite timestamp_eq.
  unfold as_timedelta at 1, toordinal.
  cbn [year month day hour minute second microsecond].
  rewrite Hord, micros_split. unfold delta. lia.
Qed.

(** ** Strings *)

Lemma string_app_assoc (a b c : string) : (a ++ b) ++ c = a ++ (b ++ c).
Proof. induction a as [|x a IH]; simpl; [reflexivity | f_equal; exact IH]. Qed.

Lemma string_app_empty_r (a : string) : a ++ "" = a.
Proof. induction a as [|x a IH]; simpl; [reflexivity | f_equal; exact IH]. Qed.

Lemma isdigit_not_space c : isdigit c = true -> isspace c = false.
Proof.
  unfold isdigit, isspace. intros H.
  apply andb_true_iff in H as [H1 H2]. apply Z.leb_le in H1, H2.
  repeat match goal with
         | |- context [?a <=? ?b] => destruct (Z.leb_spec a b)
         | |- context [?a =? ?b] => destruct (Z.eqb_spec a b)
         end; cbn; try reflexivity; lia.
Qed.

Lemma all_chars_impl (p q : ascii -> bool) s :
  (forall c, p c = true -> q c = true) -> all_chars p s = true -> all_chars q s = true.
Proof.
  intros Hpq. induction s as [|c s IH]; cbn; [reflexivity|].
  rewrite !andb_true_iff. intros [? ?]. auto.
Qed.

(** A run of non-blank characters goes to the token being read. *)
Lemma split_from_run run : forall tok rest,
  all_chars (fun c => negb (isspace c)) run = true ->
  split_from tok (run ++ rest) = split_from (tok ++ run) rest.
Proof.
  induction run as [|c run IH]; intros tok rest H; cbn in *.
  - now rewrite string_app_empty_r.
  - apply andb_true_iff in H as [Hc Hrun].
    apply negb_true_iff in Hc. rewrite Hc.
    rewrite IH by assumption.
    now rewrite string_app_assoc.
Qed.

(** A run of digits holds no occurrence of a word that starts with a
    letter. *)
Lemma contains_after_digits a needle run : forall rest,
  isdigit a = false ->
  all_chars isdigit run = true ->
  contains (String a needle) (run ++ rest) = contains (String a needle) rest.
Proof.
  intros rest Ha. induction run as [|c run IH]; intros H; [reflexivity|].
  cbn in H. apply andb_true_iff in H as [Hc Hrun].
  cbn [String.append contains String.prefix].
  destruct (ascii_dec a c) as [-> | _]; [congruence|].
  cbn [orb]. now apply IH.
Qed.

Lemma lstrip_no_space l :
  Forall (fun c => isspace c = false) l -> lstrip l = l.
Proof. destruct 1 as [|c l Hc _]; cbn; [reflexivity | now rewrite Hc]. Qed.

Lemma strip_no_space l :
  Forall (fun c => isspace c = false) l -> strip l = l.
Proof.
  intros H. unfold strip. rewrite (lstrip_no_space l H).
  rewrite lstrip_no_space by now apply Forall_rev.
  apply rev_involutive.
Qed.

(** ** Decimal numerals *)

Lemma digit_char_digit r : 0 <= r <= 9 ->
  isdigit (digit_char r) = true /\ digit_val (digit_char r) = r.
Proof.
  intros H.
  assert (r = 0 \/ r = 1 \/ r = 2 \/ r = 3 \/ r = 4 \/ r = 5 \/ r = 6 \/ r = 7
          \/ r = 8 \/ r = 9) as C by lia.
  repeat destruct C as [-> | C]; try subst r; split; reflexivity.
Qed.

Lemma decimal_digits_S fuel n acc :
  decimal_digits (S fuel) n acc
  = if n <? 10 then digit_char (n mod 10) :: acc
    else decimal_digits fuel (n / 10) (digit_char (n mod 10) :: acc).
Proof. reflexivity. Qed.

(** [decimal_digits] puts digits, at least one, before [acc]. *)
Lemma decimal_digits_app fuel : forall n acc,
  0 <= n ->
  exists pre, decimal_digits (S fuel) n acc = (pre ++ acc)%list
              /\ Forall (fun c => isdigit c = true) pre /\ pre <> [].
Proof.
  induction fuel as [|fuel IH]; intros n acc Hn.
  - exists [digit_char (n mod 10)]. cbn.
    destruct (n <? 10); repeat split; try reflexivity; try discriminate;
      constructor; try constructor; apply digit_char_digit;
      Z.div_mod_to_equations; lia.
  - rewrite decimal_digits_S. destruct (n <? 10).
    + exists [digit_char (n mod 10)]. repeat split; try discriminate.
      constructor; [|constructor]. apply digit_char_digit.
      Z.div_mod_to_equations; lia.
    + destruct (IH (n / 10) (digit_char (n mod 10) :: acc)) as (pre & Hpre & Hd & Hne).
      { Z.div_mod_to_equations; lia. }
      exists (pre ++ [digit_char (n mod 10)])%list.
      rewrite Hpre, <- app_assoc. repeat split.
      * apply Forall_app. split; [assumption|].
        constructor; [|constructor]. apply digit_char_digit.
        Z.div_mod_to_equations; lia.
      * destruct pre; discriminate.
Qed.

(** Reading back the digits of [n] gives [n]. *)
Lemma int_digits_decimal fuel : forall n,
  0 <= n < 10 ^ Z.of_nat (S fuel) ->
  exists d, (d <= S fuel)%nat /\
    forall acc p a k,
      int_digits p a k (decimal_digits (S fuel) n acc)
      = int_digits true (a * 10 ^ Z.of_nat d + n) (k + d) acc.
Proof.
  induction fuel as [|fuel IH]; intros n Hn.
  - exists 1%nat. split; [lia|]. intros acc p a k.
    assert (n < 10) by (change (10 ^ Z.of_nat 1) with 10 in Hn; lia).
    assert (Hm : n mod 10 = n) by (apply Z.mod_small; lia).
    rewrite decimal_digits_S, Hm.
    destruct (digit_char_digit n ltac:(lia)) as [Hd Hv].
    assert (E : (if n <? 10 then digit_char n :: acc
                 else decimal_digits 0 (n / 10) (digit_char n :: acc))
                = digit_char n :: acc) by (destruct (n <? 10); reflexivity).
    rewrite E. cbn [int_digits]. rewrite Hd, Hv.
    f_equal; [change (10 ^ Z.of_nat 1) with 10; lia | lia].
  - destruct (Z.ltb_spec n 10) as [Hlt | Hge].
    + exists 1%nat. split; [lia|]. intros acc p a k.
      assert (Hm : n mod 10 = n) by (apply Z.mod_small; lia).
      rewrite decimal_digits_S, Hm.
      replace (n <? 10) with true by (symmetry; apply Z.ltb_lt; lia).
      destruct (digit_char_digit n ltac:(lia)) as [Hd Hv].
      cbn [int_digits]. rewrite Hd, Hv.
      f_equal; [change (10 ^ Z.of_nat 1) with 10; lia | lia].
    + destruct (IH (n / 10)) as (d & Hd & Hrec).
      { rewrite Nat2Z.inj_succ, Z.pow_succ_r in Hn by lia.
        Z.div_mod_to_equations; lia. }
      exists (S d). split; [lia|]. intros acc p a k.
      rewrite decimal_digits_S.
      replace (n <? 10) with false by (symmetry; apply Z.ltb_ge; lia).
      rewrite Hrec.
      destruct (digit_char_digit (n mod 10)) as [Hdg Hv].
      { Z.div_mod_to_equations; lia. }
      cbn [int_digits]. rewrite Hdg, Hv.
      f_equal; [|lia].
      rewrite Nat2Z.inj_succ, Z.pow_succ_r by lia.
      Z.div_mod_to_equations; lia.
Qed.

Lemma decimal_fuel n :
  0 <= n -> n < 10 ^ Z.of_nat (S (Z.to_nat (Z.log2 n))).
Proof.
  intros Hn. rewrite Nat2Z.inj_succ, Z2Nat.id by apply Z.log2_nonneg.
  destruct (Z.eq_dec n 0) as [-> | Hnz]; [reflexivity|].
  pose proof (Z.log2_spec n ltac:(lia)) as [_ Hlt].
  pose proof (Z.pow_le_mono_l 2 10 (Z.succ (Z.log2 n)) ltac:(lia)).
  lia.
Qed.

Lemma all_chars_of_list p l :
  Forall (fun c => p c = true) l -> all_chars p (string_of_list_ascii l) = true.
Proof.
  induction 1 as [|c l Hc _ IH]; cbn; [reflexivity|]. now rewrite Hc, IH.
Qed.

Lemma decimal_all_digits n : 0 <= n -> all_chars isdigit (decimal n) = true.
Proof.
  intros Hn. unfold decimal.
  destruct (decimal_digits_app (Z.to_nat (Z.log2 n)) n [] Hn) as (pre & -> & Hd & _).
  rewrite app_nil_r. now apply all_chars_of_list.
Qed.

Lemma decimal_nonempty n : 0 <= n -> String.eqb (decimal n) "" = false.
Proof.
  intros Hn. unfold decimal.
  destruct (decimal_digits_app (Z.to_nat (Z.log2 n)) n [] Hn) as (pre & -> & _ & Hne).
  rewrite app_nil_r. destruct pre; [congruence | reflexivity].
Qed.

(** [int] reads the decimal numeral of [n] back, whatever the digit
    limit: the numerals of interest are short. *)
Lemma py_int_decimal md n :
  0 <= n < 2 ^ 639 -> py_int md (decimal n) = Ret n.
Proof.
  intros [Hn Hlt]. unfold py_int, decimal.
  rewrite list_ascii_of_string_of_list_ascii.
  destruct (decimal_digits_app (Z.to_nat (Z.log2 n)) n [] Hn) as (pre & Hpre & Hd & Hne).
  destruct (int_digits_decimal (Z.to_nat (Z.log2 n)) n) as (d & Hdle & Hval).
  { split; [assumption | now apply decimal_fuel]. }
  specialize (Hval [] false 0 0%nat).
  rewrite Hpre, app_nil_r in *.
  rewrite strip_no_space
    by (eapply List.Forall_impl; [|exact Hd]; apply isdigit_not_space).
  destruct pre as [|c pre]; [congruence|].
  assert (Hc : isdigit c = true) by now inversion Hd.
  destruct (Ascii.eqb_spec c "-") as [-> | _]; [discriminate|].
  destruct (Ascii.eqb_spec c "+") as [-> | _]; [discriminate|].
  rewrite Hval. cbn [int_digits].
  assert (Hlog : Z.log2 n < 639).
  { destruct (Z.eq_dec n 0) as [-> | ?]; [reflexivity|].
    apply Z.log2_lt_pow2; lia. }
  replace (Nat.ltb 640 (0 + d)) with false
    by (symmetry; apply Nat.ltb_ge; lia).
  cbn. f_equal; lia.
Qed.

(** ** [parse_relative_time] *)

Lemma split_nonempty s : split s <> [] -> String.eqb s "" = false.
Proof. destruct s; [intros H; now contradiction H | reflexivity]. Qed.

(** A shift of the clock fails with [OverflowError] only, which
    [except ValueError] lets through. *)
Lemma timedelta_raises us e :
  timedelta us = Raise e -> is_ValueError e = false.
Proof.
  unfold timedelta. destruct (999999999 <? Z.abs (td_days us)); [|discriminate].
  intros [= <-]. reflexivity.
Qed.

Lemma py_bind_raise {A B} (e : exn) (f : A -> py B) : (Raise e ≫= f) = Raise e.
Proof. reflexivity. Qed.

Lemma datetime_sub_raises t td e :
  datetime_sub t td = Raise e -> is_ValueError e = false.
Proof.
  unfold datetime_sub.
  destruct (timedelta (- td)) as [neg|e1] eqn:H1;
    [rewrite py_bind_ret | rewrite py_bind_raise; intros [= <-];
                           exact (timedelta_raises _ _ H1)].
  destruct (timedelta (as_timedelta t)) as [self|e2] eqn:H2;
    [rewrite py_bind_ret | rewrite py_bind_raise; intros [= <-];
                           exact (timedelta_raises _ _ H2)].
  destruct (timedelta (self + neg)) as [delta|e3] eqn:H3;
    [rewrite py_bind_ret | rewrite py_bind_raise; intros [= <-];
                           exact (timedelta_raises _ _ H3)].
  destruct ((0 <? td_days delta) && (td_days delta <=? MAXORDINAL)).
  - destruct (ord2ymd (td_days delta)) as [[? ?] ?]. discriminate.
  - intros [= <-]. reflexivity.
Qed.

Lemma shift_not_caught (t : datetime) (us : Z) (h : exn -> py datetime) :
  try_except (td ← timedelta us; datetime_sub t td) is_ValueError h
  = (td ← timedelta us; datetime_sub t td).
Proof.
  destruct (timedelta us) as [td|e] eqn:H1; cbn [mbind py_bind].
  - destruct (datetime_sub t td) as [r|e] eqn:H2; [reflexivity|].
    cbn [try_except]. now rewrite (datetime_sub_raises _ _ _ H2).
  - cbn [try_except]. now rewrite (timedelta_raises _ _ H1).
Qed.

(** What [parse_relative_time] does with a string of at least two tokens
    that holds no "Streamed" and starts with an integer: the second token
    alone, lowercased, chooses the unit. *)
Lemma parse_relative_time_tokens E s t0 t1 rest n :
  split s = t0 :: t1 :: rest ->
  contains "Streamed" s = false ->
  py_int (int_max_str_digits E) t0 = Ret n ->
  parse_relative_time E (VStr s) =
    match first_unit (lower t1) with
    | Some u => td ← timedelta (n * unit_micros u); datetime_sub (now E) td
    | None => Ret (now E)
    end.
Proof.
  intros Hsplit Hstr Hint. unfold parse_relative_time.
  cbn [truthy]. rewrite split_nonempty by (rewrite Hsplit; discriminate).
  cbn [negb py_in mbind py_bind py_split]. rewrite Hstr, Hsplit.
  cbn [length Nat.ltb Nat.leb nth]. rewrite Hint. cbn [mbind py_bind].
  unfold first_unit, all_units. cbn [find unit_word].
  repeat match goal with
         | |- context [contains ?w (lower t1)] => destruct (contains w (lower t1))
         end; cbn [unit_micros];
    rewrite ?shift_not_caught, <- ?Z.mul_assoc; reflexivity.
Qed.

Lemma py_int_raises md s e : py_int md s = Raise e -> is_ValueError e = true.
Proof.
  unfold py_int.
  destruct (match strip (list_ascii_of_string s) with
            | [] => (false, [])
            | c :: r => _
            end) as [neg ds].
  destruct (int_digits false 0 0 ds) as [[v n]|]; [|intros [= <-]; reflexivity].
  destruct (Nat.ltb 640 n && negb (Nat.eqb md 0) && Nat.ltb md n);
    [intros [= <-]; reflexivity | discriminate].
Qed.

Lemma parse_relative_time_streamed E s :
  contains "Streamed" s = true -> parse_relative_time E (VStr s) = Ret (now E).
Proof.
  intros H. unfold parse_relative_time.
  destruct (negb (truthy (VStr s))); [reflexivity|].
  cbn [py_in mbind py_bind]. now rewrite H.
Qed.

Lemma parse_relative_time_few_tokens E s :
  (length (split s) < 2)%nat -> parse_relative_time E (VStr s) = Ret (now E).
Proof.
  intros H. unfold parse_relative_time.
  destruct (negb (truthy (VStr s))); [reflexivity|].
  cbn [py_in py_split mbind py_bind].
  destruct (contains "Streamed" s); [reflexivity|].
  apply Nat.ltb_lt in H. now rewrite H.
Qed.

Lemma parse_relative_time_not_integer E s t0 t1 rest e :
  split s = t0 :: t1 :: rest ->
  py_int (int_max_str_digits E) t0 = Raise e ->
  parse_relative_time E (VStr s) = Ret (now E).
Proof.
  intros Hsplit Hint. unfold parse_relative_time.
  destruct (negb (truthy (VStr s))); [reflexivity|].
  cbn [py_in py_split mbind py_bind].
  destruct (contains "Streamed" s); [reflexivity|].
  rewrite Hsplit. cbn [length Nat.ltb Nat.leb nth].
  rewrite Hint. cbn [mbind py_bind try_except].
  now rewrite (py_int_raises _ _ _ Hint).
Qed.

(** The fail-open half of the resolver: on an empty input, an input that
    holds "Streamed", an input of fewer than two tokens, an input whose
    first token is no integer, and an input whose second token names no
    unit, the result is the clock's time. *)
Lemma parse_relative_time_fail_open E s :
  s = ""
  \/ contains "Streamed" s = true
  \/ (length (split s) < 2)%nat
  \/ (exists t0 t1 rest, split s = t0 :: t1 :: rest
        /\ (returns (py_int (int_max_str_digits E) t0) = false
            \/ first_unit (lower t1) = None)) ->
  parse_relative_time E (VStr s) = Ret (now E).
Proof.
  intros [-> | [H | [H | (t0 & t1 & rest & Hsplit & H)]]].
  - reflexivity.
  - now apply parse_relative_time_streamed.
  - now apply parse_relative_time_few_tokens.
  - destruct (contains "Streamed" s) eqn:Hs;
      [now apply parse_relative_time_streamed|].
    destruct (py_int (int_max_str_digits E) t0) as [n|e] eqn:Hint.
    + destruct H as [H | H]; [discriminate|].
      rewrite (parse_relative_time_tokens E s t0 t1 rest n Hsplit Hs Hint).
      now rewrite H.
    + now apply (parse_relative_time_not_integer E s t0 t1 rest e).
Qed.

Lemma parse_relative_time_fail_open_witness :
  parse_relative_time sample_env (VStr "3 fortnights ago") = Ret (now sample_env).
Proof.
  apply parse_relative_time_fail_open.
  right. right. right. exists "3", "fortnights", ["ago"].
  split; [reflexivity | right; reflexivity].
Defined.

(** The three inputs the specification names. *)
Example parse_relative_time_named_inputs E :
  parse_relative_time E (VStr "Streamed 2 days ago") = Ret (now E)
  /\ parse_relative_time E (VStr "") = Ret (now E)
  /\ parse_relative_time E (VStr "garbage text") = Ret (now E).
Proof. repeat split; reflexivity. Qed.

(** C5 (the code misses a case).  The resolver is meant never to raise,
    and it does: on an integer too large for a [timedelta] the
    [OverflowError] of the subtraction is not a [ValueError], so the
    handler lets it through.  Whatever the clock, "1000000000 days ago"
    raises. *)
Theorem parse_relative_time_overflow E :
  parse_relative_time E (VStr "1000000000 days ago")
  = Raise (OverflowError "timedelta # of days is too large").
Proof. reflexivity. Qed.

(** The same defect on a phrase of ordinary size: 3000 years before
    2024 is before the year 1. *)
Example parse_relative_time_before_year_one :
  parse_relative_time sample_env (VStr "3000 years ago")
  = Raise (OverflowError "result out of range").
Proof. reflexivity. Qed.

(** ** Valid datetimes *)

(** The date [ord2ymd] gives is a date of the calendar. *)
Lemma ord2ymd_valid n :
  1 <= n <= MAXORDINAL ->
  let '(y, m, d) := ord2ymd n in
  1 <= y <= 9999 /\ 1 <= m <= 12 /\ 1 <= d <= days_in_month y m.
Proof.
  intros Hn. unfold MAXORDINAL in Hn. unfold ord2ymd.
  set (n0 := n - 1).
  set (n400 := n0 / DI400Y). set (r1 := n0 mod DI400Y).
  set (n100 := r1 / DI100Y). set (r2 := r1 mod DI100Y).
  set (n4 := r2 / DI4Y). set (r3 := r2 mod DI4Y).
  set (n1 := r3 / 365). set (r4 := r3 mod 365).
  assert (E1 : n0 = n400 * DI400Y + r1 /\ 0 <= r1 < DI400Y /\ 0 <= n400).
  { unfold n400, r1, DI400Y. subst n0. Z.div_mod_to_equations. lia. }
  assert (E2 : r1 = n100 * DI100Y + r2 /\ 0 <= r2 < DI100Y /\ 0 <= n100 <= 4).
  { unfold n100, r2, DI100Y, DI400Y in *. Z.div_mod_to_equations. lia. }
  assert (E3 : r2 = n4 * DI4Y + r3 /\ 0 <= r3 < DI4Y /\ 0 <= n4 <= 24).
  { unfold n4, r3, DI4Y, DI100Y in *. Z.div_mod_to_equations. lia. }
  assert (E4 : r3 = n1 * 365 + r4 /\ 0 <= r4 < 365 /\ 0 <= n1 <= 4).
  { unfold n1, r4, DI4Y in *. Z.div_mod_to_equations. lia. }
  assert (E0 : n0 <= 3652058) by (subst n0; lia).
  clearbody n400 r1 n100 r2 n4 r3 n1 r4 n0.
  destruct E1 as (E1 & B1 & P1), E2 as (E2 & B2 & P2),
           E3 as (E3 & B3 & P3), E4 as (E4 & B4 & P4).
  unfold DI400Y, DI100Y, DI4Y in *.
  destruct (Z.eqb_spec n1 4) as [H14 | H14]; cbn [orb].
  - unfold days_in_month. cbn. lia.
  - destruct (Z.eqb_spec n100 4) as [H1004 | H1004].
    + unfold days_in_month. cbn. lia.
    + set (leap := (n1 =? 3) && (negb (n4 =? 24) || (n100 =? 3))).
      pose proof (month_and_day_spec leap r4 B4) as Hmd.
      unfold month_and_day_ok in Hmd.
      destruct (month_and_day leap r4) as [m d].
      rewrite !andb_true_iff in Hmd.
      destruct Hmd as ((((Hm1 & Hm2) & Hd1) & Hd2) & _).
      apply Z.leb_le in Hm1, Hm2, Hd1, Hd2.
      unfold days_in_month.
      rewrite is_leap_decomp by lia. fold leap.
      split; [lia|]. split; [lia|]. split; [lia|].
      destruct ((m =? 2) && leap) eqn:Hml; [|lia].
      apply andb_true_iff in Hml as [Hm _]. apply Z.eqb_eq in Hm. subst m.
      cbn in Hd2. lia.
Qed.

(** ** Python's order on datetimes is the order of time *)

Lemma days_before_month_succ y m :
  1 <= m <= 11 ->
  days_before_month y (m + 1) = days_before_month y m + days_in_month y m.
Proof.
  intros Hm. unfold days_before_month, days_in_month.
  assert (C : m = 1 \/ m = 2 \/ m = 3 \/ m = 4 \/ m = 5 \/ m = 6 \/
              m = 7 \/ m = 8 \/ m = 9 \/ m = 10 \/ m = 11) by lia.
  destruct (is_leap y);
    destruct C as [->|[->|[->|[->|[->|[->|[->|[->|[->|[->| ->]]]]]]]]]];
    reflexivity.
Qed.

Lemma days_before_month_mono y m1 m2 :
  1 <= m1 -> m1 <= m2 -> m2 <= 12 ->
  days_before_month y m1 <= days_before_month y m2.
Proof.
  intros H1 H12 H2. unfold days_before_month.
  destruct (is_leap y);
    destruct (month_cases m1 ltac:(lia)) as [->|[->|[->|[->|[->|[->|[->|[->|[->|[->|[->| ->]]]]]]]]]]];
    destruct (month_cases m2 ltac:(lia)) as [->|[->|[->|[->|[->|[->|[->|[->|[->|[->|[->| ->]]]]]]]]]]];
    cbn; lia.
Qed.

(** A later date of the calendar has a larger ordinal. *)
Lemma ymd2ord_lt y1 m1 d1 y2 m2 d2 :
  1 <= m1 <= 12 -> 1 <= d1 <= days_in_month y1 m1 ->
  1 <= m2 <= 12 -> 1 <= d2 <= days_in_month y2 m2 ->
  y1 < y2 \/ (y1 = y2 /\ (m1 < m2 \/ (m1 = m2 /\ d1 < d2))) ->
  ymd2ord y1 m1 d1 < ymd2ord y2 m2 d2.
Proof.
  intros Hm1 Hd1 Hm2 Hd2 Hlt. unfold ymd2ord.
  pose proof (day_of_year_bounds _ _ _ Hm1 Hd1) as B1.
  pose proof (day_of_year_bounds _ _ _ Hm2 Hd2) as B2.
  destruct Hlt as [Hy | [-> [Hm | [-> Hd]]]].
  - pose proof (days_before_year_succ y1) as Hs.
    pose proof (days_before_year_mono (y1 + 1) y2 ltac:(lia)). lia.
  - pose proof (days_before_month_succ y2 m1 ltac:(lia)) as Hs.
    pose proof (days_before_month_mono y2 (m1 + 1) m2 ltac:(lia) ltac:(lia) ltac:(lia)).
    lia.
  - lia.
Qed.

(** The fields of a valid datetime, compared most significant first,
    compare as the times do. *)
Lemma lex_compare_timestamp a b :
  valid_datetime a = true -> valid_datetime b = true ->
  lex_compare (datetime_fields a) (datetime_fields b) = (timestamp a ?= timestamp b).
Proof.
  intros Ha Hb.
  apply valid_datetime_inv in Ha as (_ & Hm1 & Hd1 & Hh1 & Hmi1 & Hs1 & Hu1).
  apply valid_datetime_inv in Hb as (_ & Hm2 & Hd2 & Hh2 & Hmi2 & Hs2 & Hu2).
  rewrite !timestamp_eq. unfold as_timedelta, toordinal, datetime_fields.
  change US_PER_HOUR with 3600000000. change US_PER_SECOND with 1000000.
  rewrite US_PER_DAY_eq.
  destruct a as [y1 m1 d1 h1 mi1 s1 u1], b as [y2 m2 d2 h2 mi2 s2 u2].
  cbn [year month day hour minute second microsecond lex_compare] in *.
  symmetry.
  assert (Hlt : forall o1 o2 : Z, o1 < o2 ->
            o1 * 86400000000 + h1 * 3600000000 + mi1 * (60 * 1000000) + s1 * 1000000 + u1
            - 86400000000
            < o2 * 86400000000 + h2 * 3600000000 + mi2 * (60 * 1000000) + s2 * 1000000 + u2
              - 86400000000) by (intros; lia).
  assert (Hgt : forall o1 o2 : Z, o2 < o1 ->
            o1 * 86400000000 + h1 * 3600000000 + mi1 * (60 * 1000000) + s1 * 1000000 + u1
            - 86400000000
            > o2 * 86400000000 + h2 * 3600000000 + mi2 * (60 * 1000000) + s2 * 1000000 + u2
              - 86400000000) by (intros; lia).
  destruct (Z.compare_spec y1 y2) as [-> | Hy | Hy].
  2: { apply Z.compare_lt_iff, Hlt, ymd2ord_lt; auto. }
  2: { apply Z.compare_gt_iff, Z.gt_lt, Hgt, ymd2ord_lt; auto. }
  destruct (Z.compare_spec m1 m2) as [-> | Hm | Hm].
  2: { apply Z.compare_lt_iff, Hlt, ymd2ord_lt; auto. }
  2: { apply Z.compare_gt_iff, Z.gt_lt, Hgt, ymd2ord_lt; auto. }
  destruct (Z.compare_spec d1 d2) as [-> | Hd | Hd].
  2: { apply Z.compare_lt_iff, Hlt, ymd2ord_lt; auto. }
  2: { apply Z.compare_gt_iff, Z.gt_lt, Hgt, ymd2ord_lt; auto. }
  destruct (Z.compare_spec h1 h2) as [-> | Hh | Hh];
    [| apply Z.compare_lt_iff; lia | apply Z.compare_gt_iff; lia].
  destruct (Z.compare_spec mi1 mi2) as [-> | Hmi | Hmi];
    [| apply Z.compare_lt_iff; lia | apply Z.compare_gt_iff; lia].
  destruct (Z.compare_spec s1 s2) as [-> | Hs | Hs];
    [| apply Z.compare_lt_iff; lia | apply Z.compare_gt_iff; lia].
  destruct (Z.compare_spec u1 u2) as [-> | Hu | Hu];
    [apply Z.compare_eq_iff; reflexivity
    | apply Z.compare_lt_iff; lia | apply Z.compare_gt_iff; lia].
Qed.

(** [a <= b] on valid datetimes is [<=] on their times. *)
Lemma datetime_le_timestamp a b :
  valid_datetime a = true -> valid_datetime b = true ->
  datetime_le a b = (timestamp a <=? timestamp b).
Proof.
  intros Ha Hb. unfold datetime_le, Z.leb.
  now rewrite (lex_compare_timestamp a b Ha Hb).
Qed.

Lemma lex_compare_eq a : forall b,
  length a = length b -> lex_compare a b = Eq -> a = b.
Proof.
  induction a as [|x a IH]; intros [|y b] Hlen H; try discriminate; [reflexivity|].
  cbn in H. destruct (Z.compare_spec x y) as [-> | |]; try discriminate.
  f_equal. apply IH; [now injection Hlen | assumption].
Qed.

(** Two valid datetimes at the same time are the same datetime. *)
Lemma timestamp_inj a b :
  valid_datetime a = true -> valid_datetime b = true ->
  timestamp a = timestamp b -> a = b.
Proof.
  intros Ha Hb Heq.
  pose proof (lex_compare_timestamp a b Ha Hb) as H.
  rewrite Heq, Z.compare_refl in H.
  apply lex_compare_eq in H; [|reflexivity].
  destruct a, b. unfold datetime_fields in H. cbn in H. congruence.
Qed.

(** What a subtraction returns is a valid datetime. *)
Lemma datetime_sub_valid t td r :
  datetime_sub t td = Ret r -> valid_datetime r = true.
Proof.
  unfold datetime_sub.
  destruct (timedelta (- td)) as [neg|]; [rewrite py_bind_ret | discriminate].
  destruct (timedelta (as_timedelta t)) as [self|]; [rewrite py_bind_ret | discriminate].
  destruct (timedelta (self + neg)) as [delta|]; [rewrite py_bind_ret | discriminate].
  destruct ((0 <? td_days delta) && (td_days delta <=? MAXORDINAL)) eqn:Hrange;
    [|discriminate].
  apply andb_true_iff in Hrange as [H0 H1].
  apply Z.ltb_lt in H0. apply Z.leb_le in H1.
  pose proof (ord2ymd_valid (td_days delta) ltac:(lia)) as Hv.
  destruct (ord2ymd (td_days delta)) as [[y m] d].
  destruct Hv as (Hy & Hm & Hd).
  intros [= <-]. unfold valid_datetime, MINYEAR, MAXYEAR.
  cbn [year month day hour minute second microsecond].
  rewrite !andb_true_iff, !Z.leb_le.
  unfold td_seconds, td_microseconds.
  rewrite US_PER_DAY_eq. change US_PER_SECOND with 1000000.
  repeat split; try lia; Z.div_mod_to_equations; lia.
Qed.

Lemma strptime_valid md s t : strptime md s = Ret t -> valid_datetime t = true.
Proof.
  unfold strptime.
  destruct (match_items published_format (list_ascii_of_string s))
    as [|[gs rest] ?]; [discriminate|].
  destruct rest; [|discriminate].
  destruct gs as [|gY [|gm [|gd [|gH [|gM [|gS [|]]]]]]]; try discriminate.
  repeat match goal with
         | |- (py_int ?md ?g ≫= _) = _ -> _ =>
             destruct (py_int md g); [rewrite py_bind_ret | discriminate]
         end.
  unfold make_datetime.
  match goal with |- context [valid_datetime ?x] => destruct (valid_datetime x) eqn:Hv end;
    [|discriminate].
  now intros [= <-].
Qed.

Lemma parse_relative_time_valid E v t :
  valid_datetime (now E) = true ->
  parse_relative_time E v = Ret t -> valid_datetime t = true.
Proof.
  intros Hnow. unfold parse_relative_time.
  destruct (negb (truthy v)); [now intros [= <-]|].
  destruct (py_in "Streamed" v) as [[|]|]; cbn [mbind py_bind];
    [now intros [= <-] | | discriminate].
  destruct (py_split v) as [parts|]; cbn [mbind py_bind]; [|discriminate].
  destruct (length parts <? 2)%nat; [now intros [= <-]|].
  destruct (py_int (int_max_str_digits E) (nth 0 parts "")) as [n|e];
    cbn [mbind py_bind try_except].
  - repeat match goal with
           | |- context [if contains ?w ?u then _ else _] => destruct (contains w u)
           end;
      try (now intros [= <-]);
      match goal with
      | |- try_except (timedelta ?x ≫= _) _ _ = _ -> _ =>
          destruct (timedelta x) as [td|e1] eqn:Htd;
          [rewrite py_bind_ret;
           destruct (datetime_sub (now E) td) as [r|e2] eqn:Hsub;
           [intros [= <-]; exact (datetime_sub_valid _ _ _ Hsub)
           | cbn [try_except]; rewrite (datetime_sub_raises _ _ _ Hsub); discriminate]
          | rewrite py_bind_raise; cbn [try_except];
            rewrite (timedelta_raises _ _ Htd); discriminate]
      end.
  - destruct (is_ValueError e); [now intros [= <-] | discriminate].
Qed.

(** A publish time that resolves is a valid datetime. *)
Lemma publish_date_valid E use_api video t :
  valid_datetime (now E) = true ->
  publish_date E use_api video = Ret t -> valid_datetime t = true.
Proof.
  intros Hnow. unfold publish_date. destruct use_api.
  - destruct (getitem video "snippet") as [sn|]; [rewrite py_bind_ret | discriminate].
    destruct (getitem sn "publishedAt") as [p|]; [rewrite py_bind_ret | discriminate].
    destruct p; try discriminate. apply strptime_valid.
  - destruct (get video "publishedTime" (VStr "")) as [p|];
      [rewrite py_bind_ret | discriminate].
    now apply parse_relative_time_valid.
Qed.

(** ** Relative phrases *)

Lemma split_from_space tok rest :
  String.eqb tok "" = false ->
  split_from tok (String " " rest) = tok :: split_from "" rest.
Proof. intros H. cbn [split_from]. change (isspace " ") with true. now rewrite H. Qed.

Lemma phrase_eq n u plural :
  phrase n u plural
  = decimal n ++ String " " (unit_word u ++ (if plural then "s" else "") ++ " ago").
Proof. reflexivity. Qed.

Lemma phrase_split n u plural :
  0 <= n ->
  split (phrase n u plural)
  = [decimal n; unit_word u ++ (if plural then "s" else ""); "ago"].
Proof.
  intros Hn. rewrite phrase_eq. unfold split.
  rewrite split_from_run
    by (eapply all_chars_impl; [|apply decimal_all_digits, Hn];
        intros c Hc; now rewrite (isdigit_not_space c Hc)).
  change ("" ++ decimal n) with (decimal n).
  rewrite split_from_space by now apply decimal_nonempty.
  f_equal. destruct u, plural; reflexivity.
Qed.

Lemma phrase_not_streamed n u plural :
  0 <= n -> contains "Streamed" (phrase n u plural) = false.
Proof.
  intros Hn. rewrite phrase_eq.
  rewrite contains_after_digits by (reflexivity || now apply decimal_all_digits).
  destruct u, plural; reflexivity.
Qed.

Lemma phrase_unit u (plural : bool) :
  first_unit (lower (unit_word u ++ (if plural then "s" else ""))) = Some u.
Proof. destruct u, plural; reflexivity. Qed.

Lemma unit_micros_pos u : US_PER_HOUR <= unit_micros u.
Proof. destruct u; cbn; unfold US_PER_WEEK, US_PER_DAY, US_PER_HOUR, US_PER_SECOND; lia. Qed.

(** C6 (amended).  A phrase ["<n> <unit>[s] ago"] with [n >= 0] resolves
    to the clock's time minus exactly [n] hours, days or weeks, [n * 30]
    days for a month and [n * 365] days for a year, whenever that time is
    one a [datetime] can hold (not before 0001-01-01).  The result is a
    valid datetime, and by [timestamp_inj] the only one at that time. *)
Theorem relative_phrase_exact E n u plural :
  valid_datetime (now E) = true ->
  0 <= n ->
  representable (timestamp (now E) - n * unit_micros u) ->
  exists t,
    parse_relative_time E (VStr (phrase n u plural)) = Ret t
    /\ valid_datetime t = true
    /\ timestamp t = timestamp (now E) - n * unit_micros u.
Proof.
  intros Hv Hn Hr.
  assert (Hsmall : n < 2 ^ 639).
  { pose proof (timestamp_bounds _ Hv) as Hb.
    pose proof (unit_micros_pos u) as Hu.
    unfold representable in Hr. rewrite MAXORDINAL_eq, US_PER_DAY_eq in *.
    change US_PER_HOUR with 3600000000 in Hu.
    assert (n <= 315537897600000000) by nia.
    assert (315537897600000000 < 2 ^ 639) by reflexivity. lia. }
  rewrite (parse_relative_time_tokens E _ _ _ _ n
             (phrase_split n u plural Hn) (phrase_not_streamed n u plural Hn)
             (py_int_decimal _ n (conj Hn Hsmall))).
  rewrite phrase_unit.
  rewrite timedelta_ok, py_bind_ret.
  - destruct (datetime_sub_exact _ _ Hv Hr) as (t & Ht & Hts).
    exists t. repeat split; [assumption | exact (datetime_sub_valid _ _ _ Ht) | assumption].
  - pose proof (timestamp_bounds _ Hv) as Hb.
    unfold representable in Hr. rewrite MAXORDINAL_eq, US_PER_DAY_eq in *. lia.
Qed.

(** Three weeks before the sample clock. *)
Lemma relative_phrase_exact_witness :
  exists t,
    parse_relative_time sample_env (VStr (phrase 3 Week true)) = Ret t
    /\ valid_datetime t = true
    /\ timestamp t = timestamp (now sample_env) - 3 * unit_micros Week.
Proof.
  apply (relative_phrase_exact sample_env 3 Week true).
  - reflexivity.
  - lia.
  - unfold representable. vm_compute. split; [discriminate | reflexivity].
Defined.

(** C6 (counterexample).  With the clock in 2024, "3000 years ago" does
    not yield the clock's time minus 3000 * 365 days: it raises. *)
Lemma relative_phrase_counterexample :
  valid_datetime (now sample_env) = true
  /\ phrase 3000 Year true = "3000 years ago"
  /\ parse_relative_time sample_env (VStr (phrase 3000 Year true))
     = Raise (OverflowError "result out of range").
Proof. repeat split; reflexivity. Qed.

(** C10 (amended).  On an input without "Streamed" whose first token is
    an integer [n], the second token alone, lowercased, chooses the unit
    by containment, the words tried in the order hour, day, week, month,
    year; tokens after it do not count.  The result is the clock's time
    minus [n] units whenever that time is one a [datetime] can hold. *)
Theorem second_token_chooses_unit E s t0 t1 rest n u :
  valid_datetime (now E) = true ->
  contains "Streamed" s = false ->
  split s = t0 :: t1 :: rest ->
  py_int (int_max_str_digits E) t0 = Ret n ->
  first_unit (lower t1) = Some u ->
  representable (timestamp (now E) - n * unit_micros u) ->
  exists t,
    parse_relative_time E (VStr s) = Ret t
    /\ valid_datetime t = true
    /\ timestamp t = timestamp (now E) - n * unit_micros u.
Proof.
  intros Hv Hs Hsplit Hint Hu Hr.
  rewrite (parse_relative_time_tokens E s t0 t1 rest n Hsplit Hs Hint), Hu.
  rewrite timedelta_ok, py_bind_ret.
  - destruct (datetime_sub_exact _ _ Hv Hr) as (t & Ht & Hts).
    exists t. repeat split; [assumption | exact (datetime_sub_valid _ _ _ Ht) | assumption].
  - pose proof (timestamp_bounds _ Hv) as Hb.
    unfold representable in Hr. rewrite MAXORDINAL_eq, US_PER_DAY_eq in *. lia.
Qed.

(** "5 yesterday": five days, for "yesterday" holds "day". *)
Lemma second_token_chooses_unit_witness :
  exists t,
    parse_relative_time sample_env (VStr "5 yesterday") = Ret t
    /\ valid_datetime t = true
    /\ timestamp t = timestamp (now sample_env) - 5 * unit_micros Day.
Proof.
  apply (second_token_chooses_unit sample_env "5 yesterday" "5" "yesterday" [] 5 Day);
    try reflexivity.
  unfold representable. vm_compute. split; [discriminate | reflexivity].
Defined.

(** C10 (counterexample).  A token after the second does count when it
    holds "Streamed": "3 weeks Streamed" resolves to the clock's time, not
    to three weeks before it; and "3000 yearly" raises. *)
Lemma second_token_counterexample :
  parse_relative_time sample_env (VStr "3 weeks Streamed") = Ret (now sample_env)
  /\ parse_relative_time sample_env (VStr "3000 yearly")
     = Raise (OverflowError "result out of range").
Proof. split; reflexivity. Qed.

(** The order of the checks: a token that holds two unit words resolves
    by the earlier one, and letter case does not count. *)
Example second_token_examples :
  first_unit (lower "Weekdays") = Some Day
  /\ first_unit (lower "HOURS") = Some Hour
  /\ first_unit (lower "monthly-yearly") = Some Month
  /\ first_unit (lower "fortnight") = None
  /\ parse_relative_time sample_env (VStr "3 weekly")
     = parse_relative_time sample_env (VStr "3 weeks ago")
  /\ parse_relative_time sample_env (VStr "-2 Days")
     = Ret (mkdatetime 2024 3 3 12 30 15 250).
Proof. repeat split; reflexivity. Qed.

(** ** The date-range filter *)

Lemma lex_compare_refl l : lex_compare l l = Eq.
Proof. induction l as [|x l IH]; cbn; [reflexivity | now rewrite Z.compare_refl]. Qed.

Lemma datetime_le_refl t : datetime_le t t = true.
Proof. unfold datetime_le. now rewrite lex_compare_refl. Qed.

(** The loop keeps what it has and appends, in order, the videos in the
    window. *)
Lemma filter_loop_spec E start_date end_date use_api videos :
  Forall (fun v => returns (publish_date E use_api v) = true) videos ->
  forall filtered,
    filter_loop E start_date end_date use_api videos filtered
    = Ret (filtered ++ List.filter (in_window E start_date end_date use_api) videos)%list.
Proof.
  induction 1 as [|video videos Hv _ IH]; intros filtered; cbn [filter_loop List.filter].
  - now rewrite app_nil_r.
  - unfold in_window at 1.
    destruct (publish_date E use_api video) as [d|e]; [|discriminate].
    rewrite py_bind_ret, IH.
    destruct (datetime_le start_date d && datetime_le d end_date); [|reflexivity].
    now rewrite <- app_assoc.
Qed.

(** In general the filter first resolves the publish times, in order, and
    raises what the first failing one raises. *)
Lemma filter_loop_run E start_date end_date use_api videos : forall filtered,
  filter_loop E start_date end_date use_api videos filtered
  = (_ ← comprehension (publish_date E use_api) videos;
     Ret (filtered ++ List.filter (in_window E start_date end_date use_api) videos)%list).
Proof.
  induction videos as [|video videos IH]; intros filtered;
    cbn [filter_loop comprehension List.filter].
  - rewrite py_bind_ret. now rewrite app_nil_r.
  - unfold in_window at 1.
    destruct (publish_date E use_api video) as [d|e]; [|reflexivity].
    rewrite !py_bind_ret, IH.
    destruct (comprehension (publish_date E use_api) videos); [|reflexivity].
    rewrite !py_bind_ret.
    destruct (datetime_le start_date d && datetime_le d end_date); [|reflexivity].
    now rewrite <- app_assoc.
Qed.

(** C8 (amended).  When the publish time of every record resolves, the
    filter returns exactly the records whose publish time [t] satisfies
    [start <= t <= end], in the order of the input and as they are; a
    record published at [start] or at [end] is kept. *)
Theorem filter_videos_by_date_range_spec E videos start_date end_date use_api :
  Forall (fun v => returns (publish_date E use_api v) = true) videos ->
  filter_videos_by_date_range E videos start_date end_date use_api
  = Ret (List.filter (in_window E start_date end_date use_api) videos)
  /\ (forall v t, publish_date E use_api v = Ret t ->
       in_window E start_date end_date use_api v
       = datetime_le start_date t && datetime_le t end_date)
  /\ (forall v, publish_date E use_api v = Ret start_date ->
       datetime_le start_date end_date = true ->
       in_window E start_date end_date use_api v = true)
  /\ (forall v, publish_date E use_api v = Ret end_date ->
       datetime_le start_date end_date = true ->
       in_window E start_date end_date use_api v = true).
Proof.
  intros Hall. repeat split.
  - unfold filter_videos_by_date_range. now rewrite filter_loop_spec.
  - intros v t Ht. unfold in_window. now rewrite Ht.
  - intros v Ht Hle. unfold in_window. now rewrite Ht, datetime_le_refl, Hle.
  - intros v Ht Hle. unfold in_window. now rewrite Ht, datetime_le_refl, Hle.
Qed.

(** Of a result two days old and one three weeks old, the window of the
    last seven days keeps the first. *)
Lemma filter_videos_by_date_range_witness :
  filter_videos_by_date_range sample_env [scraped_old; scraped_recent; scraped_old]
    week_start week_end false
  = Ret [scraped_recent].
Proof.
  pose proof (filter_videos_by_date_range_spec sample_env
                [scraped_old; scraped_recent; scraped_old] week_start week_end false)
    as H.
  destruct H as [H _].
  - repeat constructor.
  - rewrite H. reflexivity.
Defined.

(** C8 (counterexample).  The filter does not return for every record
    sequence: a scraped record whose publish time lies before the year 1
    makes it raise, though the record before it lies in the window; and so
    does any scraped record when the filter is told the records come from
    the API. *)
Lemma filter_videos_by_date_range_counterexample :
  filter_videos_by_date_range sample_env
    [scraped_recent; dict [("publishedTime", VStr "3000 years ago")]]
    week_start week_end false
  = Raise (OverflowError "result out of range")
  /\ filter_videos_by_date_range sample_env [scraped_recent] week_start week_end true
     = Raise (KeyError "snippet").
Proof. split; reflexivity. Qed.

(** The window test of the filter is the chronological one. *)
Theorem in_window_chronological E start_date end_date use_api video t :
  valid_datetime (now E) = true ->
  valid_datetime start_date = true -> valid_datetime end_date = true ->
  publish_date E use_api video = Ret t ->
  in_window E start_date end_date use_api video = true
  <-> timestamp start_date <= timestamp t <= timestamp end_date.
Proof.
  intros Hnow Hs He Ht.
  pose proof (publish_date_valid E use_api video t Hnow Ht) as Hv.
  unfold in_window. rewrite Ht.
  rewrite (datetime_le_timestamp _ _ Hs Hv), (datetime_le_timestamp _ _ Hv He).
  rewrite andb_true_iff, !Z.leb_le. tauto.
Qed.

(** The result two days old lies in the window of the last seven days. *)
Lemma in_window_chronological_witness :
  timestamp week_start <= timestamp (mkdatetime 2024 2 28 12 30 15 250)
  <= timestamp week_end.
Proof.
  apply (in_window_chronological sample_env week_start week_end false scraped_recent);
    reflexivity.
Defined.

(** The scenario of the specification: of two videos published on
    2024-01-01 and 2024-06-01, the window from May to December keeps the
    second. *)
Example filter_api_scenario :
  filter_videos_by_date_range api_env
    [api_details "a" "2024-01-01T00:00:00Z"; api_details "b" "2024-06-01T00:00:00Z"]
    (day_start (2024, 5, 1)) (day_end (2024, 12, 31)) true
  = Ret [api_details "b" "2024-06-01T00:00:00Z"].
Proof. vm_compute. reflexivity. Qed.

(** ** The field mapping *)

Lemma get_nested d k1 k2 dflt :
  dict_or_missing d k1 ->
  (c ← get (VDict d) k1 (VDict ∅); get c k2 dflt) = Ret (default dflt (nested d k1 k2)).
Proof.
  intros H. unfold nested. cbn [get]. rewrite py_bind_ret.
  destruct (d !! k1) as [v|] eqn:Hk; cbn [default].
  - destruct (H v Hk) as [c ->]. reflexivity.
  - cbn [get]. now rewrite lookup_empty.
Qed.

(** C2 (amended).  On a scraped result, a dictionary whose "channel" and
    "viewCount" entries, when present, are dictionaries, the field mapping
    never raises, and each field that is missing, at either level, is
    "N/A".  On a result of the authenticated backend the mapping defaults
    the view count alone: it returns when the snippet with its three
    fields, the statistics and the id are present, and raises [KeyError]
    for the first of them that is missing, in the order the source reads
    them: the snippet, its title, its channelTitle, the statistics, the
    snippet's publishedAt, the id. *)
Theorem video_fields_defaults :
  (forall d : gmap string value,
      dict_or_missing d "channel" -> dict_or_missing d "viewCount" ->
      video_fields false (VDict d)
      = Ret {| r_title := default NA (d !! "title");
               r_channel := default NA (nested d "channel" "name");
               r_views := default NA (nested d "viewCount" "text");
               r_published := default NA (d !! "publishedTime");
               r_video_id := default NA (d !! "id") |})
  /\ (forall (d snippet stats : gmap string value) title channel published id,
        d !! "snippet" = Some (VDict snippet) ->
        snippet !! "title" = Some title ->
        snippet !! "channelTitle" = Some channel ->
        snippet !! "publishedAt" = Some published ->
        d !! "statistics" = Some (VDict stats) ->
        d !! "id" = Some id ->
        video_fields true (VDict d)
        = Ret {| r_title := title; r_channel := channel;
                 r_views := default NA (stats !! "viewCount");
                 r_published := published; r_video_id := id |})
  /\ (forall d : gmap string value,
        d !! "snippet" = None ->
        video_fields true (VDict d) = Raise (KeyError "snippet"))
  /\ (forall (d snippet : gmap string value) title channel,
        d !! "snippet" = Some (VDict snippet) ->
        snippet !! "title" = Some title ->
        snippet !! "channelTitle" = Some channel ->
        d !! "statistics" = None ->
        video_fields true (VDict d) = Raise (KeyError "statistics"))
  /\ (forall (d snippet : gmap string value),
        d !! "snippet" = Some (VDict snippet) ->
        snippet !! "title" = None ->
        video_fields true (VDict d) = Raise (KeyError "title"))
  /\ (forall (d snippet : gmap string value) title,
        d !! "snippet" = Some (VDict snippet) ->
        snippet !! "title" = Some title ->
        snippet !! "channelTitle" = None ->
        video_fields true (VDict d) = Raise (KeyError "channelTitle"))
  /\ (forall (d snippet stats : gmap string value) title channel,
        d !! "snippet" = Some (VDict snippet) ->
        snippet !! "title" = Some title ->
        snippet !! "channelTitle" = Some channel ->
        d !! "statistics" = Some (VDict stats) ->
        snippet !! "publishedAt" = None ->
        video_fields true (VDict d) = Raise (KeyError "publishedAt"))
  /\ (forall (d snippet stats : gmap string value) title channel published,
        d !! "snippet" = Some (VDict snippet) ->
        snippet !! "title" = Some title ->
        snippet !! "channelTitle" = Some channel ->
        d !! "statistics" = Some (VDict stats) ->
        snippet !! "publishedAt" = Some published ->
        d !! "id" = None ->
        video_fields true (VDict d) = Raise (KeyError "id")).
Proof.
  repeat split.
  - intros d Hch Hvc. unfold video_fields, nested.
    destruct (d !! "channel") as [v|] eqn:H1;
      [destruct (Hch v H1) as [c ->]|];
      (destruct (d !! "viewCount") as [w|] eqn:H2;
       [destruct (Hvc w H2) as [c' ->]|]);
      cbn [get mbind py_bind default]; rewrite ?H1, ?H2;
      cbn [get mbind py_bind default]; rewrite ?lookup_empty; reflexivity.
  - intros d snippet stats title channel published id Hs Ht Hc Hp Hst Hid.
    unfold video_fields.
    repeat (progress (cbn [getitem get mbind py_bind];
                      rewrite ?Hs, ?Ht, ?Hc, ?Hp, ?Hst, ?Hid)).
    reflexivity.
  - intros d Hs. unfold video_fields. cbn [getitem mbind py_bind]. now rewrite Hs.
  - intros d snippet title channel Hs Ht Hc Hst.
    unfold video_fields.
    repeat (progress (cbn [getitem get mbind py_bind];
                      rewrite ?Hs, ?Ht, ?Hc, ?Hst)).
    reflexivity.
  - intros d snippet Hs Ht. unfold video_fields.
    repeat (progress (cbn [getitem get mbind py_bind]; rewrite ?Hs, ?Ht)).
    reflexivity.
  - intros d snippet title Hs Ht Hc. unfold video_fields.
    repeat (progress (cbn [getitem get mbind py_bind]; rewrite ?Hs, ?Ht, ?Hc)).
    reflexivity.
  - intros d snippet stats title channel Hs Ht Hc Hst Hp. unfold video_fields.
    repeat (progress (cbn [getitem get mbind py_bind];
                      rewrite ?Hs, ?Ht, ?Hc, ?Hst, ?Hp)).
    reflexivity.
  - intros d snippet stats title channel published Hs Ht Hc Hst Hp Hid.
    unfold video_fields.
    repeat (progress (cbn [getitem get mbind py_bind];
                      rewrite ?Hs, ?Ht, ?Hc, ?Hst, ?Hp, ?Hid)).
    reflexivity.
Qed.

(** A scraped result with a title only: the four other fields are "N/A". *)
Lemma video_fields_defaults_witness :
  video_fields false (VDict scraped_title_only)
  = Ret {| r_title := VStr "Cats"; r_channel := NA; r_views := NA;
           r_published := NA; r_video_id := NA |}.
Proof.
  destruct video_fields_defaults as [H _].
  rewrite (H scraped_title_only).
  - reflexivity.
  - intros v Hv. vm_compute in Hv. discriminate.
  - intros v Hv. vm_compute in Hv. discriminate.
Defined.

(** C2 (counterexample).  A result of the authenticated backend without
    its statistics block has no view count; the mapping does not answer
    "N/A", it raises.  Without the view count alone it answers "N/A". *)
Lemma video_fields_counterexample :
  video_fields true api_video_without_statistics = Raise (KeyError "statistics")
  /\ video_fields true api_video_without_view_count
     = Ret {| r_title := VStr "Cats"; r_channel := VStr "Pets"; r_views := NA;
              r_published := VStr "2024-06-01T00:00:00Z";
              r_video_id := VStr "abc123" |}.
Proof. split; reflexivity. Qed.

(** ** [strptime] *)

(** The first way a group matches, followed by the first way the rest of
    the format matches, is the first way the whole matches. *)
Lemma match_items_group r its s g s1 alts gs s2 more :
  matches r s = (g, s1) :: alts ->
  match_items its s1 = (gs, s2) :: more ->
  exists others, match_items (Group r :: its) s = (g :: gs, s2) :: others.
Proof.
  intros Hr Hits. cbn [match_items]. rewrite Hr. cbn. rewrite Hits. cbn.
  eexists. reflexivity.
Qed.

Lemma match_items_literal c its s :
  match_items (Literal c :: its) (c :: s) = match_items its s.
Proof. cbn [match_items]. now rewrite Ascii.eqb_refl. Qed.

Lemma pad2_digits n :
  0 <= n <= 99 ->
  isdigit (digit_char (n / 10)) = true /\ isdigit (digit_char (n mod 10)) = true.
Proof.
  intros H. split; apply digit_char_digit; Z.div_mod_to_equations; lia.
Qed.

Lemma matches_digit c s : isdigit c = true -> matches digit (c :: s) = [([c], s)].
Proof. intros H. cbn. now rewrite H. Qed.

Lemma matches_four_digits c1 c2 c3 c4 s :
  isdigit c1 = true -> isdigit c2 = true -> isdigit c3 = true -> isdigit c4 = true ->
  matches re_Y (c1 :: c2 :: c3 :: c4 :: s) = [([c1; c2; c3; c4], s)].
Proof.
  intros H1 H2 H3 H4. unfold re_Y, digit. cbn [matches].
  rewrite H1. simpl. rewrite H2. simpl. rewrite H3. simpl. rewrite H4. reflexivity.
Qed.

Lemma matches_re_Y y s :
  0 <= y <= 9999 -> matches re_Y (pad4 y ++ s)%list = [(pad4 y, s)].
Proof.
  intros H. unfold pad4, pad2.
  destruct (pad2_digits (y / 100)) as [H1 H2]; [Z.div_mod_to_equations; lia|].
  destruct (pad2_digits (y mod 100)) as [H3 H4]; [Z.div_mod_to_equations; lia|].
  now apply matches_four_digits.
Qed.

(** A two-digit field in its range: the first match is the two digits.
    The proof goes through the values of the field. *)
Tactic Notation "by_cases_below" integer(bound) "on" constr(n) :=
  let k := fresh "k" in
  let Hk := fresh "Hk" in
  assert (Hk : exists k, n = Z.of_nat k) by (exists (Z.to_nat n); lia);
  destruct Hk as (k & ->);
  do bound (destruct k as [|k]; [first [lia | eexists; reflexivity]|]);
  lia.

Lemma matches_re_m m s :
  1 <= m <= 12 -> exists alts, matches re_m (pad2 m ++ s)%list = (pad2 m, s) :: alts.
Proof. intros H. by_cases_below 13 on m. Qed.

Lemma matches_re_d d s :
  1 <= d <= 31 -> exists alts, matches re_d (pad2 d ++ s)%list = (pad2 d, s) :: alts.
Proof. intros H. by_cases_below 32 on d. Qed.

Lemma matches_re_H h s :
  0 <= h <= 23 -> exists alts, matches re_H (pad2 h ++ s)%list = (pad2 h, s) :: alts.
Proof. intros H. by_cases_below 24 on h. Qed.

Lemma matches_re_M m s :
  0 <= m <= 59 -> exists alts, matches re_M (pad2 m ++ s)%list = (pad2 m, s) :: alts.
Proof. intros H. by_cases_below 60 on m. Qed.

Lemma matches_re_S x s :
  0 <= x <= 59 -> exists alts, matches re_S (pad2 x ++ s)%list = (pad2 x, s) :: alts.
Proof. intros H. by_cases_below 60 on x. Qed.

Lemma first_match_nil : first_match [] [] [].
Proof. exists []. reflexivity. Qed.

Lemma first_match_literal c its s gs :
  first_match its s gs -> first_match (Literal c :: its) (c :: s) gs.
Proof. intros [others H]. exists others. now rewrite match_items_literal. Qed.

Lemma first_match_group r its g s gs :
  (exists alts, matches r (g ++ s)%list = (g, s) :: alts) ->
  first_match its s gs ->
  first_match (Group r :: its) (g ++ s)%list (g :: gs).
Proof.
  intros [alts Hr] [others Hits].
  exact (match_items_group r its _ g s alts gs [] others Hr Hits).
Qed.

Lemma first_match_published t :
  valid_datetime t = true ->
  first_match published_format (list_ascii_of_string (iso8601 t))
    [pad4 (year t); pad2 (month t); pad2 (day t);
     pad2 (hour t); pad2 (minute t); pad2 (second t)].
Proof.
  intros Hv. apply valid_datetime_inv in Hv as (Hy & Hm & Hd & Hh & Hmi & Hs & _).
  assert (Hd' : 1 <= day t <= 31).
  { unfold days_in_month in Hd.
    destruct ((month t =? 2) && is_leap (year t)); [lia|].
    destruct (month_cases _ Hm) as [E|[E|[E|[E|[E|[E|[E|[E|[E|[E|[E|E]]]]]]]]]]];
      rewrite E in Hd; cbn in Hd; lia. }
  unfold iso8601, published_format.
  rewrite list_ascii_of_string_of_list_ascii.
  apply first_match_group; [eexists; apply matches_re_Y; lia|].
  apply first_match_literal.
  apply first_match_group; [now apply matches_re_m|].
  apply first_match_literal.
  apply first_match_group; [now apply matches_re_d|].
  apply first_match_literal.
  apply first_match_group; [now apply matches_re_H|].
  apply first_match_literal.
  apply first_match_group; [now apply matches_re_M|].
  apply first_match_literal.
  apply first_match_group; [now apply matches_re_S|].
  apply first_match_literal.
  apply first_match_nil.
Qed.

Lemma int_digits_all_digits ds :
  Forall (fun c => isdigit c = true) ds ->
  forall p a k, ds <> [] \/ p = true ->
    int_digits p a k ds
    = Some (fold_left (fun a c => 10 * a + digit_val c) ds a, (k + length ds)%nat).
Proof.
  induction 1 as [|c ds Hc _ IH]; intros p a k Hne.
  - destruct Hne as [Hne | ->]; [congruence|]. cbn. do 2 f_equal. lia.
  - cbn [int_digits fold_left length]. rewrite Hc, IH by now right.
    do 2 f_equal. lia.
Qed.

Lemma py_int_digits md ds :
  Forall (fun c => isdigit c = true) ds -> ds <> [] -> (length ds <= 640)%nat ->
  py_int md (string_of_list_ascii ds)
  = Ret (fold_left (fun a c => 10 * a + digit_val c) ds 0).
Proof.
  intros Hd Hne Hlen. unfold py_int.
  rewrite list_ascii_of_string_of_list_ascii.
  rewrite strip_no_space
    by (eapply List.Forall_impl; [|exact Hd]; apply isdigit_not_space).
  destruct ds as [|c ds]; [congruence|].
  assert (Hc : isdigit c = true) by now inversion Hd.
  destruct (Ascii.eqb_spec c "-") as [-> | _]; [discriminate|].
  destruct (Ascii.eqb_spec c "+") as [-> | _]; [discriminate|].
  rewrite int_digits_all_digits by (assumption || now left).
  replace (Nat.ltb 640 (0 + length (c :: ds))) with false
    by (symmetry; apply Nat.ltb_ge; lia).
  reflexivity.
Qed.

Lemma py_int_pad2 md n :
  0 <= n <= 99 -> py_int md (string_of_list_ascii (pad2 n)) = Ret n.
Proof.
  intros H.
  destruct (digit_char_digit (n / 10)) as [H1 V1]; [Z.div_mod_to_equations; lia|].
  destruct (digit_char_digit (n mod 10)) as [H2 V2]; [Z.div_mod_to_equations; lia|].
  rewrite py_int_digits.
  - unfold pad2. cbn [fold_left]. rewrite V1, V2. f_equal.
    Z.div_mod_to_equations; lia.
  - repeat constructor; assumption.
  - discriminate.
  - cbn. lia.
Qed.

Lemma py_int_pad4 md n :
  0 <= n <= 9999 -> py_int md (string_of_list_ascii (pad4 n)) = Ret n.
Proof.
  intros H.
  destruct (digit_char_digit (n / 100 / 10)) as [H1 V1]; [Z.div_mod_to_equations; lia|].
  destruct (digit_char_digit (n / 100 mod 10)) as [H2 V2]; [Z.div_mod_to_equations; lia|].
  destruct (digit_char_digit (n mod 100 / 10)) as [H3 V3]; [Z.div_mod_to_equations; lia|].
  destruct (digit_char_digit (n mod 100 mod 10)) as [H4 V4]; [Z.div_mod_to_equations; lia|].
  rewrite py_int_digits.
  - unfold pad4, pad2. cbn [fold_left List.app]. rewrite V1, V2, V3, V4. f_equal.
    Z.div_mod_to_equations; lia.
  - repeat constructor; assumption.
  - discriminate.
  - cbn. lia.
Qed.

(** Parsing the text of a time of whole seconds gives the time back. *)
Lemma strptime_iso8601 md t :
  valid_datetime t = true -> microsecond t = 0 ->
  strptime md (iso8601 t) = Ret t.
Proof.
  intros Hv Hus.
  destruct (first_match_published t Hv) as [others Hmatch].
  pose proof (valid_datetime_inv t Hv) as (Hy & Hm & Hd & Hh & Hmi & Hs & _).
  assert (Hd' : 1 <= day t <= 31).
  { unfold days_in_month in Hd.
    destruct ((month t =? 2) && is_leap (year t)); [lia|].
    destruct (month_cases _ Hm) as [E|[E|[E|[E|[E|[E|[E|[E|[E|[E|[E|E]]]]]]]]]]];
      rewrite E in Hd; cbn in Hd; lia. }
  unfold strptime. rewrite Hmatch.
  rewrite py_int_pad4, py_bind_ret by lia.
  rewrite !py_int_pad2, !py_bind_ret by lia.
  unfold make_datetime.
  destruct t as [y m d hh mm ss us].
  cbn [year month day hour minute second microsecond] in *. subst us.
  now rewrite Hv.
Qed.

Lemma strptime_whole_seconds md s t :
  strptime md s = Ret t -> microsecond t = 0.
Proof.
  unfold strptime.
  destruct (match_items published_format (list_ascii_of_string s))
    as [|[gs rest] ?]; [discriminate|].
  destruct rest; [|discriminate].
  destruct gs as [|gY [|gm [|gd [|gH [|gM [|gS [|]]]]]]]; try discriminate.
  repeat match goal with
         | |- (py_int ?md ?g ≫= _) = _ -> _ =>
             destruct (py_int md g); [rewrite py_bind_ret | discriminate]
         end.
  unfold make_datetime.
  match goal with |- context [valid_datetime ?x] => destruct (valid_datetime x) end;
    [|discriminate].
  intros [= <-]. reflexivity.
Qed.

(** C7 (amended).  For a valid time [t] of whole seconds, the resolver of
    the authenticated backend, given the text [YYYY-MM-DDThh:mm:ssZ] of
    [t] as the publish time of a video, returns exactly [t]. *)
Theorem iso8601_roundtrip E t (video snippet : gmap string value) :
  valid_datetime t = true ->
  microsecond t = 0 ->
  video !! "snippet" = Some (VDict snippet) ->
  snippet !! "publishedAt" = Some (VStr (iso8601 t)) ->
  publish_date E true (VDict video) = Ret t.
Proof.
  intros Hv Hus Hs Hp. unfold publish_date. cbn [getitem].
  rewrite Hs, py_bind_ret. cbn [getitem]. rewrite Hp, py_bind_ret.
  now apply strptime_iso8601.
Qed.

Lemma iso8601_roundtrip_witness :
  iso8601 june_first = "2024-06-01T00:00:00Z"
  /\ publish_date sample_env true api_video_without_view_count = Ret june_first.
Proof.
  split; [reflexivity|].
  apply (iso8601_roundtrip sample_env june_first
           (list_to_map [("id", VStr "abc123"); ("snippet", sample_snippet);
                         ("statistics", dict [])])
           (list_to_map [("title", VStr "Cats"); ("channelTitle", VStr "Pets");
                         ("publishedAt", VStr "2024-06-01T00:00:00Z")]));
    reflexivity.
Defined.

(** C7 (counterexample).  A valid time with a microsecond part is not
    returned: its text has no place for the microseconds, so parsing it
    gives the whole second, and no text at all parses to that time. *)
Lemma iso8601_counterexample :
  valid_datetime june_first_and_a_microsecond = true
  /\ strptime 4300 (iso8601 june_first_and_a_microsecond) = Ret june_first
  /\ ~ (exists md s, strptime md s = Ret june_first_and_a_microsecond).
Proof.
  repeat split; try reflexivity.
  intros (md & s & H). apply strptime_whole_seconds in H. discriminate.
Qed.

(** ** The scraping search *)

(** Unfolds the operations of [M]. *)
Ltac run_M :=
  unfold try_except_Exception, with_trace, mbind, M_bind, emit, lift, raise,
    mret, M_ret, get_state, put_state, set_files, set_transcript_windows,
    set_results_layout, set_video_results, set_use_api.


(** What [search_videos_without_api] does, by the outcome of the upstream
    call. *)
Lemma search_videos_without_api_run E query max_results s :
  search_videos_without_api E query max_results s
  = match VideosSearch E query max_results with
    | Ret (v :: l) =>
        (Ret (v :: l), with_trace s (trace s ++ [Scrape query max_results]))
    | Ret [] =>
        (Ret [],
         with_trace s
           (trace s ++ [Scrape query max_results;
                        Print "Error in search_videos_without_api: No results found"]))
    | Raise e =>
        (Ret [],
         with_trace s
           (trace s ++ [Scrape query max_results;
                        Print ("Error in search_videos_without_api: " ++ exn_str e)]))
    end.
Proof.
  unfold search_videos_without_api. run_M.
  destruct (VideosSearch E query max_results) as [[|v l]|e];
    cbn; rewrite <- ?app_assoc; reflexivity.
Qed.

(** C4.  Whatever the upstream call does, the scraping search returns a
    list and raises nothing: the list the call returned, and the empty
    list when the call raised. *)
Theorem search_videos_without_api_total E query max_results s :
  exists results,
    fst (search_videos_without_api E query max_results s) = Ret results
    /\ (forall e, VideosSearch E query max_results = Raise e -> results = [])
    /\ (forall l, VideosSearch E query max_results = Ret l -> results = l).
Proof.
  rewrite search_videos_without_api_run.
  destruct (VideosSearch E query max_results) as [[|v l]|e];
    eexists; (split; [reflexivity|]); split; congruence.
Qed.

(** ** The pipeline *)

(** Reduces the projections of a state that is written out. *)
Ltac proj_app :=
  cbn [fst snd trace files transcript_directory transcript_windows
       results_layout video_results self_use_api].


Lemma for_each_trace {A} (body : A -> M unit) l :
  (forall x s, trace (snd (body x s)) = trace s) ->
  forall s, trace (snd (for_each l body s)) = trace s.
Proof.
  intros Hbody. induction l as [|x l IH]; intros s; [reflexivity|].
  cbn [for_each]. unfold mbind, M_bind.
  specialize (Hbody x s).
  destruct (body x s) as [[[]|e] s']; cbn [snd] in *.
  - now rewrite IH.
  - assumption.
Qed.

(** Displaying results sends, prints and shows nothing. *)
Lemma display_results_trace videos s :
  trace (snd (display_results videos s)) = trace s.
Proof.
  unfold display_results. unfold mbind at 1, M_bind at 1.
  unfold set_results_layout at 1.
  rewrite for_each_trace; [reflexivity|].
  intros video s0. run_M.
  destruct (video_fields (self_use_api s0) video); reflexivity.
Qed.

(** What the pipeline does on the scraping branch when the upstream call
    returns no result. *)
Lemma search_and_display_videos_empty E f s :
  use_api_checkbox f && bool_decide (is_Some (youtube E)) = false ->
  VideosSearch E (search_input f) (max_results_input f) = Ret [] ->
  search_and_display_videos E f s
  = (Ret tt,
     {| files := files s;
        trace := trace s ++
                 [Scrape (search_input f) (max_results_input f);
                  Print "Error in search_videos_without_api: No results found";
                  Print "An error occurred: No results found";
                  Warning "Error" "An error occurred: No results found"];
        transcript_directory := transcript_directory s;
        transcript_windows := transcript_windows s;
        results_layout := results_layout s;
        video_results := video_results s;
        self_use_api := use_api_checkbox f |}).
Proof.
  intros Hbranch Hup. unfold search_and_display_videos. rewrite Hbranch.
  run_M. rewrite search_videos_without_api_run. cbn [snd fst].
  rewrite Hup. cbn. rewrite <- !app_assoc. reflexivity.
Qed.

(** On the scraping branch the pipeline returns, its first event is the
    scraping call, and no event reaches the authenticated backend. *)
Lemma search_and_display_videos_scraping E f s :
  use_api_checkbox f && bool_decide (is_Some (youtube E)) = false ->
  exists rest,
    fst (search_and_display_videos E f s) = Ret tt
    /\ trace (snd (search_and_display_videos E f s))
       = (trace s ++ Scrape (search_input f) (max_results_input f) :: rest)%list
    /\ forallb (fun ev => negb (is_api_event ev)) rest = true.
Proof.
  intros Hbranch. unfold search_and_display_videos. rewrite Hbranch.
  run_M. rewrite search_videos_without_api_run. cbn [snd fst].
  destruct (VideosSearch E (search_input f) (max_results_input f)) as [[|v l]|e];
    unfold with_trace; proj_app.
  - eexists. rewrite <- !app_assoc. repeat split; reflexivity.
  - destruct (filter_videos_by_date_range E (v :: l) (day_start (start_date f))
                (day_end (end_date f)) (use_api_checkbox f)) as [[|x xs]|e];
      proj_app.
    + eexists. rewrite <- !app_assoc. repeat split; reflexivity.
    + match goal with
      | |- context [display_results ?vs ?st] =>
          pose proof (display_results_trace vs st) as Ht;
          destruct (display_results vs st) as [[[]|e] st']
      end; proj_app; cbn [snd trace] in Ht.
      * eexists. rewrite Ht. rewrite <- !app_assoc. repeat split; reflexivity.
      * eexists. rewrite Ht. rewrite <- !app_assoc. repeat split; reflexivity.
    + eexists. rewrite <- !app_assoc. repeat split; reflexivity.
  - eexists. rewrite <- !app_assoc. repeat split; reflexivity.
Qed.

(** C1 (amended).  When the upstream call of the scraping backend returns
    no result, the search function returns the empty list: the
    [ValueError] it raises is caught by its own handler and printed.  The
    pipeline then raises "No results found" itself and reports it; the
    date-range filter is not invoked and the stored results do not
    change. *)
Theorem scraping_zero_results E f s :
  use_api_checkbox f && bool_decide (is_Some (youtube E)) = false ->
  VideosSearch E (search_input f) (max_results_input f) = Ret [] ->
  fst (search_videos_without_api E (search_input f) (max_results_input f) s) = Ret []
  /\ exists emitted,
      fst (search_and_display_videos E f s) = Ret tt
      /\ trace (snd (search_and_display_videos E f s)) = (trace s ++ emitted)%list
      /\ emitted = [Scrape (search_input f) (max_results_input f);
                    Print "Error in search_videos_without_api: No results found";
                    Print "An error occurred: No results found";
                    Warning "Error" "An error occurred: No results found"]
      /\ existsb is_filter_call emitted = false
      /\ video_results (snd (search_and_display_videos E f s)) = video_results s.
Proof.
  intros Hbranch Hup. split.
  - rewrite search_videos_without_api_run, Hup. reflexivity.
  - rewrite (search_and_display_videos_empty E f s Hbranch Hup).
    eexists. repeat split; reflexivity.
Qed.

Lemma scraping_zero_results_witness :
  fst (search_videos_without_api sample_env "cats" 50 sample_app) = Ret []
  /\ exists emitted,
      fst (search_and_display_videos sample_env (sample_form false) sample_app) = Ret tt
      /\ trace (snd (search_and_display_videos sample_env (sample_form false) sample_app))
         = (trace sample_app ++ emitted)%list
      /\ emitted = [Scrape "cats" 50;
                    Print "Error in search_videos_without_api: No results found";
                    Print "An error occurred: No results found";
                    Warning "Error" "An error occurred: No results found"]
      /\ existsb is_filter_call emitted = false
      /\ video_results (snd (search_and_display_videos sample_env (sample_form false)
                               sample_app))
         = video_results sample_app.
Proof.
  apply (scraping_zero_results sample_env (sample_form false) sample_app); reflexivity.
Defined.

(** C1 (counterexample).  With a scraping backend that finds nothing the
    search function does not raise: it returns the empty list. *)
Lemma scraping_zero_results_counterexample :
  VideosSearch sample_env "cats" 50 = Ret []
  /\ fst (search_videos_without_api sample_env "cats" 50 sample_app) = Ret [].
Proof. split; reflexivity. Qed.

(** C3 (amended).  Without a credential the authenticated search
    function, called directly, fails on the absent client before any
    upstream call (with [AttributeError]); the pipeline never calls it,
    whatever the checkbox says: it returns, its first action is the
    scraping call, and no event reaches the authenticated backend. *)
Theorem no_credential_falls_back E f s :
  youtube E = None ->
  search_videos_with_api E (search_input f) (max_results_input f) s
  = (Raise (AttributeError "'NoneType' object has no attribute 'search'"), s)
  /\ exists rest,
      fst (search_and_display_videos E f s) = Ret tt
      /\ trace (snd (search_and_display_videos E f s))
         = (trace s ++ Scrape (search_input f) (max_results_input f) :: rest)%list
      /\ forallb (fun ev => negb (is_api_event ev)) rest = true.
Proof.
  intros Hnone. split.
  - unfold search_videos_with_api. now rewrite Hnone.
  - apply search_and_display_videos_scraping.
    rewrite Hnone. now destruct (use_api_checkbox f).
Qed.

Lemma no_credential_falls_back_witness :
  search_videos_with_api sample_env "cats" 50 sample_app
  = (Raise (AttributeError "'NoneType' object has no attribute 'search'"), sample_app)
  /\ exists rest,
      fst (search_and_display_videos sample_env (sample_form true) sample_app) = Ret tt
      /\ trace (snd (search_and_display_videos sample_env (sample_form true) sample_app))
         = (trace sample_app ++ Scrape "cats" 50 :: rest)%list
      /\ forallb (fun ev => negb (is_api_event ev)) rest = true.
Proof.
  apply (no_credential_falls_back sample_env (sample_form true) sample_app).
  reflexivity.
Defined.

(** C3 (counterexample).  No credential, the box "Use YouTube API"
    checked: the pipeline does not fail before any upstream call, it calls
    the scraping backend, and what it reports is that backend's empty
    answer. *)
Lemma no_credential_counterexample :
  youtube sample_env = None
  /\ use_api_checkbox (sample_form true) = true
  /\ trace (snd (search_and_display_videos sample_env (sample_form true) sample_app))
     = [Scrape "cats" 50;
        Print "Error in search_videos_without_api: No results found";
        Print "An error occurred: No results found";
        Warning "Error" "An error occurred: No results found"].
Proof. repeat split; reflexivity. Qed.

(** ** Transcripts *)

(** C9 (amended).  When the provider has no transcript for a video,
    [show_transcript] does not raise: it catches the provider's exception
    and shows a warning that carries its message.  No file is created or
    changed, and no window is added. *)
Theorem show_transcript_unavailable E video_id s e :
  get_transcript E video_id = Raise e ->
  show_transcript E video_id s
  = (Ret tt,
     with_trace s
       (trace s ++
        [TranscriptRequest video_id;
         Warning "Transcription Error"
           ("Could not retrieve or save transcript: " ++ exn_str e)])%list)
  /\ files (snd (show_transcript E video_id s)) = files s
  /\ transcript_windows (snd (show_transcript E video_id s)) = transcript_windows s.
Proof.
  intros Hup.
  assert (Hrun : show_transcript E video_id s
                 = (Ret tt,
                    with_trace s
                      (trace s ++
                       [TranscriptRequest video_id;
                        Warning "Transcription Error"
                          ("Could not retrieve or save transcript: " ++ exn_str e)])%list)).
  { unfold show_transcript. run_M. rewrite Hup. proj_app.
    rewrite <- !app_assoc. reflexivity. }
  rewrite Hrun. repeat split; reflexivity.
Qed.

Lemma show_transcript_unavailable_witness :
  files (snd (show_transcript sample_env "abc123" sample_app)) = files sample_app
  /\ trace (snd (show_transcript sample_env "abc123" sample_app))
     = [TranscriptRequest "abc123";
        Warning "Transcription Error"
          "Could not retrieve or save transcript: Subtitles are disabled for this video"].
Proof.
  destruct (show_transcript_unavailable sample_env "abc123" sample_app no_transcript
              eq_refl) as (Hrun & Hfiles & _).
  split; [exact Hfiles | rewrite Hrun; reflexivity].
Defined.

(** C9 (counterexample).  The provider has no transcript for "abc123":
    [show_transcript] returns normally, it does not raise.  (No file is
    written at /tmp/t/abc123_transcript.txt.) *)
Lemma show_transcript_counterexample :
  get_transcript sample_env "abc123" = Raise no_transcript
  /\ fst (show_transcript sample_env "abc123" sample_app) = Ret tt
  /\ files (snd (show_transcript sample_env "abc123" sample_app))
       !! "/tmp/t/abc123_transcript.txt" = None.
Proof. repeat split; reflexivity. Qed.

(** When the provider has a transcript, it is written, one line an entry,
    to the file named after the video. *)
Example show_transcript_saves :
  files (snd (show_transcript transcript_env "abc123" sample_app))
    !! "/tmp/t/abc123_transcript.txt"
  = Some (Text ("0.00 - hello" ++ String "010" "1.25 - cats")).
Proof. vm_compute. reflexivity. Qed.

(** The same scenario through the pipeline, with a credential: two calls
    reach the authenticated backend, the filter is invoked, and the second
    video is stored and displayed. *)
Example search_and_display_videos_api_scenario :
  let r := search_and_display_videos api_env may_to_december sample_app in
  fst r = Ret tt
  /\ trace (snd r) = [ApiSearch "cats" 50; ApiVideos "a,b"; FilterCall true]
  /\ video_results (snd r) = Some [api_details "b" "2024-06-01T00:00:00Z"]
  /\ results_layout (snd r)
     = [{| r_title := VStr "Video b"; r_channel := VStr "Pets"; r_views := VStr "42";
           r_published := VStr "2024-06-01T00:00:00Z"; r_video_id := VStr "b" |}].
Proof. vm_compute. repeat split; reflexivity. Qed.

(** When the provider has a transcript and the file can be opened,
    [show_transcript] writes it, one line an entry, to
    [{directory}/{video_id}_transcript.txt], whatever was there, records
    the new window and tells where the file is. *)
Theorem show_transcript_saves_file E video_id s transcript :
  get_transcript E video_id = Ret transcript ->
  open_fails E (os_path_join (transcript_directory s) (video_id ++ "_transcript.txt"))
  = None ->
  let path := os_path_join (transcript_directory s) (video_id ++ "_transcript.txt") in
  let r := show_transcript E video_id s in
  fst r = Ret tt
  /\ files (snd r)
     = <[path := Text (join_lines (map transcript_line transcript))]> (files s)
  /\ transcript_windows (snd r) = (transcript_windows s ++ [video_id])%list
  /\ trace (snd r)
     = (trace s ++ [TranscriptRequest video_id;
                    Information "Transcript Saved" ("Transcript saved to: " ++ path)])%list.
Proof.
  intros Hup Hopen. unfold show_transcript, open_w. run_M. rewrite Hup. proj_app.
  rewrite Hopen. proj_app. rewrite <- !app_assoc. repeat split; reflexivity.
Qed.

Lemma show_transcript_saves_file_witness :
  files (snd (show_transcript transcript_env "abc123" sample_app))
  = {[ "/tmp/t/abc123_transcript.txt"
       := Text ("0.00 - hello" ++ String "010" "1.25 - cats") ]}.
Proof.
  destruct (show_transcript_saves_file transcript_env "abc123" sample_app
              sample_transcript eq_refl eq_refl) as (_ & Hfiles & _).
  rewrite Hfiles. reflexivity.
Defined.

(** ** Export *)

(** Exporting no record writes a file that holds the header row alone. *)
Theorem export_to_csv_empty E filename use_api s :
  open_fails E filename = None ->
  fst (export_to_csv E [] filename use_api s) = Ret tt
  /\ files (snd (export_to_csv E [] filename use_api s))
     = <[filename := Csv [csv_header]]> (files s).
Proof.
  intros Hopen. unfold export_to_csv, open_w, writerow. run_M.
  rewrite Hopen. proj_app. rewrite lookup_insert_eq. proj_app.
  rewrite insert_insert_eq. split; reflexivity.
Qed.

Lemma export_to_csv_empty_witness :
  files (snd (export_to_csv sample_env [] "out.csv" false sample_app))
  = {[ "out.csv" := Csv [csv_header] ]}.
Proof.
  destruct (export_to_csv_empty sample_env "out.csv" false sample_app eq_refl)
    as [_ Hfiles].
  rewrite Hfiles. reflexivity.
Defined.

(** One row a record, in the order of the header. *)
Example export_to_csv_rows :
  files (snd (export_to_csv sample_env [scraped_recent] "out.csv" false sample_app))
    !! "out.csv"
  = Some (Csv [csv_header; [VStr "Cats"; NA; NA; VStr "2 days ago"; VStr "v1"]]).
Proof. vm_compute. reflexivity. Qed.

(** ** What the resolver can return *)

Lemma timedelta_ret us td : timedelta us = Ret td -> td = us.
Proof.
  unfold timedelta. destruct (999999999 <? Z.abs (td_days us)); [discriminate|].
  now intros [= <-].
Qed.

Lemma timedelta_overflow us e : timedelta us = Raise e -> exists msg, e = OverflowError msg.
Proof.
  unfold timedelta. destruct (999999999 <? Z.abs (td_days us)); [|discriminate].
  intros [= <-]. now eexists.
Qed.

(** The time a subtraction returns is the exact one. *)
Lemma datetime_sub_returns t td r :
  datetime_sub t td = Ret r -> timestamp r = timestamp t - td.
Proof.
  unfold datetime_sub.
  destruct (timedelta (- td)) as [neg|] eqn:H1; [rewrite py_bind_ret | discriminate].
  destruct (timedelta (as_timedelta t)) as [self|] eqn:H2;
    [rewrite py_bind_ret | discriminate].
  destruct (timedelta (self + neg)) as [delta|] eqn:H3;
    [rewrite py_bind_ret | discriminate].
  apply timedelta_ret in H1, H2, H3.
  destruct ((0 <? td_days delta) && (td_days delta <=? MAXORDINAL)) eqn:Hrange;
    [|discriminate].
  apply andb_true_iff in Hrange as [H0 Hm].
  apply Z.ltb_lt in H0. apply Z.leb_le in Hm.
  pose proof (ymd2ord_ord2ymd (td_days delta) ltac:(lia)) as Hord.
  destruct (ord2ymd (td_days delta)) as [[y m] d].
  intros [= <-]. rewrite !timestamp_eq.
  unfold as_timedelta at 1, toordinal.
  cbn [year month day hour minute second microsecond].
  rewrite Hord, micros_split. lia.
Qed.

Lemma datetime_sub_overflow t td e :
  datetime_sub t td = Raise e -> exists msg, e = OverflowError msg.
Proof.
  unfold datetime_sub.
  destruct (timedelta (- td)) as [neg|e1] eqn:H1;
    [rewrite py_bind_ret | rewrite py_bind_raise; intros [= <-];
                           exact (timedelta_overflow _ _ H1)].
  destruct (timedelta (as_timedelta t)) as [self|e2] eqn:H2;
    [rewrite py_bind_ret | rewrite py_bind_raise; intros [= <-];
                           exact (timedelta_overflow _ _ H2)].
  destruct (timedelta (self + neg)) as [delta|e3] eqn:H3;
    [rewrite py_bind_ret | rewrite py_bind_raise; intros [= <-];
                           exact (timedelta_overflow _ _ H3)].
  destruct ((0 <? td_days delta) && (td_days delta <=? MAXORDINAL)).
  - destruct (ord2ymd (td_days delta)) as [[? ?] ?]. discriminate.
  - intros [= <-]. now eexists.
Qed.

(** The cases of [parse_relative_time] on a string. *)
Lemma parse_relative_time_cases E s :
  parse_relative_time E (VStr s) = Ret (now E)
  \/ exists t0 t1 rest n u,
       split s = t0 :: t1 :: rest
       /\ py_int (int_max_str_digits E) t0 = Ret n
       /\ first_unit (lower t1) = Some u
       /\ parse_relative_time E (VStr s)
          = (td ← timedelta (n * unit_micros u); datetime_sub (now E) td).
Proof.
  destruct (contains "Streamed" s) eqn:Hs;
    [left; now apply parse_relative_time_streamed|].
  destruct (split s) as [|t0 [|t1 rest]] eqn:Hsplit;
    try (left; apply parse_relative_time_few_tokens; rewrite Hsplit; cbn; lia).
  destruct (py_int (int_max_str_digits E) t0) as [n|e] eqn:Hint;
    [|left; now apply (parse_relative_time_not_integer E s t0 t1 rest e)].
  pose proof (parse_relative_time_tokens E s t0 t1 rest n Hsplit Hs Hint) as Hrun.
  destruct (first_unit (lower t1)) as [u|] eqn:Hu; [|now left].
  right. now exists t0, t1, rest, n, u.
Qed.

(** The resolver on a string, case by case, for a valid clock.  Either
    the input is empty, holds "Streamed", has fewer than two tokens, has a
    first token that is no integer or a second token that names no unit,
    and the result is the clock's time.  Or the first token is the integer
    [n] and the second token names the unit [u]: then the result is the
    valid datetime exactly [n] units before the clock when a [datetime]
    can hold that time, and [OverflowError] is raised when none can.
    Nothing else is returned, and nothing else is raised. *)
Theorem parse_relative_time_outcomes E s :
  valid_datetime (now E) = true ->
  ((s = ""
    \/ contains "Streamed" s = true
    \/ (length (split s) < 2)%nat
    \/ (exists t0 t1 rest, split s = t0 :: t1 :: rest
          /\ (returns (py_int (int_max_str_digits E) t0) = false
              \/ first_unit (lower t1) = None)))
   /\ parse_relative_time E (VStr s) = Ret (now E))
  \/ (exists t0 t1 rest n u,
        split s = t0 :: t1 :: rest
        /\ contains "Streamed" s = false
        /\ py_int (int_max_str_digits E) t0 = Ret n
        /\ first_unit (lower t1) = Some u
        /\ ((representable (timestamp (now E) - n * unit_micros u)
             /\ exists t,
                  parse_relative_time E (VStr s) = Ret t
                  /\ valid_datetime t = true
                  /\ timestamp t = timestamp (now E) - n * unit_micros u)
            \/ (~ representable (timestamp (now E) - n * unit_micros u)
                /\ exists msg,
                     parse_relative_time E (VStr s) = Raise (OverflowError msg)))).
Proof.
  intros Hnow.
  destruct (contains "Streamed" s) eqn:Hs;
    [left; split; [auto | now apply parse_relative_time_streamed]|].
  destruct (split s) as [|t0 [|t1 rest]] eqn:Hsplit;
    try (left; split;
         [right; right; left; cbn; lia
         | apply parse_relative_time_few_tokens; rewrite Hsplit; cbn; lia]).
  destruct (py_int (int_max_str_digits E) t0) as [n|e] eqn:Hint.
  2: { left. split.
       - right. right. right. exists t0, t1, rest. split; [reflexivity|].
         left. now rewrite Hint.
       - now apply (parse_relative_time_not_integer E s t0 t1 rest e). }
  pose proof (parse_relative_time_tokens E s t0 t1 rest n Hsplit Hs Hint) as Hrun.
  destruct (first_unit (lower t1)) as [u|] eqn:Hu.
  2: { left. split; [|exact Hrun].
       right. right. right. exists t0, t1, rest. split; [reflexivity|]. now right. }
  right. exists t0, t1, rest, n, u.
  repeat (split; [first [reflexivity | assumption]|]).
  rewrite Hrun.
  assert (Hdec : representable (timestamp (now E) - n * unit_micros u)
                 \/ ~ representable (timestamp (now E) - n * unit_micros u))
    by (unfold representable; lia).
  destruct Hdec as [Hr | Hr].
  - left. split; [exact Hr|].
    rewrite timedelta_ok, py_bind_ret.
    + destruct (datetime_sub_exact _ _ Hnow Hr) as (t & Ht & Hts).
      exists t. repeat split;
        [assumption | exact (datetime_sub_valid _ _ _ Ht) | assumption].
    + pose proof (timestamp_bounds _ Hnow) as Hb.
      unfold representable in Hr. rewrite MAXORDINAL_eq, US_PER_DAY_eq in *. lia.
  - right. split; [exact Hr|].
    destruct (timedelta (n * unit_micros u)) as [td|e] eqn:Htd.
    + rewrite py_bind_ret. apply timedelta_ret in Htd. subst td.
      destruct (datetime_sub (now E) (n * unit_micros u)) as [t|e] eqn:Hsub.
      * exfalso. apply Hr. unfold representable.
        rewrite <- (datetime_sub_returns _ _ _ Hsub).
        apply timestamp_bounds. exact (datetime_sub_valid _ _ _ Hsub).
      * destruct (datetime_sub_overflow _ _ _ Hsub) as [msg ->]. now exists msg.
    + rewrite py_bind_raise.
      destruct (timedelta_overflow _ _ Htd) as [msg ->]. now exists msg.
Qed.

(** "3000 years ago", read in 2024: no datetime lies there. *)
Lemma parse_relative_time_outcomes_witness :
  exists msg,
    parse_relative_time sample_env (VStr "3000 years ago") = Raise (OverflowError msg).
Proof.
  destruct (parse_relative_time_outcomes sample_env "3000 years ago" eq_refl)
    as [[Hc _] | (t0 & t1 & rest & n & u & Hsplit & _ & Hint & Hu & Hout)].
  - exfalso. destruct Hc as [H | [H | [H | (t0 & t1 & rest & Hsplit & H)]]].
    + discriminate.
    + vm_compute in H. discriminate.
    + vm_compute in H. lia.
    + vm_compute in Hsplit. injection Hsplit as <- <- <-.
      destruct H as [H | H]; vm_compute in H; discriminate.
  - vm_compute in Hsplit. injection Hsplit as <- <- <-.
    vm_compute in Hint. injection Hint as <-.
    vm_compute in Hu. injection Hu as <-.
    destruct Hout as [[Hr _] | [_ Hraise]]; [|exact Hraise].
    exfalso. unfold representable in Hr. vm_compute in Hr. destruct Hr as [Hr _].
    now apply Hr.
Defined.

(** A publish time the resolver returns is not later than the clock,
    unless the first token is a negative integer. *)
Theorem parse_relative_time_not_future E s t :
  valid_datetime (now E) = true ->
  (forall t0 rest n, split s = t0 :: rest ->
     py_int (int_max_str_digits E) t0 = Ret n -> 0 <= n) ->
  parse_relative_time E (VStr s) = Ret t ->
  datetime_le t (now E) = true.
Proof.
  intros Hnow Hpos.
  destruct (parse_relative_time_cases E s)
    as [H | (t0 & t1 & rest & n & u & Hsplit & Hint & _ & Hrun)].
  - rewrite H. intros [= <-]. apply datetime_le_refl.
  - rewrite Hrun. specialize (Hpos t0 (t1 :: rest) n Hsplit Hint).
    destruct (timedelta (n * unit_micros u)) as [td|e] eqn:Htd; [|discriminate].
    rewrite py_bind_ret. apply timedelta_ret in Htd. subst td. intros Hsub.
    pose proof (datetime_sub_valid _ _ _ Hsub) as Hv.
    pose proof (datetime_sub_returns _ _ _ Hsub) as Ht.
    rewrite (datetime_le_timestamp _ _ Hv Hnow). apply Z.leb_le.
    pose proof (unit_micros_pos u) as Hu. change US_PER_HOUR with 3600000000 in Hu.
    assert (0 <= n * unit_micros u) by (apply Z.mul_nonneg_nonneg; lia). lia.
Qed.

Lemma parse_relative_time_not_future_witness :
  datetime_le (mkdatetime 2024 2 28 12 30 15 250) (now sample_env) = true.
Proof.
  apply (parse_relative_time_not_future sample_env "2 days ago").
  - reflexivity.
  - intros t0 rest n [= <- <-]. vm_compute. intros [= <-]. discriminate.
  - reflexivity.
Defined.

(** A negative count is taken as written: the publish time lies after the
    clock. *)
Example parse_relative_time_negative :
  parse_relative_time sample_env (VStr "-2 days ago")
  = Ret (mkdatetime 2024 3 3 12 30 15 250).
Proof. reflexivity. Qed.

(** ** More on the date-range filter *)

Lemma comprehension_returns {A B} (f : A -> py B) l :
  Forall (fun x => returns (f x) = true) l <-> returns (comprehension f l) = true.
Proof.
  induction l as [|x l IH]; cbn [comprehension].
  - split; [reflexivity | constructor].
  - split.
    + intros H. inversion_clear H as [|? ? Hx Hl]. apply IH in Hl.
      destruct (f x); [|discriminate]. rewrite py_bind_ret.
      destruct (comprehension f l); [reflexivity | discriminate].
    + intros H. destruct (f x) eqn:Hx; [|discriminate]. rewrite py_bind_ret in H.
      destruct (comprehension f l); [|discriminate].
      constructor; [now rewrite Hx | now apply IH].
Qed.

(** What the filter returns, when it returns. *)
Lemma filter_videos_by_date_range_ret E videos start_date end_date use_api l :
  filter_videos_by_date_range E videos start_date end_date use_api = Ret l ->
  Forall (fun v => returns (publish_date E use_api v) = true) videos
  /\ l = List.filter (in_window E start_date end_date use_api) videos.
Proof.
  unfold filter_videos_by_date_range. rewrite filter_loop_run.
  destruct (comprehension (publish_date E use_api) videos) eqn:Hc; [|discriminate].
  rewrite py_bind_ret. intros [= <-]. split; [|reflexivity].
  apply comprehension_returns. now rewrite Hc.
Qed.

Lemma in_window_returns E start_date end_date use_api v :
  in_window E start_date end_date use_api v = true ->
  returns (publish_date E use_api v) = true.
Proof. unfold in_window. now destruct (publish_date E use_api v). Qed.

Lemma filter_twice {A} (p : A -> bool) l : List.filter p (List.filter p l) = List.filter p l.
Proof.
  induction l as [|x l IH]; [reflexivity|]. cbn [List.filter].
  destruct (p x) eqn:Hx; [|exact IH]. cbn [List.filter]. now rewrite Hx, IH.
Qed.

(** Filtering is idempotent: under the same clock and window, what the
    filter returned passes it again unchanged. *)
Theorem filter_videos_by_date_range_idempotent E videos start_date end_date use_api l :
  filter_videos_by_date_range E videos start_date end_date use_api = Ret l ->
  filter_videos_by_date_range E l start_date end_date use_api = Ret l.
Proof.
  intros H. apply filter_videos_by_date_range_ret in H as [_ ->].
  unfold filter_videos_by_date_range. rewrite filter_loop_spec.
  - cbn [List.app]. now rewrite filter_twice.
  - apply List.Forall_forall. intros v Hv. apply List.filter_In in Hv as [_ Hv].
    exact (in_window_returns _ _ _ _ _ Hv).
Qed.

Lemma filter_videos_by_date_range_idempotent_witness :
  filter_videos_by_date_range sample_env [scraped_recent] week_start week_end false
  = Ret [scraped_recent].
Proof.
  apply (filter_videos_by_date_range_idempotent sample_env
           [scraped_old; scraped_recent; scraped_old]).
  reflexivity.
Defined.

(** An unresolvable record makes the filter raise, wherever it stands and
    whatever the window: nothing is returned for the records before it. *)
Theorem filter_videos_by_date_range_raises E pre bad post start_date end_date use_api e :
  Forall (fun v => returns (publish_date E use_api v) = true) pre ->
  publish_date E use_api bad = Raise e ->
  filter_videos_by_date_range E (pre ++ bad :: post)%list start_date end_date use_api
  = Raise e.
Proof.
  intros Hpre Hbad. unfold filter_videos_by_date_range. generalize (@nil value).
  induction Hpre as [|v pre Hv _ IH]; intros acc; cbn [List.app filter_loop].
  - now rewrite Hbad.
  - destruct (publish_date E use_api v); [|discriminate]. rewrite py_bind_ret. apply IH.
Qed.

Lemma filter_videos_by_date_range_raises_witness :
  filter_videos_by_date_range api_env
    [api_details "b" "2024-06-01T00:00:00Z"; api_item "a";
     api_details "a" "2024-01-01T00:00:00Z"]
    (day_start (2024, 5, 1)) (day_end (2024, 12, 31)) true
  = Raise (KeyError "snippet").
Proof.
  apply (filter_videos_by_date_range_raises api_env
           [api_details "b" "2024-06-01T00:00:00Z"] (api_item "a")
           [api_details "a" "2024-01-01T00:00:00Z"]).
  - repeat constructor.
  - reflexivity.
Defined.

(** An inverted window, whose end lies before its start, holds no
    record: the filter returns the empty list whenever it returns. *)
Theorem inverted_window_keeps_nothing E start_date end_date use_api :
  valid_datetime (now E) = true ->
  valid_datetime start_date = true -> valid_datetime end_date = true ->
  timestamp end_date < timestamp start_date ->
  (forall v, in_window E start_date end_date use_api v = false)
  /\ (forall videos l,
        filter_videos_by_date_range E videos start_date end_date use_api = Ret l ->
        l = []).
Proof.
  intros Hnow Hs He Hlt.
  assert (Hout : forall v, in_window E start_date end_date use_api v = false).
  { intros v. unfold in_window.
    destruct (publish_date E use_api v) as [t|] eqn:Ht; [|reflexivity].
    pose proof (publish_date_valid E use_api v t Hnow Ht) as Hv.
    rewrite (datetime_le_timestamp _ _ Hs Hv), (datetime_le_timestamp _ _ Hv He).
    destruct (Z.leb_spec (timestamp start_date) (timestamp t));
      destruct (Z.leb_spec (timestamp t) (timestamp end_date)); try reflexivity; lia. }
  split; [exact Hout|].
  intros videos l H. apply filter_videos_by_date_range_ret in H as [_ ->].
  induction videos as [|v videos IH]; [reflexivity|].
  cbn [List.filter]. now rewrite Hout.
Qed.

Lemma inverted_window_keeps_nothing_witness :
  in_window sample_env week_end week_start false scraped_recent = false.
Proof.
  apply (proj1 (inverted_window_keeps_nothing sample_env week_end week_start false
                  eq_refl eq_refl eq_refl eq_refl)).
Defined.

(** A scraped record with no publish time, or with a falsy one ([None],
    the empty string), is taken as published when the clock is read. *)
Theorem publish_date_missing E d :
  match d !! "publishedTime" with
  | None => True
  | Some v => truthy v = false
  end ->
  publish_date E false (VDict d) = Ret (now E)
  /\ forall start_date end_date,
       in_window E start_date end_date false (VDict d)
       = datetime_le start_date (now E) && datetime_le (now E) end_date.
Proof.
  intros H.
  assert (Hp : publish_date E false (VDict d) = Ret (now E)).
  { unfold publish_date, get. rewrite py_bind_ret.
    destruct (d !! "publishedTime") as [v|]; cbn [from_option id].
    - unfold parse_relative_time. now rewrite H.
    - reflexivity. }
  split; [exact Hp|]. intros start_date end_date. unfold in_window. now rewrite Hp.
Qed.

Lemma publish_date_missing_witness :
  publish_date sample_env false (dict [("id", VStr "live"); ("publishedTime", VNone)])
  = Ret sample_now.
Proof.
  apply (publish_date_missing sample_env
           (list_to_map [("id", VStr "live"); ("publishedTime", VNone)])).
  reflexivity.
Defined.

(** ** Display and export *)

Lemma comprehension_app {A B} (f : A -> py B) pre post rows :
  comprehension f pre = Ret rows ->
  comprehension f (pre ++ post)%list
  = (ys ← comprehension f post; Ret (rows ++ ys)%list).
Proof.
  revert rows. induction pre as [|x pre IH]; intros rows; cbn [comprehension List.app].
  - intros [= <-]. destruct (comprehension f post); reflexivity.
  - destruct (f x) as [y|]; [rewrite !py_bind_ret | discriminate].
    destruct (comprehension f pre) as [ys|]; [rewrite py_bind_ret | discriminate].
    intros [= <-]. rewrite (IH ys eq_refl).
    destruct (comprehension f post); reflexivity.
Qed.

(** The loop of [display_results]: the rows of the videos are appended to
    the layout, up to the first video whose fields fail. *)
Lemma display_loop_rows videos : forall s rows,
  comprehension (video_fields (self_use_api s)) videos = Ret rows ->
  for_each videos (fun video =>
    s ← get_state;
    r ← lift (video_fields (self_use_api s) video);
    s ← get_state;
    set_results_layout (results_layout s ++ [r])%list) s
  = (Ret tt, with_results_layout s (results_layout s ++ rows)%list).
Proof.
  induction videos as [|video videos IH]; intros s rows; cbn [comprehension for_each].
  - intros [= <-]. rewrite app_nil_r. now destruct s.
  - destruct (video_fields (self_use_api s) video) as [r|] eqn:Hr;
      [rewrite py_bind_ret | discriminate].
    destruct (comprehension (video_fields (self_use_api s)) videos) as [rs|] eqn:Hrs;
      [rewrite py_bind_ret | discriminate].
    intros [= <-]. unfold mbind at 1, M_bind at 1. run_M. rewrite Hr. proj_app.
    fold (with_results_layout s (results_layout s ++ [r])%list).
    specialize (IH (with_results_layout s (results_layout s ++ [r])%list) rs Hrs).
    unfold mbind, M_bind, get_state, lift, set_results_layout in IH.
    rewrite IH. unfold with_results_layout. proj_app. now rewrite <- app_assoc.
Qed.

Lemma display_loop_partial pre : forall s rows bad post e,
  comprehension (video_fields (self_use_api s)) pre = Ret rows ->
  video_fields (self_use_api s) bad = Raise e ->
  for_each (pre ++ bad :: post)%list (fun video =>
    s ← get_state;
    r ← lift (video_fields (self_use_api s) video);
    s ← get_state;
    set_results_layout (results_layout s ++ [r])%list) s
  = (Raise e, with_results_layout s (results_layout s ++ rows)%list).
Proof.
  induction pre as [|video pre IH]; intros s rows bad post e;
    cbn [comprehension for_each List.app].
  - intros [= <-] Hbad. unfold mbind at 1, M_bind at 1. run_M. rewrite Hbad.
    rewrite app_nil_r. now destruct s.
  - destruct (video_fields (self_use_api s) video) as [r|] eqn:Hr;
      [rewrite py_bind_ret | discriminate].
    destruct (comprehension (video_fields (self_use_api s)) pre) as [rs|] eqn:Hrs;
      [rewrite py_bind_ret | discriminate].
    intros [= <-] Hbad. unfold mbind at 1, M_bind at 1. run_M. rewrite Hr. proj_app.
    fold (with_results_layout s (results_layout s ++ [r])%list).
    specialize (IH (with_results_layout s (results_layout s ++ [r])%list) rs bad post e
                  Hrs Hbad).
    unfold mbind, M_bind, get_state, lift, set_results_layout in IH.
    rewrite IH. unfold with_results_layout. proj_app. now rewrite <- app_assoc.
Qed.

Lemma display_results_ok videos s rows :
  comprehension (video_fields (self_use_api s)) videos = Ret rows ->
  display_results videos s = (Ret tt, with_results_layout s rows).
Proof.
  intros H. unfold display_results. unfold mbind at 1, M_bind at 1.
  unfold set_results_layout at 1.
  fold (with_results_layout s []).
  rewrite (display_loop_rows videos (with_results_layout s []) rows H).
  reflexivity.
Qed.

Lemma display_results_fails pre bad post s rows e :
  comprehension (video_fields (self_use_api s)) pre = Ret rows ->
  video_fields (self_use_api s) bad = Raise e ->
  display_results (pre ++ bad :: post)%list s = (Raise e, with_results_layout s rows).
Proof.
  intros H Hbad. unfold display_results. unfold mbind at 1, M_bind at 1.
  unfold set_results_layout at 1.
  fold (with_results_layout s []).
  rewrite (display_loop_partial pre (with_results_layout s []) rows bad post e H Hbad).
  reflexivity.
Qed.

(** Every list of videos is one whose fields all resolve, or has a first
    video whose fields fail. *)
Lemma comprehension_cases {A B} (f : A -> py B) l :
  (exists ys, comprehension f l = Ret ys)
  \/ (exists pre bad post ys e,
        l = (pre ++ bad :: post)%list /\ comprehension f pre = Ret ys /\ f bad = Raise e).
Proof.
  induction l as [|x l IH]; [left; now exists []|].
  cbn [comprehension]. destruct (f x) as [y|e] eqn:Hx.
  - rewrite py_bind_ret.
    destruct IH as [[ys Hys] | (pre & bad & post & ys & e & -> & Hpre & Hbad)].
    + left. rewrite Hys. now eexists.
    + right. exists (x :: pre), bad, post, (y :: ys), e.
      split; [reflexivity|]. split; [|assumption].
      cbn [comprehension]. now rewrite Hx, py_bind_ret, Hpre.
  - right. exists [], x, l, [], e. repeat split; assumption.
Qed.

(** Whatever happens, displaying changes the layout alone, and leaves in
    it the rows of the videos up to the first whose fields fail. *)
Lemma display_results_state videos s :
  exists pre post rows,
    videos = (pre ++ post)%list
    /\ comprehension (video_fields (self_use_api s)) pre = Ret rows
    /\ (post = []
        \/ exists bad rest e,
             post = bad :: rest /\ video_fields (self_use_api s) bad = Raise e)
    /\ snd (display_results videos s) = with_results_layout s rows.
Proof.
  destruct (comprehension_cases (video_fields (self_use_api s)) videos)
    as [[rows H] | (pre & bad & post & rows & e & -> & Hpre & Hbad)].
  - exists videos, [], rows. rewrite app_nil_r, (display_results_ok _ _ _ H).
    repeat split; try assumption. now left.
  - exists pre, (bad :: post), rows.
    rewrite (display_results_fails _ _ _ _ _ _ Hpre Hbad).
    repeat split; try assumption. right. now exists bad, post, e.
Qed.

(** The loop of [export_to_csv]. *)
Lemma export_loop_rows filename use_api videos : forall s rows0 rows,
  files s !! filename = Some (Csv rows0) ->
  comprehension (video_fields use_api) videos = Ret rows ->
  for_each videos (fun video =>
    r ← lift (video_fields use_api video);
    writerow filename (csv_row r)) s
  = (Ret tt,
     with_files s (<[filename := Csv (rows0 ++ map csv_row rows)%list]> (files s))).
Proof.
  induction videos as [|video videos IH]; intros s rows0 rows Hfile;
    cbn [comprehension for_each].
  - intros [= <-]. cbn [map]. rewrite app_nil_r, insert_id by assumption. now destruct s.
  - destruct (video_fields use_api video) as [r|] eqn:Hr;
      [rewrite py_bind_ret | discriminate].
    destruct (comprehension (video_fields use_api) videos) as [rs|] eqn:Hrs;
      [rewrite py_bind_ret | discriminate].
    intros [= <-]. unfold mbind at 1, M_bind at 1. unfold writerow. run_M.
    proj_app. rewrite Hfile. proj_app.
    fold (with_files s (<[filename := Csv (rows0 ++ [csv_row r])%list]> (files s))).
    specialize (IH (with_files s (<[filename := Csv (rows0 ++ [csv_row r])%list]> (files s)))
                  (rows0 ++ [csv_row r])%list rs).
    unfold writerow, mbind, M_bind, get_state, lift, set_files, raise in IH.
    rewrite IH; [|unfold with_files; proj_app; apply lookup_insert_eq | first [assumption | reflexivity]].
    unfold with_files. proj_app. rewrite insert_insert_eq.
    cbn [map]. now rewrite <- app_assoc.
Qed.

Lemma export_loop_partial filename use_api pre : forall s rows0 rows bad post e,
  files s !! filename = Some (Csv rows0) ->
  comprehension (video_fields use_api) pre = Ret rows ->
  video_fields use_api bad = Raise e ->
  for_each (pre ++ bad :: post)%list (fun video =>
    r ← lift (video_fields use_api video);
    writerow filename (csv_row r)) s
  = (Raise e,
     with_files s (<[filename := Csv (rows0 ++ map csv_row rows)%list]> (files s))).
Proof.
  induction pre as [|video pre IH]; intros s rows0 rows bad post e Hfile;
    cbn [comprehension for_each List.app].
  - intros [= <-] Hbad. unfold mbind at 1, M_bind at 1. run_M. rewrite Hbad.
    cbn [map]. rewrite app_nil_r, insert_id by assumption. now destruct s.
  - destruct (video_fields use_api video) as [r|] eqn:Hr;
      [rewrite py_bind_ret | discriminate].
    destruct (comprehension (video_fields use_api) pre) as [rs|] eqn:Hrs;
      [rewrite py_bind_ret | discriminate].
    intros [= <-] Hbad. unfold mbind at 1, M_bind at 1. unfold writerow. run_M.
    proj_app. rewrite Hfile. proj_app.
    fold (with_files s (<[filename := Csv (rows0 ++ [csv_row r])%list]> (files s))).
    specialize (IH (with_files s (<[filename := Csv (rows0 ++ [csv_row r])%list]> (files s)))
                  (rows0 ++ [csv_row r])%list rs bad post e).
    unfold writerow, mbind, M_bind, get_state, lift, set_files, raise in IH.
    rewrite IH; [|unfold with_files; proj_app; apply lookup_insert_eq | first [assumption | reflexivity]..].
    unfold with_files. proj_app. rewrite insert_insert_eq.
    cbn [map]. now rewrite <- app_assoc.
Qed.

Lemma export_to_csv_ok E videos filename use_api s rows :
  open_fails E filename = None ->
  comprehension (video_fields use_api) videos = Ret rows ->
  export_to_csv E videos filename use_api s
  = (Ret tt, with_files s (<[filename := Csv (csv_header :: map csv_row rows)]> (files s))).
Proof.
  intros Hopen H. unfold export_to_csv, open_w. rewrite Hopen.
  unfold mbind at 1, M_bind at 1. unfold mbind at 1, M_bind at 1.
  unfold get_state at 1, set_files at 1. 
  unfold mbind at 1, M_bind at 1. unfold writerow at 1.
  unfold mbind at 1, M_bind at 1. unfold get_state at 1. proj_app.
  rewrite lookup_insert_eq. unfold set_files at 1. proj_app.
  rewrite insert_insert_eq.
  match goal with
  | |- for_each _ _ ?st = _ =>
      rewrite (export_loop_rows filename use_api videos st [csv_header] rows)
  end; [| proj_app; apply lookup_insert_eq | assumption].
  unfold with_files. proj_app. now rewrite insert_insert_eq.
Qed.

Lemma export_to_csv_fails E pre bad post filename use_api s rows e :
  open_fails E filename = None ->
  comprehension (video_fields use_api) pre = Ret rows ->
  video_fields use_api bad = Raise e ->
  export_to_csv E (pre ++ bad :: post)%list filename use_api s
  = (Raise e, with_files s (<[filename := Csv (csv_header :: map csv_row rows)]> (files s))).
Proof.
  intros Hopen H Hbad. unfold export_to_csv, open_w. rewrite Hopen.
  unfold mbind at 1, M_bind at 1. unfold mbind at 1, M_bind at 1.
  unfold get_state at 1, set_files at 1. 
  unfold mbind at 1, M_bind at 1. unfold writerow at 1.
  unfold mbind at 1, M_bind at 1. unfold get_state at 1. proj_app.
  rewrite lookup_insert_eq. unfold set_files at 1. proj_app.
  rewrite insert_insert_eq.
  match goal with
  | |- for_each _ _ ?st = _ =>
      rewrite (export_loop_partial filename use_api pre st [csv_header] rows bad post e)
  end; [| proj_app; apply lookup_insert_eq | assumption..].
  unfold with_files. proj_app. now rewrite insert_insert_eq.
Qed.

Lemma export_to_csv_open_fails E videos filename use_api s e :
  open_fails E filename = Some e ->
  export_to_csv E videos filename use_api s = (Raise e, s).
Proof.
  intros Hopen. unfold export_to_csv, open_w. rewrite Hopen. reflexivity.
Qed.

(** ** The pipeline, whatever the backend *)

(** The part of the pipeline after the filter. *)
Lemma pipeline_tail_state (filtered : py (list value)) s0 :
  let r :=
    try_except_Exception
      (filtered_videos ← lift filtered;
       match filtered_videos with
       | [] => emit (Information "No Results" no_results_text)
       | _ => _ ← set_video_results filtered_videos; display_results filtered_videos
       end)
      (fun e =>
         _ ← emit (Print ("An error occurred: " ++ exn_str e));
         emit (Warning "Error" ("An error occurred: " ++ exn_str e))) s0 in
  fst r = Ret tt
  /\ files (snd r) = files s0
  /\ transcript_directory (snd r) = transcript_directory s0
  /\ transcript_windows (snd r) = transcript_windows s0
  /\ self_use_api (snd r) = self_use_api s0
  /\ (exists evs, trace (snd r) = (trace s0 ++ evs)%list
                  /\ forallb (fun ev => negb (is_upstream_event ev)) evs = true)
  /\ match filtered with
     | Ret (v :: l) =>
         video_results (snd r) = Some (v :: l)
         /\ exists pre post,
              v :: l = (pre ++ post)%list
              /\ comprehension (video_fields (self_use_api s0)) pre
                 = Ret (results_layout (snd r))
              /\ (post = []
                  \/ exists bad rest e,
                       post = bad :: rest
                       /\ video_fields (self_use_api s0) bad = Raise e)
     | _ => video_results (snd r) = video_results s0
            /\ results_layout (snd r) = results_layout s0
     end.
Proof.
  cbn zeta. run_M. destruct filtered as [[|v l]|e]; proj_app.
  - repeat split; try reflexivity. eexists. split; reflexivity.
  - match goal with
    | |- context [display_results ?vs ?st] =>
        destruct (display_results_state vs st)
          as (pre & post & rows & Hvs & Hrows & Hmax & Hst);
        destruct (display_results vs st) as [[[]|e] st']
    end; cbn [snd] in Hst; subst st'; unfold with_results_layout; proj_app;
      cbn [self_use_api] in Hrows, Hmax.
    + repeat split; try reflexivity; [exists []; now rewrite app_nil_r|].
      now exists pre, post.
    + repeat split; try reflexivity;
        [rewrite <- app_assoc; eexists; split; reflexivity|].
      now exists pre, post.
  - repeat split; try reflexivity. rewrite <- app_assoc. eexists. split; reflexivity.
Qed.

(** What the pipeline does before the filter returns: it changes the
    trace alone. *)
Lemma pipeline_split {A B} (front : M A) (tail : A -> M B) (h : exn -> M B) s0 :
  try_except_Exception (x ← front; tail x) h s0
  = try_except_Exception (x ← lift (fst (front s0)); tail x) h (snd (front s0)).
Proof. run_M. destruct (front s0) as [[a|e] s1]; reflexivity. Qed.

Lemma api_front E f c s0 :
  youtube E = Some c ->
  let front :=
    (search_results ← search_videos_with_api E (search_input f) (max_results_input f);
     video_ids ← lift (comprehension
                         (fun item => i ← getitem item "id"; getitem i "videoId")
                         search_results);
     video_details ← get_video_details E video_ids;
     _ ← emit (FilterCall (use_api_checkbox f));
     lift (filter_videos_by_date_range E video_details (day_start (start_date f))
             (day_end (end_date f)) (use_api_checkbox f))) in
  exists rest,
    snd (front s0)
    = with_trace s0 (trace s0 ++ ApiSearch (search_input f) (max_results_input f) :: rest)
    /\ match (items ← search_list c (search_input f) (max_results_input f);
              ids ← comprehension item_video_id items;
              join_comma ids) with
       | Ret joined =>
           exists rest', rest = ApiVideos joined :: rest'
                         /\ forallb (fun ev => negb (is_upstream_event ev)) rest' = true
                         /\ fst (front s0)
                            = (details ← videos_list c joined;
                               filter_videos_by_date_range E details
                                 (day_start (start_date f)) (day_end (end_date f))
                                 (use_api_checkbox f))
       | Raise e => rest = [] /\ fst (front s0) = Raise e
       end.
Proof.
  intros Hc. cbn zeta. unfold search_videos_with_api, get_video_details. rewrite Hc.
  unfold item_video_id. run_M. proj_app.
  destruct (search_list c (search_input f) (max_results_input f)) as [items|e];
    cbn [py_bind]; [|eexists; repeat split; reflexivity].
  match goal with
  | |- context [comprehension ?g items] => destruct (comprehension g items) as [ids|e]
  end; cbn [py_bind]; [|eexists; repeat split; reflexivity].
  destruct (join_comma ids) as [joined|e]; [|eexists; repeat split; reflexivity].
  proj_app.
  destruct (videos_list c joined) as [details|e]; cbn [py_bind]; proj_app.
  - eexists. rewrite <- !app_assoc. split; [reflexivity|].
    eexists. repeat split; reflexivity.
  - eexists. rewrite <- !app_assoc. split; [reflexivity|].
    eexists. repeat split; reflexivity.
Qed.

Lemma scrape_front E f s0 :
  let front :=
    (search_results ← search_videos_without_api E (search_input f) (max_results_input f);
     match search_results with
     | [] => raise (ValueError "No results found")
     | _ =>
         _ ← emit (FilterCall (use_api_checkbox f));
         lift (filter_videos_by_date_range E search_results (day_start (start_date f))
                 (day_end (end_date f)) (use_api_checkbox f))
     end) in
  exists rest,
    snd (front s0)
    = with_trace s0 (trace s0 ++ Scrape (search_input f) (max_results_input f) :: rest)
    /\ forallb (fun ev => negb (is_upstream_event ev)) rest = true
    /\ fst (front s0)
       = match VideosSearch E (search_input f) (max_results_input f) with
         | Ret (v :: l) =>
             filter_videos_by_date_range E (v :: l) (day_start (start_date f))
               (day_end (end_date f)) (use_api_checkbox f)
         | _ => Raise (ValueError "No results found")
         end.
Proof.
  cbn zeta. run_M. rewrite search_videos_without_api_run.
  destruct (VideosSearch E (search_input f) (max_results_input f)) as [[|v l]|e];
    run_M; proj_app; eexists; rewrite <- ?app_assoc; repeat split; reflexivity.
Qed.

(** The front of the pipeline, on either branch: it returns what the
    filter returned or raises, and extends the trace. *)
Lemma pipeline_front E f s0 :
  let front :=
    (if use_api_checkbox f && bool_decide (is_Some (youtube E)) then
       search_results ← search_videos_with_api E (search_input f) (max_results_input f);
       video_ids ← lift (comprehension
                           (fun item => i ← getitem item "id"; getitem i "videoId")
                           search_results);
       video_details ← get_video_details E video_ids;
       _ ← emit (FilterCall (use_api_checkbox f));
       lift (filter_videos_by_date_range E video_details (day_start (start_date f))
               (day_end (end_date f)) (use_api_checkbox f))
     else
       search_results ← search_videos_without_api E (search_input f) (max_results_input f);
       match search_results with
       | [] => raise (ValueError "No results found")
       | _ =>
           _ ← emit (FilterCall (use_api_checkbox f));
           lift (filter_videos_by_date_range E search_results (day_start (start_date f))
                   (day_end (end_date f)) (use_api_checkbox f))
       end) in
  (exists evs, snd (front s0) = with_trace s0 (trace s0 ++ evs))
  /\ forall v l, fst (front s0) = Ret (v :: l) ->
       Forall (fun x => in_window E (day_start (start_date f)) (day_end (end_date f))
                          (use_api_checkbox f) x = true) (v :: l).
Proof.
  cbn zeta.
  assert (Hwin : forall videos v l,
            filter_videos_by_date_range E videos (day_start (start_date f))
              (day_end (end_date f)) (use_api_checkbox f) = Ret (v :: l) ->
            Forall (fun x => in_window E (day_start (start_date f)) (day_end (end_date f))
                               (use_api_checkbox f) x = true) (v :: l)).
  { intros videos v l H. apply filter_videos_by_date_range_ret in H as [_ ->].
    apply List.Forall_forall. intros x Hx. now apply List.filter_In in Hx. }
  destruct (use_api_checkbox f && bool_decide (is_Some (youtube E))) eqn:Hb.
  - apply andb_true_iff in Hb as [_ Hy]. apply bool_decide_eq_true in Hy as [c Hc].
    destruct (api_front E f c s0 Hc) as (rest & Hst & Hres). cbn zeta in Hst, Hres.
    split; [eexists; exact Hst|].
    intros v l Hfst.
    destruct (items ← search_list c (search_input f) (max_results_input f);
              ids ← comprehension item_video_id items; join_comma ids) as [joined|e].
    + destruct Hres as (rest' & _ & _ & Hres). rewrite Hres in Hfst.
      destruct (videos_list c joined) as [details|]; [|discriminate].
      rewrite py_bind_ret in Hfst. exact (Hwin _ _ _ Hfst).
    + destruct Hres as [_ Hres]. rewrite Hres in Hfst. discriminate.
  - destruct (scrape_front E f s0) as (rest & Hst & _ & Hres). cbn zeta in Hst, Hres.
    split; [eexists; exact Hst|].
    intros v l Hfst. rewrite Hres in Hfst.
    destruct (VideosSearch E (search_input f) (max_results_input f)) as [[|x xs]|];
      try discriminate.
    exact (Hwin _ _ _ Hfst).
Qed.

(** The pipeline is its tail, run on what its front returned. *)
Lemma search_and_display_videos_run E f s :
  exists (filtered : py (list value)) evs,
    (forall v l, filtered = Ret (v :: l) ->
       Forall (fun x => in_window E (day_start (start_date f)) (day_end (end_date f))
                          (use_api_checkbox f) x = true) (v :: l))
    /\ search_and_display_videos E f s
       = try_except_Exception
           (filtered_videos ← lift filtered;
            match filtered_videos with
            | [] => emit (Information "No Results" no_results_text)
            | _ => _ ← set_video_results filtered_videos; display_results filtered_videos
            end)
           (fun e =>
              _ ← emit (Print ("An error occurred: " ++ exn_str e));
              emit (Warning "Error" ("An error occurred: " ++ exn_str e)))
           (with_trace (snd (set_use_api (use_api_checkbox f) s)) (trace s ++ evs)).
Proof.
  unfold search_and_display_videos. cbn zeta.
  unfold mbind at 1, M_bind at 1. unfold set_use_api at 1.
  rewrite pipeline_split.
  match goal with
  | |- context [snd (?front ?st)] =>
      destruct (pipeline_front E f st) as [[evs Hst] Hwin]; cbn zeta in Hst, Hwin;
      exists (fst (front st)), evs
  end.
  split; [exact Hwin|]. rewrite Hst. reflexivity.
Qed.

(** Whatever the backends do, [search_and_display_videos] returns: every
    failure is caught, printed and shown.  It sets [use_api] to what the
    checkbox says, and touches neither the disk nor the transcripts. *)
Theorem search_and_display_videos_contained E f s :
  let r := search_and_display_videos E f s in
  fst r = Ret tt
  /\ self_use_api (snd r) = use_api_checkbox f
  /\ files (snd r) = files s
  /\ transcript_directory (snd r) = transcript_directory s
  /\ transcript_windows (snd r) = transcript_windows s
  /\ exists evs, trace (snd r) = (trace s ++ evs)%list.
Proof.
  cbn zeta. destruct (search_and_display_videos_run E f s) as (filtered & evs & _ & ->).
  match goal with
  | |- context [try_except_Exception _ _ ?st] =>
      destruct (pipeline_tail_state filtered st)
        as (Hret & Hfiles & Hdir & Hwin & Hflag & (evs' & Htrace & _) & _)
  end.
  cbn zeta in *.
  rewrite Hret, Hfiles, Hdir, Hwin, Hflag, Htrace.
  repeat split; try reflexivity.
  exists (evs ++ evs')%list. unfold with_trace. proj_app. now rewrite app_assoc.
Qed.


Lemma pipeline_tail_raise (e : exn) s0 :
  try_except_Exception
    (filtered_videos ← lift (Raise e);
     match filtered_videos with
     | [] => emit (Information "No Results" no_results_text)
     | _ => _ ← set_video_results filtered_videos; display_results filtered_videos
     end)
    (fun e =>
       _ ← emit (Print ("An error occurred: " ++ exn_str e));
       emit (Warning "Error" ("An error occurred: " ++ exn_str e))) s0
  = (Ret tt,
     with_trace s0 (trace s0 ++ [Print ("An error occurred: " ++ exn_str e);
                                 Warning "Error" ("An error occurred: " ++ exn_str e)])).
Proof. run_M. proj_app. now rewrite <- app_assoc. Qed.

(** With a credential and the box checked, the pipeline's first action
    is the authenticated search, and the scraping backend is never
    called.  When the search returns and every item has a string
    [id.videoId], one details call follows, for all the ids at once, joined
    by commas (also when there is no id at all), and no other upstream call
    is made.  When the search fails, or an item has no such id, the error
    is printed and shown, no details call is made and the stored results
    stay. *)
Theorem api_branch_calls E f s c :
  youtube E = Some c ->
  use_api_checkbox f = true ->
  let r := search_and_display_videos E f s in
  match (items ← search_list c (search_input f) (max_results_input f);
         ids ← comprehension item_video_id items;
         join_comma ids) with
  | Ret joined =>
      exists rest,
        trace (snd r)
        = (trace s ++ ApiSearch (search_input f) (max_results_input f)
                   :: ApiVideos joined :: rest)%list
        /\ forallb (fun ev => negb (is_upstream_event ev)) rest = true
  | Raise e =>
      trace (snd r)
      = (trace s ++ [ApiSearch (search_input f) (max_results_input f);
                     Print ("An error occurred: " ++ exn_str e);
                     Warning "Error" ("An error occurred: " ++ exn_str e)])%list
      /\ video_results (snd r) = video_results s
  end.
Proof.
  intros Hc Hcb. cbn zeta.
  assert (Hb : use_api_checkbox f && bool_decide (is_Some (youtube E)) = true)
    by (rewrite Hcb, Hc; apply bool_decide_eq_true_2; eauto).
  destruct (api_front E f c (snd (set_use_api (use_api_checkbox f) s)) Hc)
    as (rest & Hst & Hres).
  cbn zeta in Hst, Hres.
  assert (Hrun : search_and_display_videos E f s
                 = try_except_Exception
                     (filtered_videos ←
                        lift (match (items ← search_list c (search_input f)
                                                (max_results_input f);
                                     ids ← comprehension item_video_id items;
                                     join_comma ids) with
                              | Ret joined =>
                                  details ← videos_list c joined;
                                  filter_videos_by_date_range E details
                                    (day_start (start_date f)) (day_end (end_date f))
                                    (use_api_checkbox f)
                              | Raise e => Raise e
                              end);
                      match filtered_videos with
                      | [] => emit (Information "No Results" no_results_text)
                      | _ => _ ← set_video_results filtered_videos;
                             display_results filtered_videos
                      end)
                     (fun e =>
                        _ ← emit (Print ("An error occurred: " ++ exn_str e));
                        emit (Warning "Error" ("An error occurred: " ++ exn_str e)))
                     (with_trace (snd (set_use_api (use_api_checkbox f) s))
                        (trace s ++ ApiSearch (search_input f) (max_results_input f)
                                 :: rest))).
  { unfold search_and_display_videos. cbn zeta.
    unfold mbind at 1, M_bind at 1. unfold set_use_api at 1.
    rewrite Hb, pipeline_split. unfold set_use_api in Hst, Hres. cbn [snd] in Hst, Hres.
    rewrite Hst. f_equal. f_equal. f_equal.
    destruct (items ← search_list c (search_input f) (max_results_input f);
              ids ← comprehension item_video_id items; join_comma ids) as [joined|e].
    - destruct Hres as (rest' & _ & _ & Hfst). exact Hfst.
    - destruct Hres as [_ Hfst]. exact Hfst. }
  rewrite Hrun. clear Hrun Hst.
  destruct (items ← search_list c (search_input f) (max_results_input f);
            ids ← comprehension item_video_id items; join_comma ids) as [joined|e].
  - destruct Hres as (rest' & -> & Hrest' & _).
    match goal with
    | |- context [try_except_Exception (_ ← lift ?filtered; _) _ ?st] =>
        destruct (pipeline_tail_state filtered st)
          as (_ & _ & _ & _ & _ & (evs & Htrace & Hevs) & _)
    end.
    cbn zeta in Htrace. rewrite Htrace. unfold with_trace. proj_app.
    exists (rest' ++ evs)%list. rewrite <- app_assoc. split; [reflexivity|].
    now rewrite forallb_app, Hrest', Hevs.
  - destruct Hres as [-> _].
    rewrite pipeline_tail_raise. unfold with_trace. proj_app.
    now rewrite <- app_assoc.
Qed.

Lemma api_branch_calls_witness :
  exists rest,
    trace (snd (search_and_display_videos api_env may_to_december sample_app))
    = (trace sample_app ++ ApiSearch "cats" 50 :: ApiVideos "a,b" :: rest)%list
    /\ forallb (fun ev => negb (is_upstream_event ev)) rest = true.
Proof.
  exact (api_branch_calls api_env may_to_december sample_app sample_client
           eq_refl eq_refl).
Defined.

(** The box "Use YouTube API" is checked and there is no credential: the
    pipeline scrapes, and then filters the scraped records as if they came
    from the API.  A first record that has no ['snippet'] entry, as
    scraped records have not, makes the filter raise [KeyError]: the
    pipeline reports the error 'snippet', stores nothing and displays
    nothing, whatever was found. *)
Theorem checked_box_without_credential E f s d l :
  youtube E = None ->
  use_api_checkbox f = true ->
  VideosSearch E (search_input f) (max_results_input f) = Ret (VDict d :: l) ->
  d !! "snippet" = None ->
  search_and_display_videos E f s
  = (Ret tt,
     with_trace (snd (set_use_api true s))
       (trace s ++ [Scrape (search_input f) (max_results_input f);
                    FilterCall true;
                    Print "An error occurred: 'snippet'";
                    Warning "Error" "An error occurred: 'snippet'"])).
Proof.
  intros Hnone Hcb Hup Hd. unfold search_and_display_videos. cbn zeta.
  unfold mbind at 1, M_bind at 1. unfold set_use_api at 1.
  assert (Hb : use_api_checkbox f && bool_decide (is_Some (youtube E)) = false)
    by (rewrite Hcb, Hnone; apply bool_decide_eq_false_2; intros [? ?]; discriminate).
  rewrite Hb, Hcb. run_M. rewrite search_videos_without_api_run, Hup. proj_app.
  unfold filter_videos_by_date_range. cbn [filter_loop publish_date getitem].
  rewrite Hd. cbn [mbind py_bind]. unfold with_trace. proj_app.
  rewrite <- !app_assoc. reflexivity.
Qed.

Lemma checked_box_without_credential_witness :
  trace (snd (search_and_display_videos transcript_env (sample_form true) sample_app))
  = [Scrape "cats" 50; FilterCall true;
     Print "An error occurred: 'snippet'";
     Warning "Error" "An error occurred: 'snippet'"].
Proof.
  rewrite (checked_box_without_credential transcript_env (sample_form true) sample_app
             (list_to_map [("id", VStr "v1"); ("title", VStr "Cats");
                           ("publishedTime", VStr "2 days ago")]) []
             eq_refl eq_refl eq_refl eq_refl).
  reflexivity.
Defined.

(** ** The details call *)

(** [','.join] of strings is their concatenation with commas between. *)
Lemma join_comma_strings ids : join_comma (map VStr ids) = Ret (String.concat "," ids).
Proof.
  induction ids as [|a ids IH]; [reflexivity|].
  cbn [map join_comma String.concat].
  destruct ids as [|b ids]; [reflexivity|].
  cbn [map] in *. rewrite IH. reflexivity.
Qed.

Lemma join_comma_not_str pre v post :
  type_name v <> "str" ->
  join_comma (map VStr pre ++ v :: post)%list
  = Raise (TypeError ("sequence item: expected str instance, " ++ type_name v ++ " found")).
Proof.
  intros Hv. induction pre as [|a pre IH]; cbn [map List.app join_comma].
  - destruct v; try reflexivity. now contradiction Hv.
  - rewrite IH. destruct (map VStr pre ++ v :: post)%list eqn:Hl; [|reflexivity].
    now destruct pre.
Qed.

(** With a client, [get_video_details] asks for the details of all the
    ids in one call, the ids joined by commas, and returns what the call
    returns or raises what it raises.  An id that is not a string makes the
    join raise [TypeError]: no call is made then. *)
Theorem get_video_details_one_call E c s :
  youtube E = Some c ->
  (forall ids,
     get_video_details E (map VStr ids) s
     = (videos_list c (String.concat "," ids),
        with_trace s (trace s ++ [ApiVideos (String.concat "," ids)])))
  /\ (forall pre v post,
        type_name v <> "str" ->
        get_video_details E (map VStr pre ++ v :: post)%list s
        = (Raise (TypeError ("sequence item: expected str instance, "
                             ++ type_name v ++ " found")), s)).
Proof.
  intros Hc. unfold get_video_details. rewrite Hc. split.
  - intros ids. run_M. now rewrite join_comma_strings.
  - intros pre v post Hv. run_M. now rewrite join_comma_not_str.
Qed.

Lemma get_video_details_one_call_witness :
  get_video_details api_env [VStr "a"; VStr "b"; VStr "c"] sample_app
  = (videos_list sample_client "a,b,c", with_trace sample_app [ApiVideos "a,b,c"]).
Proof.
  exact (proj1 (get_video_details_one_call api_env sample_client sample_app eq_refl)
           ["a"; "b"; "c"]).
Defined.

(** ** The rows displayed and the rows exported *)

(** When the fields of every video resolve, [display_results] replaces
    what was displayed by one row a video, in the order of the videos, and
    changes nothing else. *)
Theorem display_results_rows videos s rows :
  comprehension (video_fields (self_use_api s)) videos = Ret rows ->
  display_results videos s = (Ret tt, with_results_layout s rows).
Proof.
  intros Hrows. unfold display_results.
  unfold mbind at 1, M_bind at 1. unfold set_results_layout at 1.
  fold (with_results_layout s []).
  rewrite (display_loop_rows videos (with_results_layout s []) rows Hrows).
  reflexivity.
Qed.

Lemma display_results_rows_witness :
  results_layout
    (snd (display_results [scraped_recent; scraped_old] (with_results_layout sample_app
            [{| r_title := NA; r_channel := NA; r_views := NA; r_published := NA;
                r_video_id := NA |}])))
  = [{| r_title := VStr "Cats"; r_channel := NA; r_views := NA;
        r_published := VStr "2 days ago"; r_video_id := VStr "v1" |};
     {| r_title := NA; r_channel := NA; r_views := NA;
        r_published := VStr "3 weeks ago"; r_video_id := VStr "v2" |}].
Proof.
  rewrite (display_results_rows [scraped_recent; scraped_old] _
             [{| r_title := VStr "Cats"; r_channel := NA; r_views := NA;
                 r_published := VStr "2 days ago"; r_video_id := VStr "v1" |};
              {| r_title := NA; r_channel := NA; r_views := NA;
                 r_published := VStr "3 weeks ago"; r_video_id := VStr "v2" |}]);
    reflexivity.
Defined.

(** A video whose fields fail stops [display_results]: the exception
    leaves the function, and the display holds the rows of the videos
    before it, the previous rows being gone. *)
Theorem display_results_partial pre bad post s rows e :
  comprehension (video_fields (self_use_api s)) pre = Ret rows ->
  video_fields (self_use_api s) bad = Raise e ->
  display_results (pre ++ bad :: post)%list s = (Raise e, with_results_layout s rows).
Proof.
  intros Hrows Hbad. unfold display_results.
  unfold mbind at 1, M_bind at 1. unfold set_results_layout at 1.
  fold (with_results_layout s []).
  rewrite (display_loop_partial pre (with_results_layout s []) rows bad post e Hrows Hbad).
  reflexivity.
Qed.

Lemma display_results_partial_witness :
  display_results
    [api_details "a" "2024-01-01T00:00:00Z"; api_video_without_statistics;
     api_details "b" "2024-06-01T00:00:00Z"]
    (snd (set_use_api true sample_app))
  = (Raise (KeyError "statistics"),
     with_results_layout (snd (set_use_api true sample_app))
       [{| r_title := VStr "Video a"; r_channel := VStr "Pets"; r_views := VStr "42";
           r_published := VStr "2024-01-01T00:00:00Z"; r_video_id := VStr "a" |}]).
Proof.
  apply (display_results_partial [api_details "a" "2024-01-01T00:00:00Z"]
           api_video_without_statistics [api_details "b" "2024-06-01T00:00:00Z"]);
    reflexivity.
Defined.

(** When the file can be opened and the fields of every video resolve,
    [export_to_csv] leaves a file that holds the header row and then one
    row a video, in the order of the videos, whatever the file held
    before; no other file changes. *)
Theorem export_to_csv_writes E videos filename use_api s rows :
  open_fails E filename = None ->
  comprehension (video_fields use_api) videos = Ret rows ->
  export_to_csv E videos filename use_api s
  = (Ret tt, with_files s (<[filename := Csv (csv_header :: map csv_row rows)]> (files s))).
Proof.
  intros Hopen Hrows.
  exact (export_to_csv_ok E videos filename use_api s rows Hopen Hrows).
Qed.

Lemma export_to_csv_writes_witness :
  files (snd (export_to_csv sample_env [scraped_recent; scraped_old] "out.csv" false
                (with_files sample_app {[ "out.csv" := Text "old"; "b.csv" := Text "b" ]})))
  = {[ "out.csv" := Csv [csv_header;
                         [VStr "Cats"; NA; NA; VStr "2 days ago"; VStr "v1"];
                         [NA; NA; NA; VStr "3 weeks ago"; VStr "v2"]];
       "b.csv" := Text "b" ]}.
Proof.
  rewrite (export_to_csv_writes sample_env [scraped_recent; scraped_old] "out.csv" false _
             [{| r_title := VStr "Cats"; r_channel := NA; r_views := NA;
                 r_published := VStr "2 days ago"; r_video_id := VStr "v1" |};
              {| r_title := NA; r_channel := NA; r_views := NA;
                 r_published := VStr "3 weeks ago"; r_video_id := VStr "v2" |}]);
    [|reflexivity..].
  vm_compute. reflexivity.
Defined.

(** A video whose fields fail stops [export_to_csv]: the exception leaves
    the function, and the file is left with the header and the rows of the
    videos before it.  When the file cannot be opened, nothing is
    written. *)
Theorem export_to_csv_truncated E pre bad post filename use_api s rows e :
  comprehension (video_fields use_api) pre = Ret rows ->
  video_fields use_api bad = Raise e ->
  match open_fails E filename with
  | None =>
      export_to_csv E (pre ++ bad :: post)%list filename use_api s
      = (Raise e,
         with_files s (<[filename := Csv (csv_header :: map csv_row rows)]> (files s)))
  | Some e' =>
      export_to_csv E (pre ++ bad :: post)%list filename use_api s = (Raise e', s)
  end.
Proof.
  intros Hpre Hbad. destruct (open_fails E filename) as [e'|] eqn:Hopen.
  - now apply export_to_csv_open_fails.
  - now apply export_to_csv_fails.
Qed.

Lemma export_to_csv_truncated_witness :
  export_to_csv sample_env
    [api_details "a" "2024-01-01T00:00:00Z"; api_video_without_statistics]
    "out.csv" true sample_app
  = (Raise (KeyError "statistics"),
     with_files sample_app
       (<["out.csv" := Csv [csv_header;
                            [VStr "Video a"; VStr "Pets"; VStr "42";
                             VStr "2024-01-01T00:00:00Z"; VStr "a"]]]> ∅)).
Proof.
  exact (export_to_csv_truncated sample_env [api_details "a" "2024-01-01T00:00:00Z"]
           api_video_without_statistics [] "out.csv" true sample_app
           [{| r_title := VStr "Video a"; r_channel := VStr "Pets"; r_views := VStr "42";
               r_published := VStr "2024-01-01T00:00:00Z"; r_video_id := VStr "a" |}]
           (KeyError "statistics") eq_refl eq_refl).
Defined.

(** ** [export_results] *)

(** Exporting changes the files alone. *)
Lemma export_to_csv_state E videos filename use_api s :
  exists disk, snd (export_to_csv E videos filename use_api s) = with_files s disk.
Proof.
  destruct (open_fails E filename) as [e'|] eqn:Hopen.
  - exists (files s). rewrite (export_to_csv_open_fails _ _ _ _ _ _ Hopen). now destruct s.
  - destruct (comprehension_cases (video_fields use_api) videos)
      as [[rows H] | (pre & bad & post & rows & e & -> & Hpre & Hbad)].
    + eexists. now rewrite (export_to_csv_ok _ _ _ _ _ _ Hopen H).
    + eexists. now rewrite (export_to_csv_fails _ _ _ _ _ _ _ _ _ Hopen Hpre Hbad).
Qed.

(** Without stored results (no search was made, or none that kept a
    result) [export_results] shows the warning "No Results"; with stored
    results and a cancelled dialog it does nothing.  In both cases no file
    is written. *)
Theorem export_results_writes_nothing E file_name s :
  video_results s = None \/ video_results s = Some [] \/ file_name = "" ->
  export_results E file_name s
  = (Ret tt,
     match video_results s with
     | Some (_ :: _) => s
     | _ => with_trace s
              (trace s ++ [Warning "No Results"
                             "No results to export. Please perform a search first."])
     end).
Proof.
  intros H. unfold export_results. run_M.
  destruct s as [disk tr dir wins layout [[|v l]|] flag]; proj_app; try reflexivity.
  cbn [video_results] in H. destruct H as [H | [H | ->]]; try discriminate. reflexivity.
Qed.

Lemma export_results_writes_nothing_witness :
  export_results sample_env "out.csv" sample_app
  = (Ret tt,
     with_trace sample_app
       [Warning "No Results" "No results to export. Please perform a search first."]).
Proof.
  apply (export_results_writes_nothing sample_env "out.csv" sample_app).
  left. reflexivity.
Defined.

(** With stored results and a file chosen, [export_results] exports the
    stored records with the [use_api] of the last search, and then tells
    how many it exported. *)
Theorem export_results_exports_stored E file_name s v l rows :
  video_results s = Some (v :: l) ->
  file_name <> "" ->
  open_fails E file_name = None ->
  comprehension (video_fields (self_use_api s)) (v :: l) = Ret rows ->
  export_results E file_name s
  = (Ret tt,
     with_trace
       (with_files s (<[file_name := Csv (csv_header :: map csv_row rows)]> (files s)))
       (trace s ++ [Information "Export Successful"
                      ("Exported " ++ decimal (Z.of_nat (length (v :: l)))
                       ++ " videos to " ++ file_name)])).
Proof.
  intros Hres Hname Hopen Hrows. unfold export_results.
  unfold mbind at 1, M_bind at 1. unfold get_state at 1. rewrite Hres.
  apply String.eqb_neq in Hname. rewrite Hname.
  unfold mbind at 1, M_bind at 1.
  rewrite (export_to_csv_ok _ _ _ _ _ _ Hopen Hrows). reflexivity.
Qed.

Lemma export_results_exports_stored_witness :
  export_results sample_env "out.csv" (snd (set_video_results [scraped_recent] sample_app))
  = (Ret tt,
     with_trace
       (with_files (snd (set_video_results [scraped_recent] sample_app))
          {[ "out.csv" := Csv [csv_header;
                               [VStr "Cats"; NA; NA; VStr "2 days ago"; VStr "v1"]] ]})
       [Information "Export Successful" "Exported 1 videos to out.csv"]).
Proof.
  rewrite (export_results_exports_stored sample_env "out.csv" _ scraped_recent []
             [{| r_title := VStr "Cats"; r_channel := NA; r_views := NA;
                 r_published := VStr "2 days ago"; r_video_id := VStr "v1" |}]);
    [reflexivity | reflexivity | discriminate | reflexivity | reflexivity].
Defined.

(** [export_results] has no handler: what [export_to_csv] raises, on a
    file that cannot be opened or on a record that lacks a field, leaves
    the function, and no message is shown. *)
Theorem export_results_propagates E file_name s v l e :
  video_results s = Some (v :: l) ->
  file_name <> "" ->
  fst (export_to_csv E (v :: l) file_name (self_use_api s) s) = Raise e ->
  fst (export_results E file_name s) = Raise e
  /\ trace (snd (export_results E file_name s)) = trace s.
Proof.
  intros Hres Hname Hraise. unfold export_results.
  unfold mbind at 1 3, M_bind at 1 3. unfold get_state at 1 2. rewrite Hres.
  apply String.eqb_neq in Hname. rewrite Hname.
  unfold mbind, M_bind.
  destruct (export_to_csv_state E (v :: l) file_name (self_use_api s) s) as [disk Hst].
  destruct (export_to_csv E (v :: l) file_name (self_use_api s) s) as [[[]|e'] s'];
    cbn [fst snd] in *; [discriminate|].
  injection Hraise as ->. subst s'. split; reflexivity.
Qed.

Lemma export_results_propagates_witness :
  fst (export_results sample_env "out.csv" searched_without_key)
  = Raise (KeyError "snippet")
  /\ trace (snd (export_results sample_env "out.csv" searched_without_key))
     = trace searched_without_key.
Proof.
  apply (export_results_propagates sample_env "out.csv" searched_without_key
           scraped_recent []);
    [reflexivity | discriminate | reflexivity].
Defined.

(** ** More on transcripts *)

(** The three ways [show_transcript] can go. *)
Lemma show_transcript_run E video_id s :
  let path := os_path_join (transcript_directory s) (video_id ++ "_transcript.txt") in
  show_transcript E video_id s
  = match get_transcript E video_id with
    | Raise e =>
        (Ret tt,
         with_trace s
           (trace s ++ [TranscriptRequest video_id;
                        Warning "Transcription Error"
                          ("Could not retrieve or save transcript: " ++ exn_str e)]))
    | Ret transcript =>
        match open_fails E path with
        | Some e =>
            (Ret tt,
             with_trace s
               (trace s ++ [TranscriptRequest video_id;
                            Warning "Transcription Error"
                              ("Could not retrieve or save transcript: " ++ exn_str e)]))
        | None =>
            (Ret tt,
             snd (set_transcript_windows (transcript_windows s ++ [video_id])
                    (with_trace
                       (with_files s
                          (<[path := Text (join_lines (map transcript_line transcript))]>
                             (files s)))
                       (trace s ++ [TranscriptRequest video_id;
                                    Information "Transcript Saved"
                                      ("Transcript saved to: " ++ path)]))))
        end
    end.
Proof.
  cbn zeta. unfold show_transcript, open_w. run_M.
  destruct (get_transcript E video_id) as [transcript|e]; proj_app.
  - destruct (open_fails E (os_path_join (transcript_directory s)
                              (video_id ++ "_transcript.txt"))) as [e|];
      unfold with_files; proj_app; rewrite <- !app_assoc; reflexivity.
  - rewrite <- !app_assoc. reflexivity.
Qed.

(** When the transcript file cannot be opened, [show_transcript] shows
    the warning that carries the error's message and returns: no file is
    written and no window is opened, though the provider has answered. *)
Theorem show_transcript_open_fails E video_id s transcript e :
  get_transcript E video_id = Ret transcript ->
  open_fails E (os_path_join (transcript_directory s) (video_id ++ "_transcript.txt"))
  = Some e ->
  show_transcript E video_id s
  = (Ret tt,
     with_trace s
       (trace s ++ [TranscriptRequest video_id;
                    Warning "Transcription Error"
                      ("Could not retrieve or save transcript: " ++ exn_str e)])).
Proof.
  intros Hup Hopen. rewrite show_transcript_run. cbn zeta. now rewrite Hup, Hopen.
Qed.

Lemma show_transcript_open_fails_witness :
  show_transcript read_only_env "abc123" sample_app
  = (Ret tt,
     with_trace sample_app
       [TranscriptRequest "abc123";
        Warning "Transcription Error"
          "Could not retrieve or save transcript: [Errno 13] Permission denied"]).
Proof.
  exact (show_transcript_open_fails read_only_env "abc123" sample_app sample_transcript
           (OSError "[Errno 13] Permission denied") eq_refl eq_refl).
Defined.

(** Whatever the provider and the disk do, [show_transcript] returns.  It
    makes one upstream call and then shows one message, the information
    "Transcript Saved" or the warning "Transcription Error", and nothing
    else; it changes no file but the transcript file of the video, and
    leaves the search results, what is displayed and the transcript
    directory as they were. *)
Theorem show_transcript_contained E video_id s :
  let path := os_path_join (transcript_directory s) (video_id ++ "_transcript.txt") in
  let r := show_transcript E video_id s in
  fst r = Ret tt
  /\ (forall p, p <> path -> files (snd r) !! p = files s !! p)
  /\ (exists body,
        trace (snd r)
        = (trace s ++ [TranscriptRequest video_id;
                       Information "Transcript Saved" body])%list
        \/ trace (snd r)
           = (trace s ++ [TranscriptRequest video_id;
                          Warning "Transcription Error" body])%list)
  /\ video_results (snd r) = video_results s
  /\ results_layout (snd r) = results_layout s
  /\ transcript_directory (snd r) = transcript_directory s
  /\ self_use_api (snd r) = self_use_api s.
Proof.
  cbn zeta. rewrite show_transcript_run. cbn zeta.
  destruct (get_transcript E video_id) as [transcript|e];
    [destruct (open_fails E (os_path_join (transcript_directory s)
                               (video_id ++ "_transcript.txt"))) as [e|]|];
    unfold set_transcript_windows, with_trace, with_files; proj_app;
    repeat split; try reflexivity;
    try (eexists; right; reflexivity).
  - intros p Hp. now rewrite lookup_insert_ne.
  - eexists. left. reflexivity.
Qed.

(** Fetching the transcript of a video a second time leaves the disk as
    the first fetch left it. *)
Theorem show_transcript_twice E video_id s :
  files (snd (show_transcript E video_id (snd (show_transcript E video_id s))))
  = files (snd (show_transcript E video_id s)).
Proof.
  rewrite !show_transcript_run. cbn zeta.
  destruct (get_transcript E video_id) as [transcript|e]; [|reflexivity].
  destruct (open_fails E (os_path_join (transcript_directory s)
                            (video_id ++ "_transcript.txt"))) as [e|] eqn:Hopen;
    unfold set_transcript_windows, with_trace, with_files; proj_app;
    rewrite Hopen; proj_app; [reflexivity|].
  apply insert_insert_eq.
Qed.

(** ** The transcript directory *)

(** After the transcript directory was changed, a transcript is written
    under the new directory; the files written before stay where they
    are.  A cancelled dialog changes nothing. *)
Theorem transcripts_follow_directory E new_directory video_id s transcript :
  new_directory <> "" ->
  get_transcript E video_id = Ret transcript ->
  open_fails E (os_path_join new_directory (video_id ++ "_transcript.txt")) = None ->
  let s1 := snd (change_transcript_directory new_directory s) in
  transcript_directory s1 = new_directory
  /\ files s1 = files s
  /\ trace s1 = (trace s ++ [Information "Directory Changed"
                               ("Transcript directory changed to: " ++ new_directory)])%list
  /\ files (snd (show_transcript E video_id s1))
     = <[os_path_join new_directory (video_id ++ "_transcript.txt")
         := Text (join_lines (map transcript_line transcript))]> (files s)
  /\ change_transcript_directory "" s = (Ret tt, s).
Proof.
  intros Hnew Hup Hopen. cbn zeta.
  apply String.eqb_neq in Hnew.
  assert (Hs1 : snd (change_transcript_directory new_directory s)
                = with_trace (snd (set_transcript_directory new_directory s))
                    (trace s ++ [Information "Directory Changed"
                                   ("Transcript directory changed to: " ++ new_directory)])).
  { unfold change_transcript_directory. rewrite Hnew.
    unfold set_transcript_directory. run_M. reflexivity. }
  rewrite Hs1. unfold set_transcript_directory, with_trace. proj_app.
  repeat split; try reflexivity.
  rewrite show_transcript_run. cbn zeta. proj_app. rewrite Hup, Hopen. reflexivity.
Qed.

Lemma transcripts_follow_directory_witness :
  files (snd (show_transcript transcript_env "xyz"
                (snd (change_transcript_directory "/home/u/notes"
                        (snd (show_transcript transcript_env "abc123" sample_app))))))
  = {[ "/tmp/t/abc123_transcript.txt"
       := Text ("0.00 - hello" ++ String "010" "1.25 - cats");
       "/home/u/notes/xyz_transcript.txt"
       := Text ("0.00 - hello" ++ String "010" "1.25 - cats") ]}.
Proof.
  destruct (transcripts_follow_directory transcript_env "/home/u/notes" "xyz"
              (snd (show_transcript transcript_env "abc123" sample_app))
              sample_transcript)
    as (_ & _ & _ & Hfiles & _); [discriminate | reflexivity | reflexivity |].
  cbn zeta in Hfiles. rewrite Hfiles. vm_compute. reflexivity.
Defined.
